(** * skies-adsb: maps/build-map-layers.py

    A shallow embedding of the map-layer build script and the properties
    of its specification.

    The script is a straight-line pipeline: parse the command line,
    resolve the origin, derive a bounding box, clean the output
    directory, clip the Natural Earth and FAA layers, fetch the OSM
    aerodromes.  It is embedded as a state-passing program over a file
    system (a finite map from paths to contents), the lines printed on
    standard output and the exceptions Python raises.  Numbers are
    binary64 floats, as Python's [float]; the libraries the script calls
    (geopandas, shapely's clipping, requests, osmtogeojson, the
    [float] and [repr] builtins on strings) are variables of the
    sections that use them. *)

From Stdlib Require Import Ascii String Floats QArith Qabs Lqa.
From stdpp Require Import gmap strings list fin_maps.

Local Open Scope string_scope.

Set Warnings "-register-all".

(** ** Characters Python writes with an escape *)

Definition nl : string := String "010"%char EmptyString.
Definition tab : string := String "009"%char EmptyString.
Definition dq : string := String "034"%char EmptyString.

(** ** Python values the script tests for truth *)

(** [bool(s)] on a [str]: every string but the empty one is true. *)
Definition py_bool_str (s : string) : bool :=
  match s with
  | EmptyString => false
  | String _ _ => true
  end.

(** ** The arithmetic the script uses

    [+], [-] and [abs] are taken through an interface with two
    instances: binary64 (what the program computes) and exact rational
    arithmetic (what the formulas mean without rounding). *)

Class Arith (F : Type) := {
  Fadd : F -> F -> F;
  Fsub : F -> F -> F;
  Fabs : F -> F
}.

#[global] Instance float_Arith : Arith float := {|
  Fadd := PrimFloat.add;
  Fsub := PrimFloat.sub;
  Fabs := PrimFloat.abs
|}.

#[global] Instance Q_Arith : Arith Q := {|
  Fadd := Qplus;
  Fsub := Qminus;
  Fabs := Qabs
|}.

(** ** Origin & bounding-box resolver (lines 60-77) *)

Module Resolver.

(** The box as the script passes it around: (WEST, NORTH, EAST, SOUTH). *)
Record bbox (F : Type) := BBox { WEST : F; NORTH : F; EAST : F; SOUTH : F }.
Arguments BBox {F}.
Arguments WEST {F}.
Arguments NORTH {F}.
Arguments EAST {F}.
Arguments SOUTH {F}.

Section Box.
Context {F : Type} `{Arith F}.

(** Lines 63-71: the explicit pair is used only when both members are
    given; the result is stripped of its sign. *)
Definition ORIGIN_LEFT (origin_distance : F) (origin_left origin_top : option F) : F :=
  Fabs (match origin_left, origin_top with
        | Some l, Some _ => l
        | _, _ => origin_distance
        end).

Definition ORIGIN_TOP (origin_distance : F) (origin_left origin_top : option F) : F :=
  Fabs (match origin_left, origin_top with
        | Some _, Some t => t
        | _, _ => origin_distance
        end).

(** Lines 74-77. *)
Definition bounding_box (ORIGIN_LAT ORIGIN_LON : F)
    (origin_distance : F) (origin_left origin_top : option F) : bbox F :=
  let left := ORIGIN_LEFT origin_distance origin_left origin_top in
  let top := ORIGIN_TOP origin_distance origin_left origin_top in
  {| WEST := Fsub ORIGIN_LON left;
     EAST := Fadd ORIGIN_LON left;
     NORTH := Fadd ORIGIN_LAT top;
     SOUTH := Fsub ORIGIN_LAT top |}.
End Box.

End Resolver.

(** ** The Python run time the script relies on *)

(** The exceptions that occur, all subclasses of [Exception]; each
    carries the text [str(e)] gives. *)
Inductive exn : Type :=
  | FileNotFoundError (msg : string)
  | FileExistsError (msg : string)
  | AttributeError (msg : string)
  | ValueError (msg : string)
  | KeyError (msg : string)
  | TypeError (msg : string)
  | LibraryError (msg : string)
  | NotADirectoryError (msg : string)
  | IsADirectoryError (msg : string).

Definition exn_str (e : exn) : string :=
  match e with
  | FileNotFoundError m | FileExistsError m | AttributeError m
  | ValueError m | KeyError m | TypeError m | LibraryError m
  | NotADirectoryError m | IsADirectoryError m => m
  end.

Inductive result (A : Type) : Type :=
  | Ok (a : A)
  | Raise (e : exn).
Arguments Ok {A}.
Arguments Raise {A}.

(** ** Geometries and vector layers *)

Record coord := Coord { cx : float; cy : float; cz : option float }.

(** A ring or a line is its coordinate sequence; a polygon is its
    exterior ring and the rings of its holes. *)
Record polygon := MkPolygon {
  exterior : list coord;
  interiors : list (list coord)
}.

Inductive geometry : Type :=
  | Point (c : option coord)
  | LineString (coords : list coord)
  | LinearRing (coords : list coord)
  | Polygon (p : polygon)
  | MultiPoint (cs : list coord)
  | MultiLineString (lines : list (list coord))
  | MultiPolygon (geoms : list polygon)
  | GeometryCollection (gs : list geometry).

(** A cell of an attribute column. *)
Inductive cell : Type :=
  | CNone
  | CStr (s : string)
  | CNum (x : float).

(** A row of a GeoDataFrame: the geometry (possibly missing) and the
    attribute cells by column name. *)
Record feature := Feature {
  feat_geometry : option geometry;
  feat_attrs : list (string * cell)
}.

Record GeoDataFrame := GDF {
  crs : option string;
  columns : list string;
  rows : list feature
}.

(** ** JSON documents *)

Inductive json : Type :=
  | JNull
  | JBool (b : bool)
  | JNum (x : float)
  | JStr (s : string)
  | JArr (items : list json)
  | JObj (members : list (string * json)).

(** [d[key] = v] on the members of a [dict]: an existing key keeps its
    place, a new one goes last. *)
Fixpoint dict_set (key : string) (v : json) (members : list (string * json))
    : list (string * json) :=
  match members with
  | [] => [(key, v)]
  | (k, x) :: rest =>
      if String.eqb k key then (k, v) :: rest else (k, x) :: dict_set key v rest
  end.

Definition json_setitem (j : json) (key : string) (v : json) : result json :=
  match j with
  | JObj members => Ok (JObj (dict_set key v members))
  | JArr _ => Raise (TypeError "list indices must be integers or slices, not str")
  | _ => Raise (TypeError "object does not support item assignment")
  end.

(** ** The world the script runs in *)

(** What a file holds: a vector data set (a shapefile, or the GeoJSON
    that [to_file] writes), or the JSON document [json.dump] writes. *)
Inductive content : Type :=
  | Vector (g : GeoDataFrame)
  | JsonText (j : json).

Record world := World {
  files : gmap string content;
  dirs : gset string;
  stdout : list string
}.

Inductive outcome : Type :=
  | Completed
  | Exited (status : Z)
  | Uncaught (e : exn).

(** The status the interpreter hands to the shell. *)
Definition exit_status (o : outcome) : Z :=
  match o with
  | Completed => 0
  | Exited n => n
  | Uncaught _ => 1
  end.

(** Statements: a state transformer that returns or raises.  The world
    reached when an exception is raised is kept. *)
Definition M (A : Type) : Type := world -> result A * world.

#[global] Instance M_ret : MRet M := fun A a w => (Ok a, w).

#[global] Instance M_bind : MBind M := fun A B f m w =>
  match m w with
  | (Ok a, w') => f a w'
  | (Raise e, w') => (Raise e, w')
  end.

Definition raise {A : Type} (e : exn) : M A := fun w => (Raise e, w).

Definition lift {A : Type} (r : result A) : M A := fun w => (r, w).

(** [try: body except Exception as e: handler]. *)
Definition try_except {A : Type} (body : M A) (handler : exn -> M A) : M A :=
  fun w =>
    match body w with
    | (Ok a, w') => (Ok a, w')
    | (Raise e, w') => handler e w'
    end.

Definition print (line : string) : M unit :=
  fun w => (Ok tt, World (files w) (dirs w) (stdout w ++ [line])).

(** [for x in xs: body x]. *)
Fixpoint for_each {A : Type} (xs : list A) (body : A -> M unit) : M unit :=
  match xs with
  | [] => mret tt
  | x :: rest => _ ← body x; for_each rest body
  end.

(** *** Files *)

Definition write_file (path : string) (c : content) : M unit :=
  fun w => (Ok tt, World (<[path := c]> (files w)) (dirs w) (stdout w)).

(** [os.remove(path)]: it removes a file, and raises on a directory
    ([unlink] gives [EISDIR] there) and on a path that names nothing. *)
Definition os_remove (path : string) : M unit :=
  fun w =>
    match files w !! path with
    | Some _ => (Ok tt, World (delete path (files w)) (dirs w) (stdout w))
    | None =>
        if bool_decide (path ∈ dirs w)
        then (Raise (IsADirectoryError ("[Errno 21] Is a directory: '" ++ path ++ "'")), w)
        else (Raise (FileNotFoundError
                       ("[Errno 2] No such file or directory: '" ++ path ++ "'")), w)
    end.

(** The head [os.path.split] gives for a relative path written with
    single slashes: what stands before the last slash. *)
Fixpoint dirname (path : string) : string :=
  match path with
  | EmptyString => EmptyString
  | String c rest =>
      match index 0 "/" rest with
      | Some _ => String c (dirname rest)
      | None => EmptyString
      end
  end.

(** [os.makedirs(path, exist_ok=True)] on a path [head/tail] whose
    [head] lies in a directory that exists, as [../public/map-data]
    does.  A [head] that is not there is made first, then [path];
    directories that exist are accepted.  [mkdir] fails on [path] with
    [ENOTDIR] when [head] is a file and with [EEXIST] when [path] is a
    file. *)
Definition os_makedirs (path : string) : M unit :=
  fun w =>
    let head := dirname path in
    match files w !! head, files w !! path with
    | Some _, _ =>
        (Raise (NotADirectoryError ("[Errno 20] Not a directory: '" ++ path ++ "'")), w)
    | None, Some _ =>
        (Raise (FileExistsError ("[Errno 17] File exists: '" ++ path ++ "'")), w)
    | None, None =>
        (Ok tt, World (files w) ({[path]} ∪ ({[head]} ∪ dirs w)) (stdout w))
    end.

(** ** Command line and environment (lines 22-48) *)

(** The value given to each option on the command line, [None] when the
    option is omitted.  Every option takes one argument.

    A [cli] stands for a command line that argparse splits without
    complaint: options of this parser only, under their full names,
    each at most once and each with its value, written [--name=value]
    or [--name value] with a value that does not look like an option,
    and no [-h].  What argparse does with any other command line (it
    exits with status 2 on an unknown option, on a missing value and on
    a value such as [-1e1] that it takes for an option, and with status
    0 after [-h]) is not part of this model: only the conversions that
    lines 23-30 ask for are. *)
Record cli := Cli {
  cli_origin_lat : option string;
  cli_origin_lon : option string;
  cli_origin_distance : option string;
  cli_origin_left : option string;
  cli_origin_top : option string;
  cli_show_geopandas_warnings : option string;
  cli_build_110m_maps : option string;
  cli_skip_aerodromes : option string
}.

(** The namespace [parser.parse_args()] returns. *)
Record args := Args {
  origin_lat : option float;
  origin_lon : option float;
  origin_distance : float;
  origin_left : option float;
  origin_top : option float;
  show_geopandas_warnings : bool;
  build_110m_maps : bool;
  skip_aerodromes : bool
}.

Definition DEFAULT_ORIGIN_DISTANCE : float := 2%float.

(** [add_argument(..., type=bool, default=False)]: argparse applies
    [bool] to the string given, and keeps the default when the option is
    omitted. *)
Definition bool_flag (given : option string) : bool :=
  match given with
  | None => false
  | Some s => py_bool_str s
  end.

(** What [origin_lat] and [origin_lon] hold after lines 38-39: a string
    from the environment or a float from the command line. *)
Inductive origin_value : Type :=
  | FromEnv (s : string)
  | FromArgs (x : float).

(** [os.environ.get(name) or from_args]: the left operand is returned
    when it is true, that is a string that is not empty. *)
Definition env_or_arg (env : gmap string string) (name : string)
    (from_args : option float) : option origin_value :=
  match env !! name with
  | Some (String c s) => Some (FromEnv (String c s))
  | _ => FromArgs <$> from_args
  end.

Definition LATITUDE_VAR : string := "SKIES_ADSB_DEFAULT_ORIGIN_LATITUDE".
Definition LONGITUDE_VAR : string := "SKIES_ADSB_DEFAULT_ORIGIN_LONGITUDE".

(** Line 41 holds: both coordinates were found. *)
Definition origin_found (env : gmap string string) (a : args) : Prop :=
  is_Some (env_or_arg env LATITUDE_VAR (origin_lat a))
  /\ is_Some (env_or_arg env LONGITUDE_VAR (origin_lon a)).

(** [repr] of a string, as the message of [float] shows it.  The
    quote is the double quote when the string has a single quote and no
    double quote, else the single quote; the quote and the backslash
    are escaped, tab, newline and return are written [\t], [\n], [\r],
    the other control characters [\xhh].  Bytes above 127 stand for the
    UTF-8 of printable characters, which [repr] leaves as they are. *)
Fixpoint contains (c : ascii) (s : string) : bool :=
  match s with
  | EmptyString => false
  | String x rest => Ascii.eqb x c || contains c rest
  end.

Definition hex_digit (n : nat) : ascii :=
  nth n ["0"; "1"; "2"; "3"; "4"; "5"; "6"; "7"; "8"; "9";
         "a"; "b"; "c"; "d"; "e"; "f"]%char "0"%char.

Definition py_repr_char (quote c : ascii) : string :=
  let n := nat_of_ascii c in
  if Ascii.eqb c quote || Ascii.eqb c "\"%char then String "\"%char (String c EmptyString)
  else if Ascii.eqb c "009"%char then "\t"
  else if Ascii.eqb c "010"%char then "\n"
  else if Ascii.eqb c "013"%char then "\r"
  else if Nat.ltb n 32 || Nat.eqb n 127 then
    String "\"%char
      (String "x"%char
         (String (hex_digit (n / 16)) (String (hex_digit (n mod 16)) EmptyString)))
  else String c EmptyString.

Fixpoint py_repr_body (quote : ascii) (s : string) : string :=
  match s with
  | EmptyString => String quote EmptyString
  | String c rest => py_repr_char quote c ++ py_repr_body quote rest
  end.

Definition py_repr (s : string) : string :=
  let quote := if contains "'"%char s && negb (contains "034"%char s)
               then "034"%char else "'"%char in
  String quote (py_repr_body quote s).

Section CommandLine.
(** Python's [float] on a string, [None] where it raises [ValueError]. *)
Variable float_of_string : string -> option float.

(** [type=float] on an optional argument: [inl] is argparse's own
    exit, with status 2, on a value that is no float. *)
Definition float_option (given : option string) : Z + option float :=
  match given with
  | None => inr None
  | Some s =>
      match float_of_string s with
      | Some x => inr (Some x)
      | None => inl 2%Z
      end
  end.

Definition parse_args (c : cli) : Z + args :=
  match float_option (cli_origin_lat c), float_option (cli_origin_lon c),
        float_option (cli_origin_distance c), float_option (cli_origin_left c),
        float_option (cli_origin_top c) with
  | inr lat, inr lon, inr dist, inr o_left, inr o_top =>
      inr {| origin_lat := lat;
             origin_lon := lon;
             origin_distance := default DEFAULT_ORIGIN_DISTANCE dist;
             origin_left := o_left;
             origin_top := o_top;
             show_geopandas_warnings := bool_flag (cli_show_geopandas_warnings c);
             build_110m_maps := bool_flag (cli_build_110m_maps c);
             skip_aerodromes := bool_flag (cli_skip_aerodromes c) |}
  | _, _, _, _, _ => inl 2%Z
  end.

(** [float(origin_lat)], line 42. *)
Definition py_float (v : origin_value) : result float :=
  match v with
  | FromArgs x => Ok x
  | FromEnv s =>
      match float_of_string s with
      | Some x => Ok x
      | None => Raise (ValueError ("could not convert string to float: " ++ py_repr s))
      end
  end.

(** Lines 38-48: [inr (ORIGIN_LAT, ORIGIN_LON)], or [inl] when the
    test of line 41 fails and the script calls [exit(1)]. *)
Definition resolve_origin (env : gmap string string) (a : args)
    : unit + result (float * float) :=
  match env_or_arg env LATITUDE_VAR (origin_lat a),
        env_or_arg env LONGITUDE_VAR (origin_lon a) with
  | Some lat, Some lon =>
      inr (match py_float lat with
           | Ok ORIGIN_LAT =>
               match py_float lon with
               | Ok ORIGIN_LON => Ok (ORIGIN_LAT, ORIGIN_LON)
               | Raise e => Raise e
               end
           | Raise e => Raise e
           end)
  | _, _ => inl tt
  end.
End CommandLine.

(** ** Polygon-to-line conversion (lines 87-96) *)

(** The loop of lines 92-94: one line per member polygon, appended to
    [lines] in order. *)
Fixpoint exterior_lines (geoms : list polygon) (lines : list (list coord))
    : list (list coord) :=
  match geoms with
  | [] => lines
  | poly :: rest => exterior_lines rest (lines ++ [exterior poly])
  end.

Definition convert_polygons_to_lines (g : geometry) : geometry :=
  match g with
  | Polygon p => LineString (exterior p)
  | MultiPolygon geoms => MultiLineString (exterior_lines geoms [])
  | _ => g
  end.

(** [gdf.geometry = gdf.geometry.apply(f)]: a missing geometry is
    [None], which [f] returns as it is. *)
Definition apply_geometry (f : geometry -> geometry) (g : GeoDataFrame) : GeoDataFrame :=
  {| crs := crs g;
     columns := columns g;
     rows := map (fun r => Feature (f <$> feat_geometry r) (feat_attrs r)) (rows g) |}.

(** ** Paths and patterns *)

Definition OUTPUT_DIR : string := "../public/map-data".

Fixpoint ends_with (suffix s : string) : bool :=
  String.eqb s suffix ||
  match s with
  | EmptyString => false
  | String _ rest => ends_with suffix rest
  end.

Fixpoint has_slash (s : string) : bool :=
  match s with
  | EmptyString => false
  | String c rest => Ascii.eqb c "/"%char || has_slash rest
  end.

(** [path] without the prefix [pre], when it starts with it. *)
Fixpoint strip_prefix (pre path : string) : option string :=
  match pre, path with
  | EmptyString, _ => Some path
  | String a pre', String c path' =>
      if Ascii.eqb a c then strip_prefix pre' path' else None
  | String _ _, EmptyString => None
  end.

(** The name of [path] inside [dir], when [path] is an entry of [dir]
    itself. *)
Definition entry_name (dir path : string) : option string :=
  match strip_prefix (dir ++ "/") path with
  | Some (String c rest) =>
      if has_slash (String c rest) then None else Some (String c rest)
  | _ => None
  end.

(** [fnmatch] of a name against [*suffix], under [glob]'s rule that a
    leading [*] matches no name that starts with a dot. *)
Definition star_match (suffix name : string) : bool :=
  match name with
  | String "."%char _ => false
  | _ => ends_with suffix name
  end.

Definition glob_match (dir suffix path : string) : bool :=
  match entry_name dir path with
  | Some name => star_match suffix name
  | None => false
  end.

(** [glob.glob(os.path.join(dir, "*" + suffix))]: the entries of
    [dir] that match, files and directories alike.  The order of the
    result is the order in which the directory is listed, which Python
    leaves open; here it is the order of the elements of the set of
    entries, and no property below depends on it. *)
Definition glob_glob (dir suffix : string) : M (list string) :=
  fun w =>
    (Ok (List.filter (glob_match dir suffix) (elements (dom (files w) ∪ dirs w))), w).

(** ** Cleaning the output directory (lines 118-131) *)

Definition clean_output_directory : M unit :=
  _ ← print ("Cleaning output directory: " ++ OUTPUT_DIR);
  try_except
    (for_each [".geojson"; ".json"] (fun suffix =>
       found ← glob_glob OUTPUT_DIR suffix;
       for_each found (fun file =>
         _ ← os_remove file;
         print ("Deleted: " ++ file))))
    (fun e => print ("Error cleaning directory " ++ OUTPUT_DIR ++ ": " ++ exn_str e)).

(** [f"{OUTPUT_DIR}/{output_name}.geojson"], lines 172 and 195. *)
Definition layer_path (output_name : string) : string :=
  OUTPUT_DIR ++ "/" ++ output_name ++ ".geojson".

(** The paths the two patterns of line 122 select. *)
Definition purge_target (path : string) : bool :=
  glob_match OUTPUT_DIR ".geojson" path || glob_match OUTPUT_DIR ".json" path.

(** ** The layer tables (lines 138-152, 184-188, 230-233) *)

Definition MAP_LAYERS_10M : list (string * string) :=
  [ ("data/10m_cultural/10m_cultural/ne_10m_admin_1_states_provinces.shp", "states_provinces");
    ("data/10m_cultural/10m_cultural/ne_10m_airports.shp", "airports");
    ("data/10m_cultural/10m_cultural/ne_10m_urban_areas.shp", "urban_areas");
    ("data/10m_cultural/10m_cultural/ne_10m_admin_2_counties.shp", "counties");
    ("data/10m_cultural/10m_cultural/ne_10m_roads.shp", "roads");
    ("data/10m_physical/ne_10m_lakes.shp", "lakes");
    ("data/10m_physical/ne_10m_rivers_lake_centerlines.shp", "rivers") ].

Definition MAP_LAYERS_110M : list (string * string) :=
  [ ("data/110m_cultural/ne_110m_admin_1_states_provinces.shp", "states_provinces");
    ("data/110m_physical/ne_110m_lakes.shp", "lakes");
    ("data/110m_physical/ne_110m_rivers_lake_centerlines.shp", "rivers") ].

Definition AIRSPACE : list (string * string) :=
  [ ("B", "airspace_class_b");
    ("C", "airspace_class_c");
    ("D", "airspace_class_d") ].

Definition OVERPASS_QUERIES : list (string * string) :=
  [ ("aerodrome", "aerodrome.geojson");
    ("runway", "tmp_runway.geojson") ].

(** [OVERPASS_QUERIES[i][1]]. *)
Definition query_file (i : nat) : string :=
  match OVERPASS_QUERIES !! i with
  | Some (_, output_file_name) => output_file_name
  | None => EmptyString
  end.

Definition OVERPASS_URL : string := "https://overpass-api.de/api/interpreter".

Definition AERODROME_ORIGINS_FILENAME : string := OUTPUT_DIR ++ "/origins.json".

(** ** Selecting a class of airspace (line 194) *)

Fixpoint attr (name : string) (attrs : list (string * cell)) : cell :=
  match attrs with
  | [] => CNone
  | (k, v) :: rest => if String.eqb k name then v else attr name rest
  end.

Definition cell_is (c : cell) (s : string) : bool :=
  match c with
  | CStr x => String.eqb x s
  | _ => false
  end.

(** [gdf[gdf["CLASS"] == class_name]]. *)
Definition select_class (g : GeoDataFrame) (class_name : string) : result GeoDataFrame :=
  if existsb (String.eqb "CLASS") (columns g) then
    Ok {| crs := crs g;
          columns := columns g;
          rows := List.filter (fun r => cell_is (attr "CLASS" (feat_attrs r)) class_name) (rows g) |}
  else Raise (KeyError "'CLASS'").

(** ** The pipeline *)

Import Resolver.

Section Pipeline.
(** What the script takes from Python and its libraries. *)

(** [float(s)] on a string. *)
Variable float_of_string : string -> option float.
(** The text an f-string gives for a float. *)
Variable repr_float : float -> string.
(** The text of [parser.print_help()]. *)
Variable help_text : string.
(** What [gpd.read_file] raises on a path that names no file. *)
Variable missing_file_error : string -> exn.
(** [gpd.read_file] on a JSON document. *)
Variable geojson_driver : json -> result GeoDataFrame.
(** [gdf.clip(box(west, north, east, south))]. *)
Variable gdf_clip : bbox float -> GeoDataFrame -> result GeoDataFrame.
(** The change of coordinates behind [to_crs], from one reference
    system to another. *)
Variable transform : string -> string -> geometry -> geometry.
(** [requests.get(url, params={"data": query}).json()]. *)
Variable requests_get_json : string -> string -> result json.
(** [osmtogeojson.process_osm_json]. *)
Variable process_osm_json : json -> result json.
(** [gpd.sjoin(left, right, how='inner', predicate='within')]. *)
Variable sjoin_within : GeoDataFrame -> GeoDataFrame -> result GeoDataFrame.

Definition gpd_read_file (path : string) : M GeoDataFrame :=
  fun w =>
    match files w !! path with
    | None => (Raise (missing_file_error path), w)
    | Some (Vector g) => (Ok g, w)
    | Some (JsonText j) => (geojson_driver j, w)
    end.

(** [gdf.to_file(path, driver="GeoJSON")]. *)
Definition to_file (g : GeoDataFrame) (path : string) : M unit :=
  write_file path (Vector g).

(** [json.dump(j, open(path, 'w'))]. *)
Definition json_dump (j : json) (path : string) : M unit :=
  write_file path (JsonText j).

(** [gdf.to_crs("EPSG:4326")]. *)
Definition to_crs (g : GeoDataFrame) (target : string) : result GeoDataFrame :=
  match crs g with
  | None =>
      Raise (ValueError "Cannot transform naive geometries.  Please set a crs on the object first.")
  | Some source =>
      Ok {| crs := Some target;
            columns := columns g;
            rows := map (fun r => Feature (transform source target <$> feat_geometry r)
                                          (feat_attrs r)) (rows g) |}
  end.

(** Lines 101-113.  [None] is the value returned after an error. *)
Definition clip_shapefile_to_bounding_box (shape_file : string) (bounding_box : bbox float)
    : M (option GeoDataFrame) :=
  try_except
    (gdf ← gpd_read_file shape_file;
     clipped_gdf ← lift (gdf_clip bounding_box gdf);
     mret (Some (apply_geometry convert_polygons_to_lines clipped_gdf)))
    (fun e =>
       match e with
       | FileNotFoundError _ =>
           _ ← print ("Error: shape file not found at " ++ shape_file);
           mret None
       | _ =>
           _ ← print ("An unexpected error occurred: " ++ exn_str e);
           mret None
       end).

(** A method called on what [clip_shapefile_to_bounding_box]
    returned: on [None] the attribute lookup fails. *)
Definition method_of (name : string) (v : option GeoDataFrame) : M GeoDataFrame :=
  match v with
  | Some g => mret g
  | None => raise (AttributeError ("'NoneType' object has no attribute '" ++ name ++ "'"))
  end.

Section WithBox.
Variable b : bbox float.

Definition box_text : string :=
  "(" ++ repr_float (WEST b) ++ ", " ++ repr_float (NORTH b) ++ ") to ("
      ++ repr_float (EAST b) ++ ", " ++ repr_float (SOUTH b) ++ ")".

(** Lines 170-172: one turn of the loop. *)
Definition clip_layer (map_data output_name : string) : M unit :=
  _ ← print (tab ++ "Clipping " ++ map_data ++ " to bounding box...");
  clipped_map ← clip_shapefile_to_bounding_box map_data b;
  g ← method_of "to_file" clipped_map;
  to_file g (layer_path output_name).

(** Lines 154-174. *)
Definition generate_natural_earth_layers (a : args) : M unit :=
  let MAP_LAYERS := if build_110m_maps a then MAP_LAYERS_110M else MAP_LAYERS_10M in
  _ ← print "############################################";
  _ ← print "Generating Natural Earth Layers...";
  _ ← print (if build_110m_maps a
             then nl ++ tab ++ "Building 110m maps"
             else nl ++ tab ++ "Building 10m maps");
  _ ← print (nl ++ tab ++ "Clipping maps to bounding box " ++ box_text ++ "...");
  _ ← for_each MAP_LAYERS (fun '(map_data, output_name) =>
        clip_layer map_data output_name);
  print "============================================".

(** Lines 181-197. *)
Definition generate_airspace_layers : M unit :=
  _ ← print "############################################";
  _ ← print ("Generating FAA Airspace Layers..." ++ nl);
  clipped ← clip_shapefile_to_bounding_box "data/Class_Airspace/Class_Airspace.shp" b;
  g ← method_of "to_crs" clipped;
  clipped_airspace ← lift (to_crs g "EPSG:4326");
  _ ← for_each AIRSPACE (fun '(class_name, output_name) =>
        _ ← print (tab ++ "Clipping Class " ++ class_name ++ " Airspace to bounding box...");
        airspace ← lift (select_class clipped_airspace class_name);
        to_file airspace (layer_path output_name));
  print "============================================".

(** Lines 209 and 275: the box as the Overpass queries name it. *)
Definition bounds : string :=
  repr_float (SOUTH b) ++ "," ++ repr_float (WEST b) ++ ","
    ++ repr_float (NORTH b) ++ "," ++ repr_float (EAST b).

(** Lines 210-219. *)
Definition geometry_query (osm_value : string) : string :=
  nl ++ "            [out:json][timeout:25];"
  ++ nl ++ "            (    "
  ++ nl ++ "            way[" ++ dq ++ "aeroway" ++ dq ++ "=" ++ dq ++ osm_value ++ dq ++ "](" ++ bounds ++ ");"
  ++ nl ++ "            relation[" ++ dq ++ "aeroway" ++ dq ++ "=" ++ dq ++ osm_value ++ dq ++ "](" ++ bounds ++ ");"
  ++ nl ++ "            );"
  ++ nl ++ "            out body;"
  ++ nl ++ "            >;"
  ++ nl ++ "            out skel qt;"
  ++ nl ++ "        ".

(** Lines 276-283. *)
Definition origins_query : string :=
  nl ++ "            [out:json][timeout:25];"
  ++ nl ++ "            (    "
  ++ nl ++ "            way[" ++ dq ++ "aeroway" ++ dq ++ "=" ++ dq ++ "aerodrome" ++ dq ++ "](" ++ bounds ++ ");"
  ++ nl ++ "            relation[" ++ dq ++ "aeroway" ++ dq ++ "=" ++ dq ++ "aerodrome" ++ dq ++ "](" ++ bounds ++ ");"
  ++ nl ++ "            );"
  ++ nl ++ "            out center tags;"
  ++ nl ++ "        ".

(** Lines 206-227. *)
Definition generate_aerodrome_runway_geometry (osm_value output_file_name : string)
    : M unit :=
  try_except
    (let query := geometry_query osm_value in
     _ ← print query;
     result ← lift (requests_get_json OVERPASS_URL query);
     osm_json ← lift (process_osm_json result);
     osm_json ← lift (json_setitem osm_json "name" (JStr osm_value));
     json_dump osm_json (OUTPUT_DIR ++ "/" ++ output_file_name))
    (fun e => print ("An unexpected error occurred: " ++ exn_str e)).

(** Lines 235-242. *)
Definition fetch_aerodromes_and_runways (a : args) : M unit :=
  for_each OVERPASS_QUERIES (fun '(osm_value, output_file_name) =>
    if negb (skip_aerodromes a) then
      _ ← print (tab ++ "Running Overpass query for " ++ osm_value ++ "...");
      generate_aerodrome_runway_geometry osm_value output_file_name
    else
      _ ← print (tab ++ "Skipping Overpass query for " ++ osm_value ++ "...");
      json_dump (JObj []) output_file_name).

(** Lines 245-258. *)
Definition merge_aerodromes_and_runways : M unit :=
  _ ← print (tab ++ "Merge Aerodromes and Runways...");
  let tmp_runway_geojson := OUTPUT_DIR ++ "/" ++ query_file 1 in
  gdf_aerodromes ← gpd_read_file (OUTPUT_DIR ++ "/" ++ query_file 0);
  gdf_runways ← gpd_read_file tmp_runway_geojson;
  merged_gdf ← lift (sjoin_within gdf_runways gdf_aerodromes);
  _ ← to_file merged_gdf (OUTPUT_DIR ++ "/runway.geojson");
  try_except
    (_ ← os_remove tmp_runway_geojson;
     print ("Deleted: " ++ tmp_runway_geojson))
    (fun e => print ("Error cleaning directory " ++ OUTPUT_DIR ++ ": " ++ exn_str e)).

(** Lines 272-289.  The request and the decoding of its answer are
    one step here, taken before the file is written; line 286 opens
    the file between the two, so that an answer that does not decode
    leaves an empty [origins.json] behind, which this definition does
    not show.  No property below says what the file holds after a
    failed request. *)
Definition get_aerodrome_origins_as_lat_lon : M unit :=
  try_except
    (let query := origins_query in
     _ ← print query;
     result ← lift (requests_get_json OVERPASS_URL query);
     json_dump result AERODROME_ORIGINS_FILENAME)
    (fun e => print ("An unexpected error occurred: " ++ exn_str e)).

(** Lines 291-296. *)
Definition fetch_aerodrome_origins (a : args) : M unit :=
  if negb (skip_aerodromes a) then get_aerodrome_origins_as_lat_lon
  else
    _ ← print (tab ++ "Skipping Overpass query for OSM Aerodrome Origins...");
    json_dump (JObj []) AERODROME_ORIGINS_FILENAME.
End WithBox.

Definition rule_open : string := "############################################".
Definition rule_close : string := "============================================".

(** Lines 154-299: everything that writes a layer. *)
Definition write_layers (a : args) (b : bbox float) : M unit :=
  _ ← generate_natural_earth_layers b a;
  _ ← generate_airspace_layers b;
  _ ← print rule_open;
  _ ← print ("Generating OSM Aerodrome and Runway Geometry Layers..." ++ nl);
  _ ← fetch_aerodromes_and_runways b a;
  _ ← merge_aerodromes_and_runways;
  _ ← print rule_close;
  _ ← print rule_open;
  _ ← print "Fetching OSM Aerodrome Origins as LAT/LON...";
  _ ← fetch_aerodrome_origins b a;
  print rule_close.

(** Lines 57-299, once the origin is known.  Line 58 only silences
    the warnings of geopandas and changes nothing modelled here. *)
Definition build_layers (a : args) (ORIGIN_LAT ORIGIN_LON : float) : M unit :=
  let b := bounding_box ORIGIN_LAT ORIGIN_LON
             (origin_distance a) (origin_left a) (origin_top a) in
  _ ← print rule_open;
  _ ← print (nl ++ "Default Origin lat: " ++ repr_float ORIGIN_LAT
                ++ " lon: " ++ repr_float ORIGIN_LON);
  _ ← print ("Origin Left: "
               ++ repr_float (ORIGIN_LEFT (origin_distance a) (origin_left a) (origin_top a))
               ++ " Top: "
               ++ repr_float (ORIGIN_TOP (origin_distance a) (origin_left a) (origin_top a)));
  _ ← print ("Bounding box: " ++ box_text b ++ nl);
  _ ← print rule_close;
  _ ← print rule_open;
  _ ← clean_output_directory;
  _ ← print rule_close;
  write_layers a b.

(** Lines 45-47. *)
Definition report_missing_origin : M unit :=
  _ ← print "Error: Default origin latitude and longitude not found.";
  _ ← print help_text;
  print EmptyString.

(** The whole script, from a command line, an environment and a
    world.  An exception nothing catches ends the run. *)
Definition run (c : cli) (env : gmap string string) (w : world) : outcome * world :=
  match os_makedirs OUTPUT_DIR w with
  | (Raise e, w) => (Uncaught e, w)
  | (Ok _, w) =>
      match parse_args float_of_string c with
      | inl status => (Exited status, w)
      | inr a =>
          match resolve_origin float_of_string env a with
          | inl _ => (Exited 1, snd (report_missing_origin w))
          | inr (Raise e) => (Uncaught e, w)
          | inr (Ok (ORIGIN_LAT, ORIGIN_LON)) =>
              match build_layers a ORIGIN_LAT ORIGIN_LON w with
              | (Ok _, w) => (Completed, w)
              | (Raise e, w) => (Uncaught e, w)
              end
          end
      end
  end.
End Pipeline.

(** ** A sample installation

    Stand-ins for the libraries, and a world that holds the shapefiles,
    for running the script on concrete inputs. *)

Module Sample.
Definition float_of_string (s : string) : option float :=
  if String.eqb s "25.5" then Some 25.5%float
  else if String.eqb s "-80.25" then Some (-80.25)%float
  else if String.eqb s "2" then Some 2%float
  else None.

Definition repr_float (x : float) : string :=
  if (x =? 23.5)%float then "23.5"
  else if (x =? 27.5)%float then "27.5"
  else if (x =? -82.25)%float then "-82.25"
  else if (x =? -78.25)%float then "-78.25"
  else if (x =? 25.5)%float then "25.5"
  else if (x =? -80.25)%float then "-80.25"
  else if (x =? 2)%float then "2.0"
  else "nan".

Definition help_text : string := "usage: build-map-layers.py [-h]".

Definition missing_file_error (path : string) : exn :=
  LibraryError (path ++ ": No such file or directory").

Definition geojson_driver (j : json) : result GeoDataFrame :=
  match j with
  | JObj (_ :: _) => Ok (GDF (Some "EPSG:4326") [] [])
  | _ => Raise (LibraryError "not recognized as being in a supported file format")
  end.

(** Everything lies inside the box. *)
Definition gdf_clip (b : Resolver.bbox float) (g : GeoDataFrame) : result GeoDataFrame :=
  Ok g.

Definition transform (source target : string) (g : geometry) : geometry := g.

Definition requests_get_json (url query : string) : result json :=
  Ok (JObj [("elements", JArr [])]).

Definition process_osm_json (j : json) : result json :=
  Ok (JObj [("type", JStr "FeatureCollection"); ("features", JArr [])]).

Definition sjoin_within (l r : GeoDataFrame) : result GeoDataFrame := Ok l.

Definition script : cli -> gmap string string -> world -> outcome * world :=
  run float_of_string repr_float help_text missing_file_error geojson_driver
      gdf_clip transform requests_get_json process_osm_json sjoin_within.

Definition square : polygon :=
  MkPolygon [Coord 0 0 None; Coord 0 1 None; Coord 1 1 None; Coord 1 0 None; Coord 0 0 None]
            [[Coord 0.25 0.25 None; Coord 0.5 0.25 None; Coord 0.5 0.5 None;
              Coord 0.25 0.25 None]].

Definition airspace_row (class : string) : feature :=
  Feature (Some (Polygon square)) [("NAME", CStr "MIAMI"); ("CLASS", CStr class)].

Definition layer : GeoDataFrame :=
  GDF (Some "EPSG:4326") ["name"] [Feature (Some (Polygon square)) [("name", CStr "x")]].

Definition airspace : GeoDataFrame :=
  GDF (Some "EPSG:4269") ["NAME"; "CLASS"]
      [airspace_row "A"; airspace_row "B"; airspace_row "D"; airspace_row "B"].


Definition shapefiles : gmap string content :=
  <["data/Class_Airspace/Class_Airspace.shp" := Vector airspace]>
    (list_to_map (map (fun l => (fst l, Vector layer)) (MAP_LAYERS_10M ++ MAP_LAYERS_110M))).

(** The shapefiles, and what an earlier run and the user left in the
    output directory. *)
Definition installed : world :=
  {| files := <[OUTPUT_DIR ++ "/airports.geojson" := Vector layer]>
                (<[OUTPUT_DIR ++ "/origins.json" := JsonText JNull]>
                   (<[OUTPUT_DIR ++ "/README.md" := JsonText JNull]>
                      (<[OUTPUT_DIR ++ "/.cache.json" := JsonText JNull]> shapefiles)));
     dirs := {[OUTPUT_DIR]};
     stdout := [] |}.

(** The same without the shapefile of the airports, the second layer. *)
Definition incomplete : world :=
  {| files := delete "data/10m_cultural/10m_cultural/ne_10m_airports.shp"
                     (files installed);
     dirs := dirs installed;
     stdout := [] |}.

(** The installation with, in the output directory, a directory
    named [x.geojson] and a file [stale.json]. *)
Definition cluttered : world :=
  {| files := <[OUTPUT_DIR ++ "/stale.json" := JsonText JNull]> (files installed);
     dirs := {[OUTPUT_DIR ++ "/x.geojson"]} ∪ dirs installed;
     stdout := [] |}.

(** A checkout in which [../public] is a file. *)
Definition blocked : world :=
  {| files := <["../public" := JsonText JNull]> shapefiles;
     dirs := ∅;
     stdout := [] |}.

(** [--origin-lat 25.5 --origin-lon -80.25]. *)
Definition command_line : cli :=
  Cli (Some "25.5") (Some "-80.25") None None None None None None.

Definition parsed : args :=
  Args (Some 25.5%float) (Some (-80.25)%float) DEFAULT_ORIGIN_DISTANCE None None
       false false false.

(** [--origin-lat 25.5 --origin-lon -80.25 --skip-aerodromes true]. *)
Definition skip_command_line : cli :=
  Cli (Some "25.5") (Some "-80.25") None None None None None (Some "true").

Definition skip_parsed : args :=
  Args (Some 25.5%float) (Some (-80.25)%float) DEFAULT_ORIGIN_DISTANCE None None
       false false true.

Definition box : Resolver.bbox float :=
  Resolver.bounding_box 25.5%float (-80.25)%float DEFAULT_ORIGIN_DISTANCE None None.
End Sample.

(** The same installation without network: every request fails. *)
Module Offline.
Definition requests_get_json (url query : string) : result json :=
  Raise (LibraryError "Max retries exceeded with url: /api/interpreter").

Definition script : cli -> gmap string string -> world -> outcome * world :=
  run Sample.float_of_string Sample.repr_float Sample.help_text Sample.missing_file_error
      Sample.geojson_driver Sample.gdf_clip Sample.transform requests_get_json
      Sample.process_osm_json Sample.sjoin_within.
End Offline.

(** ** Vocabulary of the properties *)

(** The geometries [convert_polygons_to_lines] rewrites. *)
Definition is_polygon (g : geometry) : bool :=
  match g with
  | Polygon _ | MultiPolygon _ => true
  | _ => false
  end.


(** A statement that leaves every file outside [S] as it finds it,
    whether it returns or raises. *)
Definition touches_only {A : Type} (S : string -> Prop) (m : M A) : Prop :=
  forall w p, ~ S p -> files (snd (m w)) !! p = files w !! p.

(** A statement that creates and removes no directory. *)
Definition keeps_dirs {A : Type} (m : M A) : Prop :=
  forall w, dirs (snd (m w)) = dirs w.

(** The paths the script may write or delete: the entries of the
    output directory that the cleaning selects, and the two bare names
    of line 241. *)
Definition touched (path : string) : Prop :=
  purge_target path = true
  \/ path = "aerodrome.geojson" \/ path = "tmp_runway.geojson".

(** What [gpd.read_file] gives for a path in a world. *)
Definition read_result (missing_file_error : string -> exn)
    (geojson_driver : json -> result GeoDataFrame)
    (w : world) (path : string) : result GeoDataFrame :=
  fst (gpd_read_file missing_file_error geojson_driver path w).

(** The value [os.environ.get(name) or from_args] is to give: the
    string of the environment when the variable is set and not empty,
    else the float of the command line. *)
Inductive chosen (env : gmap string string) (name : string) (from_args : option float)
    : origin_value -> Prop :=
  | chosen_env (s : string) :
      env !! name = Some s -> s <> EmptyString -> chosen env name from_args (FromEnv s)
  | chosen_args (x : float) :
      env !! name = None \/ env !! name = Some EmptyString ->
      from_args = Some x -> chosen env name from_args (FromArgs x).

(** A coordinate of the origin is given: by its variable of the
    environment, set to a string that is not empty, or on the command
    line. *)
Definition coordinate_given (env : gmap string string) (name : string)
    (from_args : option float) : Prop :=
  (exists s, env !! name = Some s /\ s <> EmptyString) \/ is_Some from_args.

(** A statement that writes no file: a file is as it was, or it was
    in [S] and is gone. *)
Definition only_removes {A : Type} (S : string -> Prop) (m : M A) : Prop :=
  forall w p,
    files (snd (m w)) !! p = files w !! p \/ (S p /\ files (snd (m w)) !! p = None).

(** No directory has a name that the cleaning selects. *)
Definition no_directory_selected (w : world) : Prop :=
  forall d, d ∈ dirs w -> purge_target d = false.

(** The files a run is to leave in the output directory: the layers
    of the selected tier, the three classes of airspace, the
    aerodromes, the runways and the origins. *)
Definition outputs (a : args) : list string :=
  app (map (fun l => layer_path (snd l))
           (if build_110m_maps a then MAP_LAYERS_110M else MAP_LAYERS_10M))
      (app (map (fun l => layer_path (snd l)) AIRSPACE)
           [OUTPUT_DIR ++ "/aerodrome.geojson"; OUTPUT_DIR ++ "/runway.geojson";
            AERODROME_ORIGINS_FILENAME]).

(** *** Rounding to binary64

    [SpecFloat] rounds a mantissa by halving it step by step and
    keeping two bits of what was cut off.  After [n] halvings of [m]
    the record holds the quotient, and its bits place the remainder
    against the half. *)
Definition shr_inv (m : Z) (n : nat) (rec : shr_record) : Prop :=
  (let rho := m - shr_m rec * 2 ^ Z.of_nat n in
   0 <= shr_m rec /\ 0 <= rho < 2 ^ Z.of_nat n
   /\ (shr_r rec = true <-> (1 <= Z.of_nat n /\ 2 ^ (Z.of_nat n - 1) <= rho))
   /\ (shr_s rec = true <-> (1 <= Z.of_nat n /\ rho <> 0 /\ rho <> 2 ^ (Z.of_nat n - 1))))%Z.

(** [p] without its last [k] binary digits, rounded to nearest, ties
    to even. *)
Definition rne (p k : Z) : Z :=
  (let M := p / 2 ^ k in
   let rho := p mod 2 ^ k in
   let half := 2 ^ (k - 1) in
   if (half <? rho) || ((half =? rho) && Z.odd M) then M + 1 else M)%Z.

(** [p] rounded to 53 significant binary digits. *)
Definition rounded (p : positive) : Z :=
  (let d := Zpos (digits2_pos p) in
   if d <=? 53 then Zpos p else rne (Zpos p) (d - 53) * 2 ^ (d - 53))%Z.

(** * Properties *)

(** ** Running statements *)

Lemma bind_Ok {A B : Type} (m : M A) (f : A -> M B) (w : world) (a : A) (w' : world) :
  m w = (Ok a, w') -> (m ≫= f) w = f a w'.
Proof. intros H. unfold mbind, M_bind. rewrite H. reflexivity. Qed.

Lemma bind_Raise {A B : Type} (m : M A) (f : A -> M B) (w : world) (e : exn) (w' : world) :
  m w = (Raise e, w') -> (m ≫= f) w = (Raise e, w').
Proof. intros H. unfold mbind, M_bind. rewrite H. reflexivity. Qed.

Lemma bind_print {B : Type} (line : string) (f : unit -> M B) (w : world) :
  (print line ≫= f) w = f tt (World (files w) (dirs w) (stdout w ++ [line])).
Proof. reflexivity. Qed.

(** Runs the [print]s a statement starts with. *)
Ltac run_prints := repeat (rewrite bind_print; cbn [files dirs stdout]).

Lemma bind_ret {A B : Type} (a : A) (f : A -> M B) (w : world) :
  (mret a ≫= f) w = f a w.
Proof. reflexivity. Qed.

Lemma bind_lift {A B : Type} (r : result A) (f : A -> M B) (w : world) :
  (lift r ≫= f) w = match r with Ok a => f a w | Raise e => (Raise e, w) end.
Proof. destruct r; reflexivity. Qed.

Lemma try_except_Ok {A : Type} (body : M A) (handler : exn -> M A) (w : world)
    (a : A) (w' : world) :
  body w = (Ok a, w') -> try_except body handler w = (Ok a, w').
Proof. intros H. unfold try_except. rewrite H. reflexivity. Qed.

Lemma try_except_Raise {A : Type} (body : M A) (handler : exn -> M A) (w : world)
    (e : exn) (w' : world) :
  body w = (Raise e, w') -> try_except body handler w = handler e w'.
Proof. intros H. unfold try_except. rewrite H. reflexivity. Qed.

Lemma for_each_cons {A : Type} (x : A) (xs : list A) (body : A -> M unit) :
  for_each (x :: xs) body = (body x ≫= fun _ => for_each xs body).
Proof. reflexivity. Qed.

(** ** Boolean flags *)

Lemma py_bool_str_true (s : string) : py_bool_str s = true <-> s <> EmptyString.
Proof. destruct s; simpl; split; congruence. Qed.

Lemma bool_flag_false (given : option string) :
  bool_flag given = false <-> given = None \/ given = Some EmptyString.
Proof.
  destruct given as [[|c s]|]; simpl; split; intros H; auto;
    try discriminate; destruct H; discriminate.
Qed.

Lemma bool_flag_true (given : option string) :
  bool_flag given = true <-> exists s, given = Some s /\ s <> EmptyString.
Proof.
  destruct given as [s|]; simpl.
  - rewrite py_bool_str_true. split.
    + intros H. exists s. auto.
    + intros (s' & [= <-] & H). exact H.
  - split; [discriminate | intros (s' & [=] & _)].
Qed.

Lemma parse_args_flags (float_of_string : string -> option float) (c : cli) (a : args) :
  parse_args float_of_string c = inr a ->
  show_geopandas_warnings a = bool_flag (cli_show_geopandas_warnings c)
  /\ build_110m_maps a = bool_flag (cli_build_110m_maps c)
  /\ skip_aerodromes a = bool_flag (cli_skip_aerodromes c).
Proof.
  unfold parse_args. intros H.
  repeat match type of H with
         | context [match ?x with _ => _ end] => destruct x; try discriminate
         end.
  injection H as <-. auto.
Qed.

(** C10: each of [--show-geopandas-warnings], [--build-110m-maps] and
    [--skip-aerodromes] is true exactly when it is given a string that
    is not empty (whatever the string says, "false" and "0" included),
    and so false exactly when it is omitted or given the empty string. *)
Theorem bool_flags_follow_truthiness
    (float_of_string : string -> option float) (c : cli) (a : args) :
  parse_args float_of_string c = inr a ->
  (forall s, cli_show_geopandas_warnings c = Some s -> s <> EmptyString ->
             show_geopandas_warnings a = true)
  /\ (forall s, cli_build_110m_maps c = Some s -> s <> EmptyString ->
                build_110m_maps a = true)
  /\ (forall s, cli_skip_aerodromes c = Some s -> s <> EmptyString ->
                skip_aerodromes a = true)
  /\ (show_geopandas_warnings a = false <->
      cli_show_geopandas_warnings c = None
      \/ cli_show_geopandas_warnings c = Some EmptyString)
  /\ (build_110m_maps a = false <->
      cli_build_110m_maps c = None \/ cli_build_110m_maps c = Some EmptyString)
  /\ (skip_aerodromes a = false <->
      cli_skip_aerodromes c = None \/ cli_skip_aerodromes c = Some EmptyString).
Proof.
  intros H. destruct (parse_args_flags _ _ _ H) as (-> & -> & ->).
  repeat split; try (apply bool_flag_false);
    try (intros s Hs Hne; apply bool_flag_true; eauto).
Qed.

(** The flags on a command line that says [--skip-aerodromes=false
    --build-110m-maps=0 --show-geopandas-warnings=]. *)
Lemma bool_flags_follow_truthiness_witness :
  let float_of_string := fun _ : string => Some 25%float in
  let c := Cli (Some "25") (Some "-80") None None None
               (Some EmptyString) (Some "0") (Some "false") in
  let a := Args (Some 25%float) (Some 25%float) DEFAULT_ORIGIN_DISTANCE None None
                false true true in
  parse_args float_of_string c = inr a
  /\ skip_aerodromes a = true
  /\ build_110m_maps a = true
  /\ show_geopandas_warnings a = false.
Proof.
  intros float_of_string c a.
  assert (E : parse_args float_of_string c = inr a) by reflexivity.
  destruct (bool_flags_follow_truthiness float_of_string c a E)
    as (_ & H110 & Hskip & Hshow & _).
  split; [exact E|].
  split; [apply (Hskip "false"); [reflexivity | discriminate]|].
  split; [apply (H110 "0"); [reflexivity | discriminate]|].
  apply Hshow. right. reflexivity.
Defined.

(** ** Polygon-to-line conversion *)

Lemma exterior_lines_acc (geoms : list polygon) (lines : list (list coord)) :
  exterior_lines geoms lines = (lines ++ map exterior geoms)%list.
Proof.
  revert lines. induction geoms as [|poly rest IH]; intros lines; simpl.
  - symmetry. apply app_nil_r.
  - rewrite IH, <- app_assoc. reflexivity.
Qed.

(** C4: a polygon becomes the line through its exterior ring, vertex
    for vertex; a multi-polygon becomes the multi-line of the exterior
    rings of its members, one per member and in their order; the holes
    play no part in either; every other geometry is returned as it is. *)
Theorem convert_polygons_to_lines_exterior_only (g : geometry) :
  match g with
  | Polygon p =>
      convert_polygons_to_lines g = LineString (exterior p)
      /\ forall holes,
           convert_polygons_to_lines (Polygon (MkPolygon (exterior p) holes))
           = convert_polygons_to_lines g
  | MultiPolygon geoms =>
      convert_polygons_to_lines g = MultiLineString (map exterior geoms)
      /\ forall geoms',
           map exterior geoms' = map exterior geoms ->
           convert_polygons_to_lines (MultiPolygon geoms') = convert_polygons_to_lines g
  | _ => convert_polygons_to_lines g = g
  end.
Proof.
  destruct g; simpl; try reflexivity.
  - split; reflexivity.
  - rewrite exterior_lines_acc. simpl. split; [reflexivity|].
    intros geoms' H. rewrite exterior_lines_acc. simpl. congruence.
Qed.

(** ** Bounding box *)

Import Resolver.

Lemma Prim2SF_zero : Prim2SF 0%float = S754_zero false.
Proof. reflexivity. Qed.

(** [abs] leaves a positive float as it is. *)
Lemma abs_positive (d : float) : (0 <? d)%float = true -> PrimFloat.abs d = d.
Proof.
  intros H. apply Prim2SF_inj. rewrite abs_spec.
  rewrite ltb_spec, Prim2SF_zero in H.
  destruct (Prim2SF d) as [s|s| |s m e]; try discriminate H;
    destruct s; try discriminate H; reflexivity.
Qed.

(** In exact arithmetic too. *)
Lemma Qabs_positive (d : Q) : (0 < d)%Q -> Qabs d = d.
Proof.
  destruct d as [[|p|p] den]; unfold Qlt; simpl; intros H; try reflexivity; lia.
Qed.

Lemma Qabs_nonzero (x : Q) : ~ (x == 0)%Q -> (0 < Qabs x)%Q.
Proof.
  intros H. apply Qabs_case; intros Hx; lra.
Qed.

(** The order of binary64 is transitive. *)
Lemma SFltb_trans (x y z : spec_float) :
  SFltb x y = true -> SFltb y z = true -> SFltb x z = true.
Proof.
  unfold SFltb, SFcompare.
  destruct x as [sx|sx| |sx mx ex], y as [sy|sy| |sy my ey], z as [sz|sz| |sz mz ez];
    try discriminate;
    try (destruct sx); try (destruct sy); try (destruct sz);
    try discriminate; try reflexivity;
    rewrite ?Pos.compare_cont_spec; simpl;
    destruct (Z.compare_spec ex ey), (Z.compare_spec ey ez), (Z.compare_spec ex ez);
    try discriminate; try reflexivity; try lia; subst;
    destruct (Pos.compare_spec mx my), (Pos.compare_spec my mz), (Pos.compare_spec mx mz);
    simpl; try discriminate; try reflexivity; lia.
Qed.

Lemma ltb_trans (x y z : float) :
  (x <? y)%float = true -> (y <? z)%float = true -> (x <? z)%float = true.
Proof. rewrite !ltb_spec. apply SFltb_trans. Qed.

(** *** Rounding is monotone

    Addition and subtraction of binary64 round the exact sum of two
    aligned mantissas; the rounding is monotone and gives a
    represented float back, so an offset that is not negative never
    moves a float the wrong way. *)

Section Binary64.
Local Open Scope Z_scope.

Lemma iter_comm {A : Type} (f : A -> A) (n : nat) (x : A) :
  Nat.iter n f (f x) = f (Nat.iter n f x).
Proof. induction n as [|n IH]; simpl; [reflexivity|]. rewrite IH. reflexivity. Qed.

Lemma iter_pos_nat {A : Type} (f : A -> A) (p : positive) (x : A) :
  SpecFloat.iter_pos f p x = Nat.iter (Pos.to_nat p) f x.
Proof.
  revert x. induction p as [p IH|p IH|]; intros x; cbn [SpecFloat.iter_pos].
  - rewrite !IH, Pos2Nat.inj_xI, !iter_comm.
    replace (S (2 * Pos.to_nat p))%nat with (S (Pos.to_nat p + Pos.to_nat p))%nat by lia.
    rewrite Nat.iter_succ, Nat.iter_add. reflexivity.
  - rewrite !IH, Pos2Nat.inj_xO.
    replace (2 * Pos.to_nat p)%nat with (Pos.to_nat p + Pos.to_nat p)%nat by lia.
    rewrite Nat.iter_add. reflexivity.
  - reflexivity.
Qed.

Lemma shr_1_nonneg (m : Z) (r s : bool) :
  0 <= m -> shr_1 (Build_shr_record m r s) = Build_shr_record (Z.div2 m) (Z.odd m) (r || s).
Proof. intros H. destruct m as [|[p|p|]|p]; try reflexivity; lia. Qed.

Lemma shr_iter_inv (m : Z) (n : nat) :
  0 <= m -> shr_inv m n (Nat.iter n shr_1 (Build_shr_record m false false)).
Proof.
  intros Hm. induction n as [|n IH].
  - unfold shr_inv. simpl. repeat split; try lia; intros H; try discriminate; lia.
  - rewrite Nat.iter_succ.
    destruct (Nat.iter n shr_1 _) as [q r s]. unfold shr_inv in *. cbn [shr_m shr_r shr_s] in *.
    destruct IH as (Hq & Hrho & Hr & Hs).
    rewrite (shr_1_nonneg q r s Hq). cbn [shr_m shr_r shr_s].
    rewrite Nat2Z.inj_succ. replace (Z.succ (Z.of_nat n) - 1) with (Z.of_nat n) by lia.
    rewrite Z.pow_succ_r by lia.
    set (P := 2 ^ Z.of_nat n) in *.
    assert (HP : 0 < P) by (apply Z.pow_pos_nonneg; lia).
    pose proof (Zdiv2_odd_eqn q) as Hq2.
    assert (Hhalf : 1 <= Z.of_nat n -> P = 2 * 2 ^ (Z.of_nat n - 1)).
    { intros H. unfold P. rewrite <- Z.pow_succ_r by lia. f_equal. lia. }
    assert (Hn0 : Z.of_nat n = 0 -> P = 1).
    { intros H. unfold P. rewrite H. reflexivity. }
    destruct (Z.odd q) eqn:Hodd.
    + split; [nia|]. split; [nia|]. split.
      * split; [intros _; split; [lia|nia] | reflexivity].
      * rewrite orb_true_iff, Hr, Hs. split.
        -- intros H. split; [lia|]. split; [nia|].
           destruct (Z.eq_dec (Z.of_nat n) 0) as [E|E]; [specialize (Hn0 E); nia|].
           specialize (Hhalf ltac:(lia)). nia.
        -- intros (_ & H1 & H2).
           destruct (Z.eq_dec (Z.of_nat n) 0) as [E|E]; [specialize (Hn0 E); nia|].
           specialize (Hhalf ltac:(lia)).
           destruct (Z_lt_le_dec (m - q * P) (2 ^ (Z.of_nat n - 1))); [right|left];
             (split; [lia|]); nia.
    + split; [nia|]. split; [nia|]. split.
      * split; [discriminate | intros [_ H]; nia].
      * rewrite orb_true_iff, Hr, Hs. split.
        -- intros H. split; [lia|]. split; [|nia].
           destruct H as [[H1 H2]|(H1 & H2 & H3)]; specialize (Hhalf H1); nia.
        -- intros (_ & H1 & H2).
           destruct (Z.eq_dec (Z.of_nat n) 0) as [E|E]; [specialize (Hn0 E); nia|].
           specialize (Hhalf ltac:(lia)).
           destruct (Z_lt_le_dec (m - q * P) (2 ^ (Z.of_nat n - 1))); [right|left];
             (split; [lia|]); nia.
Qed.

(** Binary digits. *)

Lemma digits2_bounds (p : positive) :
  2 ^ (Zpos (digits2_pos p) - 1) <= Zpos p < 2 ^ Zpos (digits2_pos p).
Proof.
  induction p as [p IH|p IH|]; cbn [digits2_pos].
  - rewrite Pos2Z.inj_succ. replace (Z.succ (Zpos (digits2_pos p)) - 1) with (Z.succ (Zpos (digits2_pos p) - 1)) by lia.
    rewrite !Z.pow_succ_r by lia. lia.
  - rewrite Pos2Z.inj_succ. replace (Z.succ (Zpos (digits2_pos p)) - 1) with (Z.succ (Zpos (digits2_pos p) - 1)) by lia.
    rewrite !Z.pow_succ_r by lia. lia.
  - simpl. lia.
Qed.

Lemma digits2_unique (p : positive) (d : Z) :
  2 ^ (d - 1) <= Zpos p < 2 ^ d -> Zpos (digits2_pos p) = d.
Proof.
  intros [Hlo Hhi]. pose proof (digits2_bounds p) as [Hlo' Hhi'].
  assert (0 < d).
  { destruct (Z_lt_le_dec 0 d) as [H|H]; [exact H|].
    destruct (Z.eq_dec d 0) as [->|]; [simpl in Hhi; lia|].
    rewrite Z.pow_neg_r in Hhi by lia. lia. }
  destruct (Z.lt_trichotomy (Zpos (digits2_pos p)) d) as [H1|[H1|H1]]; [|exact H1|].
  - assert (2 ^ Zpos (digits2_pos p) <= 2 ^ (d - 1)) by (apply Z.pow_le_mono_r; lia). lia.
  - assert (2 ^ d <= 2 ^ (Zpos (digits2_pos p) - 1)) by (apply Z.pow_le_mono_r; lia). lia.
Qed.

Lemma fexp64_eq (x : Z) : fexp 53 1024 x = Z.max (x - 53) (-1074).
Proof. reflexivity. Qed.

Lemma pos_iter_xO (p n : positive) : Zpos (Pos.iter xO p n) = Zpos p * 2 ^ Zpos n.
Proof.
  induction n as [|n IH] using Pos.peano_ind.
  - simpl. lia.
  - rewrite Pos.iter_succ, Pos2Z.inj_xO, IH, Pos2Z.inj_succ, Z.pow_succ_r by lia. lia.
Qed.

Lemma rne_mono (p1 p2 k : Z) : 0 < k -> 0 <= p1 <= p2 -> rne p1 k <= rne p2 k.
Proof.
  intros Hk Hp. unfold rne.
  assert (HP : 0 < 2 ^ k) by (apply Z.pow_pos_nonneg; lia).
  pose proof (Z.div_le_mono p1 p2 (2 ^ k) HP ltac:(lia)) as HM.
  pose proof (Z.div_mod p1 (2 ^ k) ltac:(lia)) as E1.
  pose proof (Z.div_mod p2 (2 ^ k) ltac:(lia)) as E2.
  pose proof (Z.mod_pos_bound p1 (2 ^ k) HP) as B1.
  pose proof (Z.mod_pos_bound p2 (2 ^ k) HP) as B2.
  set (M1 := p1 / 2 ^ k) in *. set (M2 := p2 / 2 ^ k) in *.
  set (r1 := p1 mod 2 ^ k) in *. set (r2 := p2 mod 2 ^ k) in *.
  destruct (Z.eq_dec M1 M2) as [E|E].
  - rewrite <- E in *. assert (r1 <= r2) by nia.
    destruct (Z.ltb_spec (2 ^ (k - 1)) r1), (Z.ltb_spec (2 ^ (k - 1)) r2),
             (Z.eqb_spec (2 ^ (k - 1)) r1), (Z.eqb_spec (2 ^ (k - 1)) r2),
             (Z.odd M1); simpl; lia.
  - destruct ((_ <? r1) || _), ((_ <? r2) || _); lia.
Qed.

Lemma rne_bounds (p k : Z) : 0 < k -> 0 <= p -> p / 2 ^ k <= rne p k <= p / 2 ^ k + 1.
Proof. intros Hk Hp. unfold rne. destruct (_ || _); lia. Qed.

Lemma quotient_bounds (p : positive) (k : Z) :
  0 <= k -> Zpos (digits2_pos p) = k + 53 ->
  2 ^ 52 <= Zpos p / 2 ^ k < 2 ^ 53.
Proof.
  intros Hk Hd. pose proof (digits2_bounds p) as [Hlo Hhi]. rewrite Hd in Hlo, Hhi.
  assert (HP : 0 < 2 ^ k) by (apply Z.pow_pos_nonneg; lia).
  replace (k + 53 - 1) with (52 + k) in Hlo by lia.
  replace (k + 53) with (53 + k) in Hhi by lia.
  rewrite Z.pow_add_r in Hlo, Hhi by lia. split.
  - apply Z.div_le_lower_bound; lia.
  - apply Z.div_lt_upper_bound; lia.
Qed.

Lemma rounded_bounds (p : positive) :
  2 ^ (Zpos (digits2_pos p) - 1) <= rounded p <= 2 ^ Zpos (digits2_pos p).
Proof.
  pose proof (digits2_bounds p) as [Hlo Hhi]. unfold rounded.
  destruct (Z.leb_spec (Zpos (digits2_pos p)) 53) as [Hd|Hd]; [lia|].
  set (k := Zpos (digits2_pos p) - 53) in *.
  pose proof (quotient_bounds p k ltac:(lia) ltac:(lia)) as [HM1 HM2].
  pose proof (rne_bounds (Zpos p) k ltac:(lia) ltac:(lia)) as [HR1 HR2].
  assert (HP : 0 < 2 ^ k) by (apply Z.pow_pos_nonneg; lia).
  replace (Zpos (digits2_pos p) - 1) with (52 + k) by lia.
  replace (Zpos (digits2_pos p)) with (53 + k) by lia.
  rewrite !Z.pow_add_r by lia. nia.
Qed.

Lemma digits2_mono (p1 p2 : positive) :
  (p1 <= p2)%positive -> Zpos (digits2_pos p1) <= Zpos (digits2_pos p2).
Proof.
  intros H. pose proof (digits2_bounds p1) as [Hlo1 Hhi1].
  pose proof (digits2_bounds p2) as [Hlo2 Hhi2].
  destruct (Z_le_gt_dec (Zpos (digits2_pos p1)) (Zpos (digits2_pos p2))) as [Hd|Hd]; [exact Hd|].
  assert (2 ^ Zpos (digits2_pos p2) <= 2 ^ (Zpos (digits2_pos p1) - 1))
    by (apply Z.pow_le_mono_r; lia).
  lia.
Qed.

Lemma rounded_mono (p1 p2 : positive) : (p1 <= p2)%positive -> rounded p1 <= rounded p2.
Proof.
  intros H. pose proof (digits2_mono p1 p2 H) as Hd.
  destruct (Z.eq_dec (Zpos (digits2_pos p1)) (Zpos (digits2_pos p2))) as [E|E].
  - unfold rounded. rewrite E.
    destruct (Z.leb_spec (Zpos (digits2_pos p2)) 53) as [H53|H53]; [lia|].
    set (k := Zpos (digits2_pos p2) - 53).
    assert (HP : 0 < 2 ^ k) by (apply Z.pow_pos_nonneg; lia).
    pose proof (rne_mono (Zpos p1) (Zpos p2) k ltac:(lia) ltac:(lia)). nia.
  - pose proof (rounded_bounds p1) as [_ Hhi]. pose proof (rounded_bounds p2) as [Hlo _].
    assert (2 ^ Zpos (digits2_pos p1) <= 2 ^ (Zpos (digits2_pos p2) - 1))
      by (apply Z.pow_le_mono_r; lia).
    lia.
Qed.

(** [binary_round] computes [rounded], in units of the exponent it is
    given, and returns it in canonical form. *)

Lemma rne_shr (p pk : positive) :
  let rec := SpecFloat.iter_pos shr_1 pk (Build_shr_record (Zpos p) false false) in
  round_nearest_even (shr_m rec) (loc_of_shr_record rec) = rne (Zpos p) (Zpos pk).
Proof.
  cbv zeta. rewrite iter_pos_nat.
  pose proof (shr_iter_inv (Zpos p) (Pos.to_nat pk) ltac:(lia)) as Hinv.
  destruct (Nat.iter _ _ _) as [M r s]. unfold shr_inv in Hinv.
  cbn [shr_m shr_r shr_s] in *. rewrite positive_nat_Z in Hinv.
  destruct Hinv as (HM & Hrho & Hr & Hs).
  assert (HP : 0 < 2 ^ Zpos pk) by (apply Z.pow_pos_nonneg; lia).
  assert (EM : Zpos p / 2 ^ Zpos pk = M).
  { symmetry. apply (Z.div_unique_pos _ _ M (Zpos p - M * 2 ^ Zpos pk)); lia. }
  assert (Erho : Zpos p mod 2 ^ Zpos pk = Zpos p - M * 2 ^ Zpos pk).
  { symmetry. apply (Z.mod_unique_pos _ _ M); lia. }
  unfold rne. rewrite EM, Erho.
  set (rho := Zpos p - M * 2 ^ Zpos pk) in *.
  set (half := 2 ^ (Zpos pk - 1)) in *.
  destruct r, s; cbn [loc_of_shr_record round_nearest_even].
  - destruct (proj1 Hr eq_refl) as [_ H1]. destruct (proj1 Hs eq_refl) as (_ & H2 & H3).
    destruct (Z.ltb_spec half rho); [reflexivity | lia].
  - destruct (proj1 Hr eq_refl) as [_ H1].
    assert (rho = half).
    { destruct (Z.eq_dec rho half) as [E|E]; [exact E|].
      assert (false = true) by (apply Hs; repeat split; lia). discriminate. }
    destruct (Z.ltb_spec half rho); [lia|]. destruct (Z.eqb_spec half rho); [|lia].
    simpl. rewrite <- Z.negb_odd. destruct (Z.odd M); reflexivity.
  - assert (rho < half).
    { destruct (Z_lt_le_dec rho half) as [E|E]; [exact E|].
      assert (false = true) by (apply Hr; split; lia). discriminate. }
    destruct (Z.ltb_spec half rho); [lia|]. destruct (Z.eqb_spec half rho); [lia|]. reflexivity.
  - assert (rho < half).
    { destruct (Z_lt_le_dec rho half) as [E|E]; [exact E|].
      assert (false = true) by (apply Hr; split; lia). discriminate. }
    destruct (Z.ltb_spec half rho); [lia|]. destruct (Z.eqb_spec half rho); [lia|]. reflexivity.
Qed.

Lemma shr_fexp_canonical (m : positive) (e : Z) (l : location) :
  fexp 53 1024 (Zpos (digits2_pos m) + e) = e ->
  shr_fexp 53 1024 (Zpos m) e l = (shr_record_of_loc (Zpos m) l, e).
Proof.
  intros H. unfold shr_fexp. cbn [Zdigits2]. rewrite H, Z.sub_diag. reflexivity.
Qed.

Lemma binary_round_aux_canonical (sx : bool) (m : positive) (e : Z) :
  fexp 53 1024 (Zpos (digits2_pos m) + e) = e ->
  binary_round_aux 53 1024 sx (Zpos m) e loc_Exact
  = if e <=? 971 then S754_finite sx m e else S754_infinity sx.
Proof.
  intros H. unfold binary_round_aux. rewrite (shr_fexp_canonical m e _ H).
  cbn [shr_record_of_loc shr_m loc_of_shr_record round_nearest_even].
  rewrite (shr_fexp_canonical m e _ H). reflexivity.
Qed.

Lemma binary_round_spec (sx : bool) (p : positive) (e : Z) :
  -1074 <= e ->
  exists (m' : positive) (e' : Z),
    binary_round 53 1024 sx p e
    = (if e' <=? 971 then S754_finite sx m' e' else S754_infinity sx)
    /\ -1074 <= e'
    /\ fexp 53 1024 (Zpos (digits2_pos m') + e') = e'
    /\ Zpos m' * 2 ^ (e' + 1074) = rounded p * 2 ^ (e + 1074).
Proof.
  intros He. unfold binary_round, rounded.
  pose proof (digits2_bounds p) as [Hlo Hhi].
  set (d := Zpos (digits2_pos p)) in *.
  assert (Hd : 0 < d) by (unfold d; lia).
  rewrite fexp64_eq.
  destruct (Z.leb_spec d 53) as [H53|H53].
  - (* the mantissa fits: the result is exact *)
    set (E := Z.max (d + e - 53) (-1074)).
    assert (HE : E <= e) by (unfold E; lia).
    unfold shl_align.
    destruct (E - e) as [|n|n] eqn:Hshift; try lia.
    + assert (E = e) by lia.
      assert (Hcan : fexp 53 1024 (Zpos (digits2_pos p) + e) = e)
        by (rewrite fexp64_eq; fold d; lia).
      exists p, e. split; [apply binary_round_aux_canonical, Hcan|].
      split; [lia|]. split; [exact Hcan | reflexivity].
    + assert (Hn : Zpos n = e - E) by lia.
      pose proof (pos_iter_xO p n) as Hmz. set (mz := Pos.iter xO p n) in *.
      assert (HP : 0 < 2 ^ Zpos n) by (apply Z.pow_pos_nonneg; lia).
      assert (Hdz : Zpos (digits2_pos mz) = d + Zpos n).
      { apply digits2_unique. rewrite Hmz.
        replace (d + Zpos n - 1) with ((d - 1) + Zpos n) by lia.
        rewrite !Z.pow_add_r by lia. nia. }
      assert (Hcan : fexp 53 1024 (Zpos (digits2_pos mz) + E) = E)
        by (rewrite fexp64_eq, Hdz; unfold E in *; lia).
      exists mz, E. split; [apply binary_round_aux_canonical, Hcan|].
      split; [unfold E; lia|]. split; [exact Hcan|].
      rewrite Hmz. replace (e + 1074) with (Zpos n + (E + 1074)) by lia.
      rewrite (Z.pow_add_r 2 (Zpos n)) by (unfold E; lia). ring.
  - (* the mantissa is cut to 53 digits *)
    set (k := d - 53) in *.
    replace (Z.max (d + e - 53) (-1074)) with (e + k) by lia.
    unfold shl_align. destruct (e + k - e) as [|pk|pk] eqn:Hshift; try lia.
    assert (Hk : k = Zpos pk) by lia.
    unfold binary_round_aux, shr_fexp at 1. cbn [Zdigits2]. fold d.
    rewrite fexp64_eq. replace (Z.max (d + e - 53) (-1074) - e) with (Zpos pk) by lia.
    cbn [shr shr_record_of_loc].
    pose proof (rne_shr p pk) as Hrne. cbv zeta in Hrne.
    destruct (SpecFloat.iter_pos shr_1 pk _) as [M r s] eqn:Hrec.
    cbn [shr_m] in *. rewrite Hrne. clear Hrne Hrec.
    pose proof (quotient_bounds p k ltac:(lia) ltac:(fold d; lia)) as [HM1 HM2].
    pose proof (rne_bounds (Zpos p) k ltac:(lia) ltac:(lia)) as [HR1 HR2].
    rewrite <- Hk. set (R := rne (Zpos p) k) in *.
    assert (HP : 0 < 2 ^ k) by (apply Z.pow_pos_nonneg; lia).
    destruct R as [|q|q] eqn:HR; try lia.
    destruct (Z.eq_dec (Zpos q) (2 ^ 53)) as [Hcarry|Hcarry].
    + (* the rounding carries into the next binade *)
      assert (Hdq : Zpos (digits2_pos q) = 54).
      { apply digits2_unique. rewrite Hcarry. change (54 - 1) with 53.
        split; [lia|]. apply Z.pow_lt_mono_r; lia. }
      exists 4503599627370496%positive, (e + k + 1).
      split; [|split; [lia|split; [rewrite fexp64_eq; simpl digits2_pos; lia|]]].
      * unfold shr_fexp. cbn [Zdigits2]. rewrite fexp64_eq, Hdq.
        replace (Z.max (54 + (e + k) - 53) (-1074) - (e + k)) with 1 by lia.
        cbn [shr shr_record_of_loc SpecFloat.iter_pos].
        rewrite shr_1_nonneg by lia. cbn [shr_m]. rewrite Hcarry.
        replace (e + k + 1 <=? 971) with (e + k + 1 <=? 1024 - 53) by reflexivity.
        reflexivity.
      * replace (e + k + 1 + 1074) with (1 + k + (e + 1074)) by lia.
        rewrite Hcarry, !Z.pow_add_r by lia.
        change (Zpos 4503599627370496) with (2 ^ 52).
        change (2 ^ 53) with (2 ^ 1 * 2 ^ 52). ring.
    + assert (Hdq : Zpos (digits2_pos q) = 53).
      { apply digits2_unique. change (53 - 1) with 52. lia. }
      assert (Hcan : fexp 53 1024 (Zpos (digits2_pos q) + (e + k)) = e + k)
        by (rewrite fexp64_eq, Hdq; lia).
      exists q, (e + k). rewrite (shr_fexp_canonical q _ _ Hcan).
      split; [reflexivity|]. split; [lia|]. split; [exact Hcan|].
      replace (e + k + 1074) with (k + (e + 1074)) by lia.
      rewrite Z.pow_add_r by lia. ring.
Qed.

(** Canonical floats are ordered as their values are. *)

Lemma canonical_order (m1 m2 : positive) (e1 e2 : Z) :
  -1074 <= e1 -> -1074 <= e2 ->
  fexp 53 1024 (Zpos (digits2_pos m1) + e1) = e1 ->
  fexp 53 1024 (Zpos (digits2_pos m2) + e2) = e2 ->
  Zpos m1 * 2 ^ (e1 + 1074) <= Zpos m2 * 2 ^ (e2 + 1074) ->
  e1 < e2 \/ (e1 = e2 /\ (m1 <= m2)%positive).
Proof.
  intros H1 H2 C1 C2 Hv. rewrite fexp64_eq in C1, C2.
  pose proof (digits2_bounds m1) as [Hlo1 Hhi1].
  pose proof (digits2_bounds m2) as [Hlo2 Hhi2].
  destruct (Z.lt_trichotomy e1 e2) as [H|[H|H]]; [left; exact H | right | exfalso].
  - subst e2. split; [reflexivity|].
    assert (0 < 2 ^ (e1 + 1074)) by (apply Z.pow_pos_nonneg; lia).
    assert (Zpos m1 <= Zpos m2) by nia. lia.
  - assert (Hd1 : Zpos (digits2_pos m1) = 53) by lia.
    assert (Hd2 : Zpos (digits2_pos m2) <= 53) by lia.
    rewrite Hd1 in Hlo1. change (53 - 1) with 52 in Hlo1.
    assert (2 ^ Zpos (digits2_pos m2) <= 2 ^ 53) by (apply Z.pow_le_mono_r; lia).
    assert (HP : 0 < 2 ^ (e2 + 1074)) by (apply Z.pow_pos_nonneg; lia).
    assert (2 * 2 ^ (e2 + 1074) <= 2 ^ (e1 + 1074)).
    { rewrite <- Z.pow_succ_r by lia. apply Z.pow_le_mono_r; lia. }
    change (2 ^ 53) with (2 * 2 ^ 52) in *. nia.
Qed.

Lemma SFleb_binary_round_pos (p1 p2 : positive) (e : Z) :
  -1074 <= e -> (p1 <= p2)%positive ->
  SFleb (binary_round 53 1024 false p1 e) (binary_round 53 1024 false p2 e) = true.
Proof.
  intros He Hp.
  destruct (binary_round_spec false p1 e He) as (m1 & e1 & -> & H1 & C1 & V1).
  destruct (binary_round_spec false p2 e He) as (m2 & e2 & -> & H2 & C2 & V2).
  pose proof (rounded_mono p1 p2 Hp) as Hr.
  assert (HP : 0 < 2 ^ (e + 1074)) by (apply Z.pow_pos_nonneg; lia).
  destruct (canonical_order m1 m2 e1 e2 H1 H2 C1 C2 ltac:(nia)) as [Hlt|[-> Hle]].
  - destruct (Z.leb_spec e1 971), (Z.leb_spec e2 971); try reflexivity; try lia.
    unfold SFleb, SFcompare. rewrite (proj2 (Z.compare_lt_iff e1 e2) Hlt). reflexivity.
  - destruct (Z.leb_spec e2 971); [|reflexivity].
    unfold SFleb, SFcompare. rewrite Z.compare_refl, Pos.compare_cont_spec. simpl.
    destruct (Pos.compare_spec m1 m2); try reflexivity. lia.
Qed.

Lemma SFleb_binary_round_neg (p1 p2 : positive) (e : Z) :
  -1074 <= e -> (p1 <= p2)%positive ->
  SFleb (binary_round 53 1024 true p2 e) (binary_round 53 1024 true p1 e) = true.
Proof.
  intros He Hp.
  destruct (binary_round_spec true p1 e He) as (m1 & e1 & -> & H1 & C1 & V1).
  destruct (binary_round_spec true p2 e He) as (m2 & e2 & -> & H2 & C2 & V2).
  pose proof (rounded_mono p1 p2 Hp) as Hr.
  assert (HP : 0 < 2 ^ (e + 1074)) by (apply Z.pow_pos_nonneg; lia).
  destruct (canonical_order m1 m2 e1 e2 H1 H2 C1 C2 ltac:(nia)) as [Hlt|[-> Hle]].
  - destruct (Z.leb_spec e1 971), (Z.leb_spec e2 971); try reflexivity; try lia.
    unfold SFleb, SFcompare. rewrite (proj2 (Z.compare_gt_iff e2 e1) Hlt). reflexivity.
  - destruct (Z.leb_spec e2 971); [|reflexivity].
    unfold SFleb, SFcompare. rewrite Z.compare_refl, Pos.compare_cont_spec. simpl.
    destruct (Pos.compare_spec m2 m1); try reflexivity. lia.
Qed.

Lemma binary_round_sign (sx : bool) (p : positive) (e : Z) :
  -1074 <= e ->
  (exists m' e', binary_round 53 1024 sx p e = S754_finite sx m' e')
  \/ binary_round 53 1024 sx p e = S754_infinity sx.
Proof.
  intros He. destruct (binary_round_spec sx p e He) as (m' & e' & -> & _).
  destruct (e' <=? 971); [left; eauto | right; reflexivity].
Qed.

(** [binary_normalize] is monotone in the integer it rounds. *)
Lemma SFleb_binary_normalize (A B e : Z) :
  -1074 <= e -> A <= B ->
  SFleb (binary_normalize 53 1024 A e false) (binary_normalize 53 1024 B e false) = true.
Proof.
  intros He HAB.
  destruct A as [|a|a], B as [|b|b]; try lia; cbn [binary_normalize]; try reflexivity.
  - destruct (binary_round_sign false b e He) as [(m & e' & ->)| ->]; reflexivity.
  - apply SFleb_binary_round_pos; [exact He | lia].
  - destruct (binary_round_sign true a e He) as [(m & e' & ->)| ->]; reflexivity.
  - destruct (binary_round_sign true a e He) as [(m & e' & ->)| ->],
             (binary_round_sign false b e He) as [(m2 & e2 & ->)| ->]; reflexivity.
  - apply SFleb_binary_round_neg; [exact He | lia].
Qed.

(** Rounding gives a represented float back. *)

Lemma shl_align_value (mx : positive) (ex ez : Z) :
  ez <= ex -> Zpos (fst (shl_align mx ex ez)) = Zpos mx * 2 ^ (ex - ez).
Proof.
  intros H. unfold shl_align. destruct (ez - ex) as [|d|d] eqn:E; try lia; cbn [fst].
  - replace (ex - ez) with 0 by lia. simpl. lia.
  - rewrite pos_iter_xO. f_equal. f_equal. lia.
Qed.

Lemma rounded_exact (mx p : positive) (j : Z) :
  0 <= j -> Zpos (digits2_pos mx) <= 53 -> Zpos p = Zpos mx * 2 ^ j ->
  rounded p = Zpos p.
Proof.
  intros Hj Hdx Hp. unfold rounded.
  destruct (Z.leb_spec (Zpos (digits2_pos p)) 53) as [H53|H53]; [reflexivity|].
  pose proof (digits2_bounds mx) as [Hlo Hhi].
  assert (HJ : 0 < 2 ^ j) by (apply Z.pow_pos_nonneg; lia).
  assert (Hd : Zpos (digits2_pos p) = Zpos (digits2_pos mx) + j).
  { apply digits2_unique. rewrite Hp.
    replace (Zpos (digits2_pos mx) + j - 1) with ((Zpos (digits2_pos mx) - 1) + j) by lia.
    rewrite !Z.pow_add_r by lia. nia. }
  set (k := Zpos (digits2_pos p) - 53) in *.
  assert (Hk : 0 < k <= j) by lia.
  assert (HK : 0 < 2 ^ k) by (apply Z.pow_pos_nonneg; lia).
  assert (Hsplit : Zpos p = (Zpos mx * 2 ^ (j - k)) * 2 ^ k).
  { rewrite Hp, <- Z.mul_assoc, <- Z.pow_add_r by lia. f_equal. f_equal. lia. }
  assert (Ediv : Zpos p / 2 ^ k = Zpos mx * 2 ^ (j - k))
    by (rewrite Hsplit; apply Z.div_mul; lia).
  assert (Emod : Zpos p mod 2 ^ k = 0) by (rewrite Hsplit; apply Z.mod_mul; lia).
  unfold rne. rewrite Ediv, Emod.
  assert (0 < 2 ^ (k - 1)) by (apply Z.pow_pos_nonneg; lia).
  destruct (Z.ltb_spec (2 ^ (k - 1)) 0); [lia|].
  destruct (Z.eqb_spec (2 ^ (k - 1)) 0); [lia|]. simpl. symmetry. exact Hsplit.
Qed.

Lemma binary_round_exact (sx : bool) (mx p : positive) (ex e : Z) :
  -1074 <= e <= ex -> ex <= 971 ->
  fexp 53 1024 (Zpos (digits2_pos mx) + ex) = ex ->
  Zpos p = Zpos mx * 2 ^ (ex - e) ->
  binary_round 53 1024 sx p e = S754_finite sx mx ex.
Proof.
  intros He Hex Hcan Hp.
  destruct (binary_round_spec sx p e ltac:(lia)) as (m' & e' & -> & H' & C' & V').
  assert (Hdx : Zpos (digits2_pos mx) <= 53) by (rewrite fexp64_eq in Hcan; lia).
  rewrite (rounded_exact mx p (ex - e) ltac:(lia) Hdx Hp), Hp in V'.
  assert (Hval : Zpos m' * 2 ^ (e' + 1074) = Zpos mx * 2 ^ (ex + 1074)).
  { rewrite V'. rewrite <- Z.mul_assoc, <- Z.pow_add_r by lia. f_equal. f_equal. lia. }
  destruct (canonical_order m' mx e' ex H' ltac:(lia) C' Hcan ltac:(lia)) as [H1|[H1 H2]];
    destruct (canonical_order mx m' ex e' ltac:(lia) H' Hcan C' ltac:(lia)) as [H3|[H3 H4]];
    try lia.
  subst e'. assert (m' = mx) by lia. subst m'.
  destruct (Z.leb_spec ex 971); [reflexivity | lia].
Qed.

Lemma valid_finite (s : bool) (m : positive) (e : Z) :
  SpecFloat.valid_binary 53 1024 (S754_finite s m e) = true ->
  -1074 <= e <= 971 /\ fexp 53 1024 (Zpos (digits2_pos m) + e) = e.
Proof.
  cbn [SpecFloat.valid_binary]. unfold bounded, canonical_mantissa.
  rewrite andb_true_iff, Z.eqb_eq, Z.leb_le. intros [Hc He].
  split; [|exact Hc]. rewrite fexp64_eq in Hc. change (1024 - 53) with 971 in He. lia.
Qed.

Lemma binary_normalize_exact (sx : bool) (mx : positive) (ex ez : Z) :
  SpecFloat.valid_binary 53 1024 (S754_finite sx mx ex) = true ->
  -1074 <= ez <= ex ->
  binary_normalize 53 1024 (cond_Zopp sx (Zpos (fst (shl_align mx ex ez)))) ez false
  = S754_finite sx mx ex.
Proof.
  intros Hvalid Hez. apply valid_finite in Hvalid as [He Hcan].
  pose proof (shl_align_value mx ex ez ltac:(lia)) as Hv.
  destruct (fst (shl_align mx ex ez)) as [q|q|] eqn:Eq;
    destruct sx; cbn [cond_Zopp Z.opp binary_normalize];
    apply binary_round_exact; try lia; try exact Hcan; exact Hv.
Qed.

(** Subtracting and adding an offset. *)

Lemma SFleb_refl (x : spec_float) : x <> S754_nan -> SFleb x x = true.
Proof.
  destruct x as [s|s| |s m e]; intros H; try reflexivity; [destruct s; reflexivity|contradiction|].
  unfold SFleb, SFcompare. rewrite Z.compare_refl, Pos.compare_cont_spec, Pos.compare_refl.
  destruct s; reflexivity.
Qed.

Lemma SF_offset_order (x y : spec_float) :
  SpecFloat.valid_binary 53 1024 x = true -> SpecFloat.valid_binary 53 1024 y = true ->
  match x with S754_zero _ | S754_finite _ _ _ => True | _ => False end ->
  y <> S754_nan ->
  SFleb (SFsub 53 1024 x (SFabs y)) x = true
  /\ SFleb x (SFadd 53 1024 x (SFabs y)) = true.
Proof.
  intros Hx Hy Hfin Hnan.
  destruct x as [sx|sx| |sx mx ex]; try contradiction;
    destruct y as [sy|sy| |sy my ey]; try contradiction; cbn [SFabs].
  - destruct sx; split; reflexivity.
  - destruct sx; split; reflexivity.
  - destruct sx; split; reflexivity.
  - cbn [SFsub SFadd]. split; apply SFleb_refl; discriminate.
  - destruct sx; split; reflexivity.
  - assert (Hy' : SpecFloat.valid_binary 53 1024 (S754_finite false my ey) = true) by exact Hy.
    destruct (valid_finite _ _ _ Hx) as [Hex _]. destruct (valid_finite _ _ _ Hy) as [Hey _].
    cbn [SFsub SFadd]. cbv zeta. set (ez := Z.min ex ey).
    assert (Hez : -1074 <= ez <= ex) by (unfold ez; lia).
    pose proof (binary_normalize_exact sx mx ex ez Hx Hez) as Hself.
    set (X := cond_Zopp sx (Zpos (fst (shl_align mx ex ez)))) in *.
    set (Y := cond_Zopp false (Zpos (fst (shl_align my ey ez)))).
    assert (HY : 0 < Y) by (unfold Y; cbn [cond_Zopp]; lia).
    split.
    + rewrite <- Hself. apply SFleb_binary_normalize; lia.
    + rewrite <- Hself. apply SFleb_binary_normalize; lia.
Qed.

(** [<] against [<=]. *)

Ltac SF_order :=
  unfold SFltb, SFleb, SFcompare;
  repeat match goal with
         | x : spec_float |- _ => destruct x as [[]|[]| |[] ? ?]
         end;
  try discriminate; try reflexivity; try tauto;
  rewrite ?Pos.compare_cont_spec; simpl;
  repeat match goal with
         | |- context [Z.compare ?a ?b] => destruct (Z.compare_spec a b); try lia; subst
         end;
  simpl; try discriminate; try reflexivity; try tauto;
  repeat match goal with
         | |- context [Pos.compare ?a ?b] => destruct (Pos.compare_spec a b); try lia; subst
         end;
  simpl; try discriminate; try reflexivity; try tauto; try lia.

Lemma SFltb_leb_trans (x y z : spec_float) :
  SFltb x y = true -> SFleb y z = true -> SFltb x z = true.
Proof. SF_order. Qed.

Lemma SFleb_ltb_trans (x y z : spec_float) :
  SFleb x y = true -> SFltb y z = true -> SFltb x z = true.
Proof. SF_order. Qed.

Lemma SFltb_between (x y z : spec_float) :
  SFleb x y = true -> SFleb y z = true -> SFltb x z = true ->
  SFltb x y = true \/ SFltb y z = true.
Proof. SF_order. Qed.

Lemma is_nan_SF (y : float) : is_nan y = false -> Prim2SF y <> S754_nan.
Proof.
  unfold is_nan. rewrite FloatAxioms.eqb_spec. intros H E. rewrite E in H. discriminate H.
Qed.

Lemma is_finite_SF (x : float) :
  is_finite x = true ->
  match Prim2SF x with S754_zero _ | S754_finite _ _ _ => True | _ => False end.
Proof.
  unfold is_finite, is_nan, is_infinity. rewrite !FloatAxioms.eqb_spec, abs_spec.
  change (Prim2SF infinity) with (S754_infinity false).
  destruct (Prim2SF x) as [s|[]| |s m e]; try exact (fun _ => I); discriminate.
Qed.

Lemma abs_abs (y : float) : PrimFloat.abs (PrimFloat.abs y) = PrimFloat.abs y.
Proof. apply Prim2SF_inj. rewrite !abs_spec. destruct (Prim2SF y); reflexivity. Qed.

(** An offset moves a finite float down by subtraction and up by
    addition, or not at all. *)
Lemma offset_order (x y : float) :
  is_finite x = true -> is_nan y = false ->
  (x - PrimFloat.abs y <=? x)%float = true /\ (x <=? x + PrimFloat.abs y)%float = true.
Proof.
  intros Hx Hy. apply is_finite_SF in Hx. apply is_nan_SF in Hy.
  rewrite !leb_spec, !sub_spec, !add_spec, !abs_spec.
  exact (SF_offset_order (Prim2SF x) (Prim2SF y) (Prim2SF_valid x) (Prim2SF_valid y) Hx Hy).
Qed.

(** The two results differ exactly when one of them differs from the
    float, whatever the float and the offset are. *)
Lemma SF_offset_strict (x y : spec_float) :
  SpecFloat.valid_binary 53 1024 x = true -> SpecFloat.valid_binary 53 1024 y = true ->
  SFltb (SFsub 53 1024 x (SFabs y)) (SFadd 53 1024 x (SFabs y)) = true
  <-> SFltb (SFsub 53 1024 x (SFabs y)) x = true
      \/ SFltb x (SFadd 53 1024 x (SFabs y)) = true.
Proof.
  intros Vx Vy.
  assert (match x with S754_zero _ | S754_finite _ _ _ => True | _ => False end
          /\ y <> S754_nan
          \/ (exists s, x = S754_infinity s) \/ x = S754_nan \/ y = S754_nan) as [[Hx Hy]|Hrest].
  { destruct x as [sx|sx| |sx mx ex]; eauto; destruct y; eauto; left; split;
      try exact I; discriminate. }
  - destruct (SF_offset_order x y Vx Vy Hx Hy) as [Hlow Hhigh]. split.
    + apply SFltb_between; assumption.
    + intros [H|H];
        [exact (SFltb_leb_trans _ _ _ H Hhigh) | exact (SFleb_ltb_trans _ _ _ Hlow H)].
  - clear Vx Vy.
    assert (SFltb (SFsub 53 1024 x (SFabs y)) (SFadd 53 1024 x (SFabs y)) = false
            /\ SFltb (SFsub 53 1024 x (SFabs y)) x = false
            /\ SFltb x (SFadd 53 1024 x (SFabs y)) = false) as (E1 & E2 & E3).
    { destruct Hrest as [[s ->]|[-> | ->]].
      - destruct s, y as [[]|[]| |[] m e]; repeat split.
      - destruct y as [[]|[]| |[] m e]; repeat split.
      - destruct x as [[]|[]| |[] m e]; repeat split. }
    rewrite E1, E2, E3. split; [discriminate | intros [H|H]; discriminate H].
Qed.

Lemma offset_strict (x y : float) :
  (x - PrimFloat.abs y <? x + PrimFloat.abs y)%float = true
  <-> (x - PrimFloat.abs y <? x)%float = true \/ (x <? x + PrimFloat.abs y)%float = true.
Proof.
  rewrite !ltb_spec, !sub_spec, !add_spec, !abs_spec.
  apply SF_offset_strict; apply Prim2SF_valid.
Qed.

End Binary64.

(** C3, as the program computes it and as exact arithmetic has it.
    In binary64, for a positive distance [d] and no complete explicit
    pair, the box is west = lon - d, east = lon + d, north = lat + d,
    south = lat - d; with an explicit pair the offsets are the
    magnitudes of left and top.  Each axis on its own: for a finite
    longitude and an offset that is a number, west <= lon <= east;
    and, whatever the floats are, west < east exactly when the offset
    is not absorbed on both sides, that is when lon - left < lon or
    lon < lon + left.  The same for the latitude with south and
    north.  In exact arithmetic, offsets that are not zero always give
    west < east and south < north. *)
Theorem bounding_box_offsets :
  (forall (lat lon d : float) (o_left o_top : option float),
     o_left = None \/ o_top = None ->
     (0 <? d)%float = true ->
     bounding_box lat lon d o_left o_top
     = BBox (lon - d)%float (lat + d)%float (lon + d)%float (lat - d)%float)
  /\ (forall (lat lon d o_left o_top : float),
        bounding_box lat lon d (Some o_left) (Some o_top)
        = BBox (lon - PrimFloat.abs o_left)%float (lat + PrimFloat.abs o_top)%float
               (lon + PrimFloat.abs o_left)%float (lat - PrimFloat.abs o_top)%float)
  /\ (forall (lat lon d : float) (o_left o_top : option float),
        let left := ORIGIN_LEFT d o_left o_top in
        let top := ORIGIN_TOP d o_left o_top in
        let b := bounding_box lat lon d o_left o_top in
        (is_finite lon = true -> is_nan left = false ->
         (WEST b <=? lon)%float = true /\ (lon <=? EAST b)%float = true)
        /\ (is_finite lat = true -> is_nan top = false ->
            (SOUTH b <=? lat)%float = true /\ (lat <=? NORTH b)%float = true)
        /\ ((WEST b <? EAST b)%float = true
            <-> (lon - left <? lon)%float = true \/ (lon <? lon + left)%float = true)
        /\ ((SOUTH b <? NORTH b)%float = true
            <-> (lat - top <? lat)%float = true \/ (lat <? lat + top)%float = true))
  /\ (forall (lat lon d : Q) (o_left o_top : option Q),
        o_left = None \/ o_top = None ->
        (0 < d)%Q ->
        let b := bounding_box lat lon d o_left o_top in
        b = BBox (lon - d)%Q (lat + d)%Q (lon + d)%Q (lat - d)%Q
        /\ (WEST b < EAST b)%Q /\ (SOUTH b < NORTH b)%Q)
  /\ (forall lat lon d o_left o_top : Q,
        ~ (o_left == 0)%Q -> ~ (o_top == 0)%Q ->
        let b := bounding_box lat lon d (Some o_left) (Some o_top) in
        b = BBox (lon - Qabs o_left)%Q (lat + Qabs o_top)%Q
                 (lon + Qabs o_left)%Q (lat - Qabs o_top)%Q
        /\ (WEST b < EAST b)%Q /\ (SOUTH b < NORTH b)%Q).
Proof.
  split; [|split; [|split; [|split]]].
  - intros lat lon d o_left o_top Hpair Hd.
    unfold bounding_box, ORIGIN_LEFT, ORIGIN_TOP.
    assert (match o_left, o_top with Some l, Some _ => l | _, _ => d end = d) as ->
      by (destruct Hpair as [-> | ->]; [|destruct o_left]; reflexivity).
    assert (match o_left, o_top with Some _, Some t => t | _, _ => d end = d) as ->
      by (destruct Hpair as [-> | ->]; [|destruct o_left]; reflexivity).
    simpl. rewrite (abs_positive d Hd). reflexivity.
  - intros. reflexivity.
  - intros lat lon d o_left o_top left top b. subst b.
    cbn [bounding_box WEST EAST SOUTH NORTH]. fold left. fold top.
    assert (PrimFloat.abs left = left) as Hleft by apply abs_abs.
    assert (PrimFloat.abs top = top) as Htop by apply abs_abs.
    change (@Fsub float float_Arith) with PrimFloat.sub.
    change (@Fadd float float_Arith) with PrimFloat.add.
    split; [|split; [|split]].
    + intros Hfin Hnan. rewrite <- Hleft. exact (offset_order lon left Hfin Hnan).
    + intros Hfin Hnan. rewrite <- Htop.
      destruct (offset_order lat top Hfin Hnan) as [Hlow Hhigh]. split; assumption.
    + rewrite <- Hleft. exact (offset_strict lon left).
    + rewrite <- Htop. exact (offset_strict lat top).
  - intros lat lon d o_left o_top Hpair Hd.
    unfold bounding_box, ORIGIN_LEFT, ORIGIN_TOP.
    assert (match o_left, o_top with Some l, Some _ => l | _, _ => d end = d) as ->
      by (destruct Hpair as [-> | ->]; [|destruct o_left]; reflexivity).
    assert (match o_left, o_top with Some _, Some t => t | _, _ => d end = d) as ->
      by (destruct Hpair as [-> | ->]; [|destruct o_left]; reflexivity).
    simpl. rewrite (Qabs_positive d Hd). repeat split; simpl; lra.
  - intros lat lon d o_left o_top Hl Ht.
    pose proof (Qabs_nonzero _ Hl). pose proof (Qabs_nonzero _ Ht).
    unfold bounding_box, ORIGIN_LEFT, ORIGIN_TOP. simpl.
    repeat split; simpl; lra.
Qed.

(** The box of half-width 2 around (25.5, -80.25), in both
    arithmetics; and around longitude 1 an offset of 2^-53, which the
    addition absorbs and the subtraction does not. *)
Lemma bounding_box_offsets_witness :
  let b := bounding_box 25.5%float (-80.25)%float 2%float None None in
  let b' := bounding_box 25.5%float 1%float 0x1p-53%float None None in
  b = BBox (-82.25)%float 27.5%float (-78.25)%float 23.5%float
  /\ ((WEST b <=? -80.25)%float = true /\ (-80.25 <=? EAST b)%float = true)
  /\ ((SOUTH b <=? 25.5)%float = true /\ (25.5 <=? NORTH b)%float = true)
  /\ (WEST b <? EAST b)%float = true /\ (SOUTH b <? NORTH b)%float = true
  /\ (WEST b' <? EAST b')%float = true
  /\ (WEST (bounding_box (51 # 2) (-321 # 4) 2 None None)
      < EAST (bounding_box (51 # 2) (-321 # 4) 2 None None))%Q.
Proof.
  destruct bounding_box_offsets as (Hbox & _ & Horder & Hexact & _).
  destruct (Horder 25.5%float (-80.25)%float 2%float None None) as (Hlon & Hlat & Hwe & Hsn).
  destruct (Horder 25.5%float 1%float 0x1p-53%float None None) as (_ & _ & Hwe' & _).
  split; [|split; [|split; [|split; [|split; [|split]]]]].
  - rewrite (Hbox 25.5%float (-80.25)%float 2%float None None); auto.
  - apply Hlon; reflexivity.
  - apply Hlat; reflexivity.
  - apply Hwe. left. reflexivity.
  - apply Hsn. left. reflexivity.
  - apply Hwe'. left. reflexivity.
  - apply (Hexact (51 # 2) (-321 # 4) 2%Q None None); [auto | reflexivity].
Defined.

(** In binary64 an offset far below the spacing of the floats around
    the origin is absorbed: with origin longitude 100 and distance
    2^-60 (a positive float) west and east are both 100. *)
Lemma bounding_box_degenerate :
  let d := 0x1p-60%float in
  let b := bounding_box 25%float 100%float d None None in
  (0 <? d)%float = true
  /\ WEST b = 100%float /\ EAST b = 100%float
  /\ (WEST b <? EAST b)%float = false
  /\ (SOUTH b <? NORTH b)%float = false.
Proof. vm_compute. repeat split. Qed.

(** ** Origin resolution *)

Lemma env_or_arg_env (env : gmap string string) (name s : string) (from_args : option float) :
  env !! name = Some s -> s <> EmptyString ->
  env_or_arg env name from_args = Some (FromEnv s).
Proof.
  intros H Hs. unfold env_or_arg. rewrite H. destruct s; [contradiction|reflexivity].
Qed.

Lemma env_or_arg_args (env : gmap string string) (name : string) (from_args : option float) :
  env !! name = None \/ env !! name = Some EmptyString ->
  env_or_arg env name from_args = FromArgs <$> from_args.
Proof. intros [H|H]; unfold env_or_arg; rewrite H; reflexivity. Qed.

Lemma chosen_env_or_arg (env : gmap string string) (name : string)
    (from_args : option float) (v : origin_value) :
  chosen env name from_args v -> env_or_arg env name from_args = Some v.
Proof.
  intros [s Hs Hne|x Hx ->].
  - apply env_or_arg_env; assumption.
  - rewrite (env_or_arg_args env name _ Hx). reflexivity.
Qed.

Lemma coordinate_given_found (env : gmap string string) (name : string)
    (from_args : option float) :
  coordinate_given env name from_args <-> is_Some (env_or_arg env name from_args).
Proof.
  unfold coordinate_given, env_or_arg. split.
  - intros [(s & -> & Hs)|[x ->]].
    + destruct s; [contradiction|eauto].
    + destruct (env !! name) as [[|c s]|]; simpl; eauto.
  - destruct (env !! name) as [[|c s]|]; simpl.
    + intros [v Hv]. right. destruct from_args; [eauto|discriminate].
    + intros _. left. eexists. split; [reflexivity|discriminate].
    + intros [v Hv]. right. destruct from_args; [eauto|discriminate].
Qed.

(** C7, coordinate by coordinate: a variable of the environment that
    is set to a string that is not empty gives the coordinate, whatever
    the command line says for it and wherever the other coordinate
    comes from (its own variable, or the command line when that
    variable is unset or empty).  The value goes through [float]: the
    coordinate is the float the string denotes, and a string that
    denotes none raises [ValueError] with the message of [float].
    When the other coordinate is given nowhere no value is used: the
    test of line 41 fails. *)
Theorem environment_origin_takes_precedence
    (float_of_string : string -> option float)
    (env : gmap string string) (a : args) (s : string) :
  s <> EmptyString ->
  (env !! LATITUDE_VAR = Some s ->
   (forall other : origin_value,
      chosen env LONGITUDE_VAR (origin_lon a) other ->
      resolve_origin float_of_string env a
      = inr (match float_of_string s with
             | Some ORIGIN_LAT =>
                 match py_float float_of_string other with
                 | Ok ORIGIN_LON => Ok (ORIGIN_LAT, ORIGIN_LON)
                 | Raise e => Raise e
                 end
             | None => Raise (ValueError ("could not convert string to float: " ++ py_repr s))
             end))
   /\ (~ coordinate_given env LONGITUDE_VAR (origin_lon a) ->
       resolve_origin float_of_string env a = inl tt))
  /\ (env !! LONGITUDE_VAR = Some s ->
      (forall other : origin_value,
         chosen env LATITUDE_VAR (origin_lat a) other ->
         resolve_origin float_of_string env a
         = inr (match py_float float_of_string other with
                | Ok ORIGIN_LAT =>
                    match float_of_string s with
                    | Some ORIGIN_LON => Ok (ORIGIN_LAT, ORIGIN_LON)
                    | None =>
                        Raise (ValueError ("could not convert string to float: " ++ py_repr s))
                    end
                | Raise e => Raise e
                end))
      /\ (~ coordinate_given env LATITUDE_VAR (origin_lat a) ->
          resolve_origin float_of_string env a = inl tt)).
Proof.
  intros Hs. split; intros Henv; split.
  - intros other Hother. apply chosen_env_or_arg in Hother.
    unfold resolve_origin. rewrite Hother, (env_or_arg_env env _ s _ Henv Hs).
    cbn [py_float]. destruct (float_of_string s); reflexivity.
  - intros Hmissing. rewrite coordinate_given_found in Hmissing.
    unfold resolve_origin. rewrite (env_or_arg_env env _ s _ Henv Hs).
    destruct (env_or_arg env LONGITUDE_VAR (origin_lon a)); [|reflexivity].
    exfalso. apply Hmissing. eauto.
  - intros other Hother. apply chosen_env_or_arg in Hother.
    unfold resolve_origin. rewrite Hother, (env_or_arg_env env _ s _ Henv Hs).
    cbn [py_float]. destruct (float_of_string s); reflexivity.
  - intros Hmissing. rewrite coordinate_given_found in Hmissing.
    unfold resolve_origin. rewrite (env_or_arg_env env _ s _ Henv Hs).
    destruct (env_or_arg env LATITUDE_VAR (origin_lat a)); [|reflexivity].
    exfalso. apply Hmissing. eauto.
Qed.

(** An environment that gives the latitude 25.5 against a command line
    that says 1 and 2: the latitude is the one of the environment, the
    longitude the one of the command line.  A latitude ["it's"] of the
    environment raises, with the message Python prints.  And a
    longitude of the environment alone gives no origin. *)
Lemma environment_origin_takes_precedence_witness :
  let float_of_string := fun s : string =>
    if String.eqb s "25.5" then Some 25.5%float
    else if String.eqb s "-80.25" then Some (-80.25)%float else None in
  let a := Args (Some 1%float) (Some 2%float) 2%float None None false false false in
  let nothing := Args None None 2%float None None false false false in
  resolve_origin float_of_string (<[LATITUDE_VAR := "25.5"]> ∅) a
  = inr (Ok (25.5%float, 2%float))
  /\ resolve_origin float_of_string (<[LATITUDE_VAR := "it's"]> ∅) a
     = inr (Raise (ValueError ("could not convert string to float: " ++ dq ++ "it's" ++ dq)))
  /\ resolve_origin float_of_string (<[LONGITUDE_VAR := "-80.25"]> ∅) nothing = inl tt.
Proof.
  intros float_of_string a nothing.
  assert (Hother : forall s, chosen (<[LATITUDE_VAR := s]> ∅) LONGITUDE_VAR (origin_lon a)
                              (FromArgs 2%float)).
  { intros s. apply chosen_args; [left|]; reflexivity. }
  split; [|split].
  - refine (proj1 (proj1 (environment_origin_takes_precedence
                            float_of_string (<[LATITUDE_VAR := "25.5"]> ∅) a "25.5" _) _)
                  (FromArgs 2%float) (Hother "25.5"));
      solve [reflexivity | discriminate].
  - refine (proj1 (proj1 (environment_origin_takes_precedence
                            float_of_string (<[LATITUDE_VAR := "it's"]> ∅) a "it's" _) _)
                  (FromArgs 2%float) (Hother "it's"));
      solve [reflexivity | discriminate].
  - refine (proj2 (proj2 (environment_origin_takes_precedence
                            float_of_string (<[LONGITUDE_VAR := "-80.25"]> ∅) nothing
                            "-80.25" _) _) _);
      try solve [reflexivity | discriminate].
    intros [(s & Hs & _)|[x Hx]]; discriminate.
Defined.

(** A variable that is set to the empty string is present in the
    environment, and yet the value of the command line is the one
    used. *)
Lemma empty_environment_value_yields_to_command_line :
  let env : gmap string string := <[LATITUDE_VAR := EmptyString]> ∅ in
  env !! LATITUDE_VAR = Some EmptyString
  /\ env_or_arg env LATITUDE_VAR (Some 25%float) = Some (FromArgs 25%float).
Proof. split; reflexivity. Qed.

Lemma resolve_origin_found float_of_string env a :
  origin_found env a <-> exists r, resolve_origin float_of_string env a = inr r.
Proof.
  unfold origin_found, resolve_origin.
  destruct (env_or_arg env LATITUDE_VAR (origin_lat a)) as [v1|],
           (env_or_arg env LONGITUDE_VAR (origin_lon a)) as [v2|]; split;
    try (intros [[x Hx] [y Hy]]; discriminate);
    try (intros [r Hr]; discriminate); eauto.
Qed.

(** ** The run as a whole *)

Section RunProperties.
Variable float_of_string : string -> option float.
Variable repr_float : float -> string.
Variable help_text : string.
Variable missing_file_error : string -> exn.
Variable geojson_driver : json -> result GeoDataFrame.
Variable gdf_clip : bbox float -> GeoDataFrame -> result GeoDataFrame.
Variable transform : string -> string -> geometry -> geometry.
Variable requests_get_json : string -> string -> result json.
Variable process_osm_json : json -> result json.
Variable sjoin_within : GeoDataFrame -> GeoDataFrame -> result GeoDataFrame.

Let script := run float_of_string repr_float help_text missing_file_error
                  geojson_driver gdf_clip transform requests_get_json
                  process_osm_json sjoin_within.

(** The output directory and, when it is not there, its parent are
    made unless a file is in the way. *)
Lemma os_makedirs_output_dir (w : world) :
  files w !! "../public" = None -> files w !! OUTPUT_DIR = None ->
  os_makedirs OUTPUT_DIR w
  = (Ok tt, World (files w) ({[OUTPUT_DIR]} ∪ ({["../public"]} ∪ dirs w)) (stdout w)).
Proof.
  intros Hparent Hdir. unfold os_makedirs.
  change (dirname OUTPUT_DIR) with "../public". rewrite Hparent, Hdir. reflexivity.
Qed.

(** C6, with what it takes for the run to reach line 41: when the
    output directory can be made and the parser accepts the command
    line, a coordinate of the origin that is given neither by a
    variable of the environment that is not empty nor on the command
    line makes the script print the error, the usage text and an empty
    line, do nothing else, and exit with status 1; when both
    coordinates are given the run never ends through [exit]. *)
Theorem missing_origin_exits_with_status_1
    (c : cli) (env : gmap string string) (w : world) (a : args) :
  parse_args float_of_string c = inr a ->
  (files w !! "../public" = None -> files w !! OUTPUT_DIR = None ->
   ~ (coordinate_given env LATITUDE_VAR (origin_lat a)
      /\ coordinate_given env LONGITUDE_VAR (origin_lon a)) ->
     script c env w
     = (Exited 1,
        World (files w) ({[OUTPUT_DIR]} ∪ ({["../public"]} ∪ dirs w))
              (stdout w ++ ["Error: Default origin latitude and longitude not found.";
                            help_text; EmptyString]))
     /\ exit_status (fst (script c env w)) = 1%Z)
  /\ (coordinate_given env LATITUDE_VAR (origin_lat a) ->
      coordinate_given env LONGITUDE_VAR (origin_lon a) ->
      forall status, fst (script c env w) <> Exited status).
Proof.
  intros Hparse.
  pose proof (resolve_origin_found float_of_string env a) as Hfound.
  unfold origin_found in Hfound. rewrite <- !coordinate_given_found in Hfound.
  split.
  - intros Hparent Hdir Hmissing. unfold script, run.
    rewrite (os_makedirs_output_dir w Hparent Hdir), Hparse.
    destruct (resolve_origin float_of_string env a) as [[]|r] eqn:E.
    + split; [|reflexivity].
      unfold report_missing_origin, print, mbind, M_bind. simpl.
      rewrite <- !app_assoc. reflexivity.
    + exfalso. apply Hmissing, Hfound. eauto.
  - intros Hlat Hlon status. unfold script, run.
    destruct (os_makedirs OUTPUT_DIR w) as [[[]|e] w0]; [|discriminate].
    rewrite Hparse.
    destruct (proj1 Hfound (conj Hlat Hlon)) as [r ->].
    destruct r as [[lat lon]|e]; simpl; [|discriminate].
    destruct (build_layers _ _ _ _ _ _ _ _ _ _ _ _) as [[[]|e] w']; discriminate.
Qed.
End RunProperties.

(** A command line without [--origin-lat] and an empty environment. *)
Lemma missing_origin_exits_with_status_1_witness :
  let c := Cli None (Some "-80.25") None None None None None None in
  fst (Sample.script c ∅ Sample.installed) = Exited 1
  /\ stdout (snd (Sample.script c ∅ Sample.installed))
     = ["Error: Default origin latitude and longitude not found.";
        Sample.help_text; EmptyString]
  /\ files (snd (Sample.script c ∅ Sample.installed)) = files Sample.installed.
Proof.
  intros c.
  pose (a := Args None (Some (-80.25)%float) DEFAULT_ORIGIN_DISTANCE None None
                  false false false).
  assert (Hparent : files Sample.installed !! "../public" = None) by (vm_compute; reflexivity).
  assert (Hdir : files Sample.installed !! OUTPUT_DIR = None) by (vm_compute; reflexivity).
  assert (Hparse : parse_args Sample.float_of_string c = inr a) by reflexivity.
  destruct (missing_origin_exits_with_status_1
              Sample.float_of_string Sample.repr_float Sample.help_text
              Sample.missing_file_error Sample.geojson_driver Sample.gdf_clip
              Sample.transform Sample.requests_get_json Sample.process_osm_json
              Sample.sjoin_within c ∅ Sample.installed a Hparse)
    as [Hmissing _].
  assert (Hnot : ~ (coordinate_given ∅ LATITUDE_VAR (origin_lat a)
                    /\ coordinate_given ∅ LONGITUDE_VAR (origin_lon a))).
  { intros [[(s & Hs & _)|[x Hx]] _]; [rewrite lookup_empty in Hs|]; discriminate. }
  destruct (Hmissing Hparent Hdir Hnot) as [Hrun _].
  unfold Sample.script. rewrite Hrun. repeat split.
Defined.

(** The claim as it was stated fails where the run ends before line
    41.  [--origin-lat north] and nothing else gives no origin: the
    parser ends the run with status 2 and nothing on the standard
    output.  And with no origin at all in a checkout where [../public]
    is a file, line 12 raises: no error line, no usage text. *)
Lemma missing_origin_not_reached :
  let c := Cli (Some "north") None None None None None None None in
  let none := Cli None None None None None None None None in
  let env : gmap string string := ∅ in
  Sample.float_of_string "north" = None
  /\ env !! LATITUDE_VAR = None /\ env !! LONGITUDE_VAR = None
  /\ fst (Sample.script c env Sample.installed) = Exited 2
  /\ stdout (snd (Sample.script c env Sample.installed)) = []
  /\ fst (Sample.script none env Sample.blocked)
     = Uncaught (NotADirectoryError "[Errno 20] Not a directory: '../public/map-data'")
  /\ stdout (snd (Sample.script none env Sample.blocked)) = [].
Proof. vm_compute. repeat split. Qed.

(** ** Overpass queries *)

Lemma string_app_assoc (s1 s2 s3 : string) : (s1 ++ s2) ++ s3 = s1 ++ s2 ++ s3.
Proof.
  induction s1 as [|c s1 IH]; [reflexivity|].
  change (String c ((s1 ++ s2) ++ s3) = String c (s1 ++ s2 ++ s3)).
  now rewrite IH.
Qed.

(** C8: the three queries, for the geometry of aerodromes, the geometry
    of runways and the origins of aerodromes, name the box as
    south,west,north,east, taken from the (west, north, east, south)
    box of the script, in both of their filters; nothing else in them
    depends on the box. *)
Theorem overpass_queries_bounds_order :
  (forall (repr_float : float -> string) (west north east south : float),
     bounds repr_float (BBox west north east south)
     = repr_float south ++ "," ++ repr_float west ++ ","
         ++ repr_float north ++ "," ++ repr_float east)
  /\ (forall osm_value, exists pre mid post,
        forall (repr_float : float -> string) (b : bbox float),
          geometry_query repr_float b osm_value
          = pre ++ "(" ++ bounds repr_float b ++ ");"
                ++ mid ++ "(" ++ bounds repr_float b ++ ");" ++ post)
  /\ (exists pre mid post,
        forall (repr_float : float -> string) (b : bbox float),
          origins_query repr_float b
          = pre ++ "(" ++ bounds repr_float b ++ ");"
                ++ mid ++ "(" ++ bounds repr_float b ++ ");" ++ post)
  /\ In ("aerodrome", "aerodrome.geojson") OVERPASS_QUERIES
  /\ In ("runway", "tmp_runway.geojson") OVERPASS_QUERIES.
Proof.
  split; [reflexivity|]. split; [|split; [|split; simpl; auto]].
  - intros osm_value.
    exists (nl ++ "            [out:json][timeout:25];"
             ++ nl ++ "            (    "
             ++ nl ++ "            way[" ++ dq ++ "aeroway" ++ dq ++ "=" ++ dq
             ++ osm_value ++ dq ++ "]"),
           (nl ++ "            relation[" ++ dq ++ "aeroway" ++ dq ++ "=" ++ dq
             ++ osm_value ++ dq ++ "]"),
           (nl ++ "            );"
             ++ nl ++ "            out body;"
             ++ nl ++ "            >;"
             ++ nl ++ "            out skel qt;"
             ++ nl ++ "        ").
    intros repr_float b. unfold geometry_query.
    rewrite !string_app_assoc. reflexivity.
  - exists (nl ++ "            [out:json][timeout:25];"
             ++ nl ++ "            (    "
             ++ nl ++ "            way[" ++ dq ++ "aeroway" ++ dq ++ "=" ++ dq
             ++ "aerodrome" ++ dq ++ "]"),
           (nl ++ "            relation[" ++ dq ++ "aeroway" ++ dq ++ "=" ++ dq
             ++ "aerodrome" ++ dq ++ "]"),
           (nl ++ "            );"
             ++ nl ++ "            out center tags;"
             ++ nl ++ "        ").
    intros repr_float b. unfold origins_query.
    rewrite !string_app_assoc. reflexivity.
Qed.

(** ** What the statements leave alone *)

Lemma touches_only_ret {A : Type} (S : string -> Prop) (a : A) :
  touches_only S (mret a : M A).
Proof. intros w p _. reflexivity. Qed.

Lemma touches_only_raise {A : Type} (S : string -> Prop) (e : exn) :
  touches_only S (raise e : M A).
Proof. intros w p _. reflexivity. Qed.

Lemma touches_only_lift {A : Type} (S : string -> Prop) (r : result A) :
  touches_only S (lift r).
Proof. intros w p _. reflexivity. Qed.

Lemma touches_only_print (S : string -> Prop) (line : string) :
  touches_only S (print line).
Proof. intros w p _. reflexivity. Qed.

Lemma touches_only_write_file (S : string -> Prop) (path : string) (c : content) :
  S path -> touches_only S (write_file path c).
Proof.
  intros HS w p Hp. simpl. apply lookup_insert_ne. intros ->. contradiction.
Qed.

Lemma touches_only_os_remove (S : string -> Prop) (path : string) :
  S path -> touches_only S (os_remove path).
Proof.
  intros HS w p Hp. unfold os_remove.
  destruct (files w !! path); [|destruct (bool_decide _); reflexivity].
  simpl. apply lookup_delete_ne. intros ->. contradiction.
Qed.

Lemma touches_only_bind {A B : Type} (S : string -> Prop) (m : M A) (f : A -> M B) :
  touches_only S m -> (forall a, touches_only S (f a)) -> touches_only S (m ≫= f).
Proof.
  intros Hm Hf w p Hp. unfold mbind, M_bind.
  specialize (Hm w p Hp). destruct (m w) as [[a|e] w1]; simpl in *.
  - rewrite (Hf a w1 p Hp). exact Hm.
  - exact Hm.
Qed.

Lemma touches_only_try_except {A : Type} (S : string -> Prop)
    (body : M A) (handler : exn -> M A) :
  touches_only S body -> (forall e, touches_only S (handler e)) ->
  touches_only S (try_except body handler).
Proof.
  intros Hb Hh w p Hp. unfold try_except.
  specialize (Hb w p Hp). destruct (body w) as [[a|e] w1]; simpl in *.
  - exact Hb.
  - rewrite (Hh e w1 p Hp). exact Hb.
Qed.

Lemma touches_only_for_each {A : Type} (S : string -> Prop)
    (xs : list A) (body : A -> M unit) :
  (forall x, In x xs -> touches_only S (body x)) -> touches_only S (for_each xs body).
Proof.
  induction xs as [|x xs IH]; intros Hbody.
  - apply touches_only_ret.
  - rewrite for_each_cons. apply touches_only_bind.
    + apply Hbody. left. reflexivity.
    + intros _. apply IH. intros y Hy. apply Hbody. right. exact Hy.
Qed.

Lemma keeps_dirs_ret {A : Type} (a : A) : keeps_dirs (mret a : M A).
Proof. intros w. reflexivity. Qed.

Lemma keeps_dirs_raise {A : Type} (e : exn) : keeps_dirs (raise e : M A).
Proof. intros w. reflexivity. Qed.

Lemma keeps_dirs_lift {A : Type} (r : result A) : keeps_dirs (lift r).
Proof. intros w. reflexivity. Qed.

Lemma keeps_dirs_print (line : string) : keeps_dirs (print line).
Proof. intros w. reflexivity. Qed.

Lemma keeps_dirs_write_file (path : string) (c : content) : keeps_dirs (write_file path c).
Proof. intros w. reflexivity. Qed.

Lemma keeps_dirs_os_remove (path : string) : keeps_dirs (os_remove path).
Proof.
  intros w. unfold os_remove.
  destruct (files w !! path); [|destruct (bool_decide _)]; reflexivity.
Qed.

Lemma keeps_dirs_bind {A B : Type} (m : M A) (f : A -> M B) :
  keeps_dirs m -> (forall a, keeps_dirs (f a)) -> keeps_dirs (m ≫= f).
Proof.
  intros Hm Hf w. unfold mbind, M_bind.
  specialize (Hm w). destruct (m w) as [[a|e] w1]; simpl in *.
  - rewrite (Hf a w1). exact Hm.
  - exact Hm.
Qed.

Lemma keeps_dirs_try_except {A : Type} (body : M A) (handler : exn -> M A) :
  keeps_dirs body -> (forall e, keeps_dirs (handler e)) ->
  keeps_dirs (try_except body handler).
Proof.
  intros Hb Hh w. unfold try_except.
  specialize (Hb w). destruct (body w) as [[a|e] w1]; simpl in *.
  - exact Hb.
  - rewrite (Hh e w1). exact Hb.
Qed.

Lemma keeps_dirs_for_each {A : Type} (xs : list A) (body : A -> M unit) :
  (forall x, keeps_dirs (body x)) -> keeps_dirs (for_each xs body).
Proof.
  intros Hbody. induction xs as [|x xs IH].
  - apply keeps_dirs_ret.
  - rewrite for_each_cons. apply keeps_dirs_bind; [apply Hbody | intros _; exact IH].
Qed.

(** ** Cleaning the output directory *)

Lemma strip_prefix_Some (pre path rest : string) :
  strip_prefix pre path = Some rest <-> path = pre ++ rest.
Proof.
  revert path. induction pre as [|a pre IH]; intros path.
  - change (EmptyString ++ rest) with rest. destruct path; simpl; split; congruence.
  - change (String a pre ++ rest) with (String a (pre ++ rest)).
    destruct path as [|c path]; simpl; [split; discriminate|].
    destruct (Ascii.eqb_spec a c) as [->|Hne].
    + rewrite IH. split; congruence.
    + split; [discriminate | congruence].
Qed.

Lemma ends_with_spec (suffix s : string) :
  ends_with suffix s = true <-> exists stem, s = stem ++ suffix.
Proof.
  induction s as [|c s IH]; cbn [ends_with].
  - rewrite orb_false_r, String.eqb_eq. split.
    + intros <-. exists EmptyString. reflexivity.
    + intros [[|c stem] H]; [exact H | discriminate H].
  - rewrite orb_true_iff, String.eqb_eq, IH. split.
    + intros [<- | [stem ->]]; [exists EmptyString | exists (String c stem)]; reflexivity.
    + intros [[|c' stem] H].
      * left. exact H.
      * right. exists stem.
        change (String c' stem ++ suffix) with (String c' (stem ++ suffix)) in H. congruence.
Qed.

(** What [glob_match] decides: the path is [dir/name] for a name with
    no slash and no leading dot that ends with the suffix. *)
Lemma glob_match_spec (dir suffix path : string) :
  glob_match dir suffix path = true <->
  exists c stem,
    path = dir ++ "/" ++ String c stem
    /\ has_slash (String c stem) = false
    /\ c <> "."%char
    /\ exists stem', String c stem = stem' ++ suffix.
Proof.
  unfold glob_match, entry_name. split.
  - destruct (strip_prefix (dir ++ "/") path) as [[|c rest]|] eqn:E; try discriminate.
    destruct (has_slash (String c rest)) eqn:Hs; [discriminate|].
    apply strip_prefix_Some in E. rewrite string_app_assoc in E.
    unfold star_match. intros H. exists c, rest.
    split; [exact E|]. split; [exact Hs|].
    destruct (Ascii.eqb_spec c "."%char) as [->|Hne]; [discriminate H|].
    split; [exact Hne|]. apply ends_with_spec.
    destruct c as [[] [] [] [] [] [] [] []]; try exact H; contradiction.
  - intros (c & stem & -> & Hs & Hc & Hsuf).
    rewrite <- string_app_assoc.
    rewrite (proj2 (strip_prefix_Some (dir ++ "/") _ (String c stem)) eq_refl), Hs.
    apply ends_with_spec in Hsuf. unfold star_match.
    destruct c as [[] [] [] [] [] [] [] []]; try exact Hsuf; contradiction.
Qed.

Lemma glob_glob_spec (dir suffix : string) (w : world) :
  exists found,
    glob_glob dir suffix w = (Ok found, w)
    /\ NoDup found
    /\ forall p, p ∈ found <->
                 (is_Some (files w !! p) \/ p ∈ dirs w) /\ glob_match dir suffix p = true.
Proof.
  eexists. split; [reflexivity|]. split.
  - apply NoDup_ListNoDup, List.NoDup_filter, NoDup_ListNoDup, NoDup_elements.
  - intros p. rewrite list_elem_of_In, filter_In, <- list_elem_of_In, elem_of_elements,
      elem_of_union, elem_of_dom. reflexivity.
Qed.

(** The inner loop of lines 124-126 on files that are there. *)
Lemma remove_each (found : list string) (w : world) :
  NoDup found ->
  (forall p, p ∈ found -> is_Some (files w !! p)) ->
  exists w',
    for_each found (fun file => _ ← os_remove file; print ("Deleted: " ++ file)) w
    = (Ok tt, w')
    /\ dirs w' = dirs w
    /\ forall p, files w' !! p = if decide (p ∈ found) then None else files w !! p.
Proof.
  revert w. induction found as [|x rest IH]; intros w Hnd Hin.
  - exists w. split; [reflexivity|]. split; [reflexivity|].
    intros p. destruct (decide (p ∈ [])) as [H|]; [inversion H | reflexivity].
  - apply NoDup_cons in Hnd as [Hx Hnd].
    destruct (Hin x (list_elem_of_here x rest)) as [cx Hcx].
    set (w1 := World (delete x (files w)) (dirs w) (stdout w ++ ["Deleted: " ++ x])).
    destruct (IH w1 Hnd) as (w' & Hrun & Hdirs & Hfiles).
    { intros p Hp. simpl. rewrite lookup_delete_ne.
      - apply Hin. right. exact Hp.
      - intros ->. apply Hx, Hp. }
    exists w'. split; [|split; [exact Hdirs|]].
    + rewrite for_each_cons. rewrite (bind_Ok _ _ w tt w1); [exact Hrun|].
      rewrite (bind_Ok _ _ w tt (World (delete x (files w)) (dirs w) (stdout w))).
      * reflexivity.
      * unfold os_remove. rewrite Hcx. reflexivity.
    + intros p. rewrite Hfiles. simpl files.
      destruct (decide (p ∈ rest)) as [Hp|Hp], (decide (p ∈ x :: rest)) as [Hp'|Hp'];
        try reflexivity.
      * exfalso. apply Hp'. right. exact Hp.
      * apply elem_of_cons in Hp' as [->|Hp']; [apply lookup_delete_eq | contradiction].
      * apply lookup_delete_ne. intros ->. apply Hp'. left.
Qed.

(** *** Statements that only remove *)

Lemma only_removes_ret {A : Type} (S : string -> Prop) (a : A) :
  only_removes S (mret a : M A).
Proof. intros w p. left. reflexivity. Qed.

Lemma only_removes_print (S : string -> Prop) (line : string) :
  only_removes S (print line).
Proof. intros w p. left. reflexivity. Qed.

Lemma only_removes_os_remove (S : string -> Prop) (path : string) :
  S path -> only_removes S (os_remove path).
Proof.
  intros HS w p. unfold os_remove.
  destruct (files w !! path); [|destruct (bool_decide _); left; reflexivity].
  simpl. destruct (decide (p = path)) as [->|Hp].
  - right. split; [exact HS | apply lookup_delete_eq].
  - left. apply lookup_delete_ne. congruence.
Qed.

Lemma only_removes_bind {A B : Type} (S : string -> Prop) (m : M A) (f : A -> M B) :
  only_removes S m -> (forall a, only_removes S (f a)) -> only_removes S (m ≫= f).
Proof.
  intros Hm Hf w p. unfold mbind, M_bind.
  specialize (Hm w p). destruct (m w) as [[a|e] w1]; simpl in *; [|exact Hm].
  destruct (Hf a w1 p) as [Hsame|Hgone]; [rewrite Hsame; exact Hm|].
  right. exact Hgone.
Qed.

Lemma only_removes_try_except {A : Type} (S : string -> Prop)
    (body : M A) (handler : exn -> M A) :
  only_removes S body -> (forall e, only_removes S (handler e)) ->
  only_removes S (try_except body handler).
Proof.
  intros Hb Hh w p. unfold try_except.
  specialize (Hb w p). destruct (body w) as [[a|e] w1]; simpl in *; [exact Hb|].
  destruct (Hh e w1 p) as [Hsame|Hgone]; [rewrite Hsame; exact Hb|].
  right. exact Hgone.
Qed.

Lemma only_removes_for_each {A : Type} (S : string -> Prop)
    (xs : list A) (body : A -> M unit) :
  (forall x, In x xs -> only_removes S (body x)) -> only_removes S (for_each xs body).
Proof.
  induction xs as [|x xs IH]; intros Hbody.
  - apply only_removes_ret.
  - rewrite for_each_cons. apply only_removes_bind.
    + apply Hbody. left. reflexivity.
    + intros _. apply IH. intros y Hy. apply Hbody. right. exact Hy.
Qed.

Lemma only_removes_weaken {A : Type} (S T : string -> Prop) (m : M A) :
  (forall p, S p -> T p) -> only_removes S m -> only_removes T m.
Proof.
  intros Hsub Hm w p. destruct (Hm w p) as [H|[HS H]]; [left; exact H|].
  right. split; [apply Hsub, HS | exact H].
Qed.

Lemma only_removes_touches_only {A : Type} (S : string -> Prop) (m : M A) :
  only_removes S m -> touches_only S m.
Proof. intros Hm w p Hp. destruct (Hm w p) as [H|[HS _]]; [exact H | contradiction]. Qed.

(** Lines 123-126 for one pattern: whatever the listing gives, only
    entries that match are removed. *)
Lemma remove_matches_only_removes (dir suffix : string) :
  only_removes (fun p => glob_match dir suffix p = true)
    (found ← glob_glob dir suffix;
     for_each found (fun file => _ ← os_remove file; print ("Deleted: " ++ file))).
Proof.
  intros w p.
  refine (only_removes_for_each (fun p => glob_match dir suffix p = true)
            (List.filter (glob_match dir suffix) (elements (dom (files w) ∪ dirs w)))
            (fun file => _ ← os_remove file; print ("Deleted: " ++ file)) _ w p).
  intros x Hx. apply filter_In in Hx as [_ Hx].
  apply only_removes_bind; [apply only_removes_os_remove; exact Hx|].
  intros _. apply only_removes_print.
Qed.

Lemma keeps_dirs_remove_matches (dir suffix : string) :
  keeps_dirs
    (found ← glob_glob dir suffix;
     for_each found (fun file => _ ← os_remove file; print ("Deleted: " ++ file))).
Proof.
  apply keeps_dirs_bind; [intros w; reflexivity|]. intros found.
  apply keeps_dirs_for_each. intros file.
  apply keeps_dirs_bind; [apply keeps_dirs_os_remove | intros _; apply keeps_dirs_print].
Qed.

Lemma glob_match_purge_target (suffix p : string) :
  In suffix [".geojson"; ".json"] -> glob_match OUTPUT_DIR suffix p = true ->
  purge_target p = true.
Proof.
  unfold purge_target. intros [<-|[<-|[]]] ->; [reflexivity | apply orb_true_r].
Qed.

(** Lines 118-128 whatever the directory holds: the cleaning returns,
    changes no directory, writes no file and removes only files that
    the patterns select. *)
Lemma clean_output_directory_returns (w : world) :
  fst (clean_output_directory w) = Ok tt.
Proof.
  unfold clean_output_directory. rewrite bind_print. unfold try_except.
  destruct (for_each _ _ _) as [[[]|e] w1]; reflexivity.
Qed.

Lemma keeps_dirs_clean_output_directory : keeps_dirs clean_output_directory.
Proof.
  unfold clean_output_directory.
  apply keeps_dirs_bind; [apply keeps_dirs_print | intros _].
  apply keeps_dirs_try_except; [|intros e; apply keeps_dirs_print].
  apply keeps_dirs_for_each. intros suffix. apply keeps_dirs_remove_matches.
Qed.

Lemma only_removes_clean_output_directory :
  only_removes (fun p => purge_target p = true) clean_output_directory.
Proof.
  unfold clean_output_directory.
  apply only_removes_bind; [apply only_removes_print | intros _].
  apply only_removes_try_except; [|intros e; apply only_removes_print].
  apply only_removes_for_each. intros suffix Hsuffix.
  apply (only_removes_weaken (fun p => glob_match OUTPUT_DIR suffix p = true)).
  - intros p. apply glob_match_purge_target, Hsuffix.
  - apply remove_matches_only_removes.
Qed.

(** Lines 118-128 when no directory has a name that the patterns
    select: the files they select are removed, all of them. *)
Lemma clean_output_directory_complete (w : world) :
  no_directory_selected w ->
  exists w',
    clean_output_directory w = (Ok tt, w')
    /\ forall p, files w' !! p = if purge_target p then None else files w !! p.
Proof.
  intros Hnone.
  assert (Hfiles_only : forall (w0 : world) suffix p,
            dirs w0 = dirs w -> In suffix [".geojson"; ".json"] ->
            (is_Some (files w0 !! p) \/ p ∈ dirs w0)
            /\ glob_match OUTPUT_DIR suffix p = true ->
            is_Some (files w0 !! p)).
  { intros w0 suffix p Hd Hs [[H|H] Hm]; [exact H|exfalso].
    rewrite Hd in H. apply Hnone in H.
    rewrite (glob_match_purge_target suffix p Hs Hm) in H. discriminate H. }
  set (w0 := World (files w) (dirs w)
                   (stdout w ++ ["Cleaning output directory: " ++ OUTPUT_DIR])).
  destruct (glob_glob_spec OUTPUT_DIR ".geojson" w0) as (l1 & Hg1 & Hnd1 & Hin1).
  destruct (remove_each l1 w0 Hnd1) as (w1 & Hr1 & Hd1 & Hf1).
  { intros p Hp. apply (Hfiles_only w0 ".geojson" p); [reflexivity | simpl; tauto|].
    apply Hin1, Hp. }
  destruct (glob_glob_spec OUTPUT_DIR ".json" w1) as (l2 & Hg2 & Hnd2 & Hin2).
  destruct (remove_each l2 w1 Hnd2) as (w2 & Hr2 & Hd2 & Hf2).
  { intros p Hp. apply (Hfiles_only w1 ".json" p); [exact Hd1 | simpl; tauto|].
    apply Hin2, Hp. }
  exists w2. split.
  - unfold clean_output_directory. rewrite bind_print. fold w0.
    apply try_except_Ok.
    rewrite for_each_cons. rewrite (bind_Ok _ _ w0 tt w1).
    + rewrite for_each_cons. rewrite (bind_Ok _ _ w1 tt w2); [reflexivity|].
      rewrite (bind_Ok _ _ w1 l2 w1 Hg2). exact Hr2.
    + rewrite (bind_Ok _ _ w0 l1 w0 Hg1). exact Hr1.
  - intros p. rewrite Hf2, Hf1. unfold purge_target. simpl files.
    destruct (decide (p ∈ l2)) as [H2|H2], (decide (p ∈ l1)) as [H1|H1].
    + apply Hin1 in H1 as [_ ->]. reflexivity.
    + apply Hin2 in H2 as [_ ->]. rewrite orb_true_r. reflexivity.
    + apply Hin1 in H1 as [_ ->]. reflexivity.
    + destruct (files w !! p) as [c|] eqn:E.
      * assert (glob_match OUTPUT_DIR ".geojson" p = false) as ->.
        { destruct (glob_match OUTPUT_DIR ".geojson" p) eqn:G; [|reflexivity].
          exfalso. apply H1, Hin1. split; [left; simpl; rewrite E; eauto | exact G]. }
        assert (glob_match OUTPUT_DIR ".json" p = false) as ->.
        { destruct (glob_match OUTPUT_DIR ".json" p) eqn:G; [|reflexivity].
          exfalso. apply H2, Hin2. split; [|exact G]. left.
          rewrite Hf1. destruct (decide (p ∈ l1)); [contradiction|].
          simpl. rewrite E. eauto. }
        reflexivity.
      * destruct (_ || _); reflexivity.
Qed.

(** Lines 118-128 as a whole. *)
Lemma clean_output_directory_spec (w : world) :
  exists w',
    clean_output_directory w = (Ok tt, w')
    /\ dirs w' = dirs w
    /\ (forall p, files w' !! p = files w !! p
                  \/ (purge_target p = true /\ files w' !! p = None))
    /\ (no_directory_selected w ->
        forall p, files w' !! p = if purge_target p then None else files w !! p).
Proof.
  pose proof (clean_output_directory_returns w) as Hok.
  pose proof (keeps_dirs_clean_output_directory w) as Hdirs.
  pose proof (only_removes_clean_output_directory w) as Hrem.
  destruct (clean_output_directory w) as [r w'] eqn:E. simpl in *. subst r.
  exists w'. split; [reflexivity|]. split; [exact Hdirs|]. split; [exact Hrem|].
  intros Hnone. destruct (clean_output_directory_complete w Hnone) as (w2 & E2 & Hfiles).
  rewrite E in E2. injection E2 as <-. exact Hfiles.
Qed.

Section LayerProperties.
Variable float_of_string : string -> option float.
Variable repr_float : float -> string.
Variable help_text : string.
Variable missing_file_error : string -> exn.
Variable geojson_driver : json -> result GeoDataFrame.
Variable gdf_clip : bbox float -> GeoDataFrame -> result GeoDataFrame.
Variable transform : string -> string -> geometry -> geometry.
Variable requests_get_json : string -> string -> result json.
Variable process_osm_json : json -> result json.
Variable sjoin_within : GeoDataFrame -> GeoDataFrame -> result GeoDataFrame.

Let layers := build_layers repr_float missing_file_error geojson_driver gdf_clip
                transform requests_get_json process_osm_json sjoin_within.
Let writes := write_layers repr_float missing_file_error geojson_driver gdf_clip
                transform requests_get_json process_osm_json sjoin_within.
Let script := run float_of_string repr_float help_text missing_file_error
                geojson_driver gdf_clip transform requests_get_json
                process_osm_json sjoin_within.

(** Everything that writes a layer runs in the world the cleaning
    leaves. *)
Lemma build_layers_cleans_first (a : args) (ORIGIN_LAT ORIGIN_LON : float) (w : world) :
  exists w',
    layers a ORIGIN_LAT ORIGIN_LON w
    = writes a (bounding_box ORIGIN_LAT ORIGIN_LON
                  (origin_distance a) (origin_left a) (origin_top a)) w'
    /\ dirs w' = dirs w
    /\ (forall p, purge_target p = false -> files w' !! p = files w !! p)
    /\ (forall p, purge_target p = true ->
                  files w' !! p = None \/ files w' !! p = files w !! p)
    /\ (no_directory_selected w ->
        forall p, purge_target p = true -> files w' !! p = None).
Proof.
  unfold layers, build_layers. run_prints.
  match goal with
  | |- context [mbind _ clean_output_directory ?w0] =>
      destruct (clean_output_directory_spec w0) as (w1 & Hclean & Hdirs & Hrem & Hall);
      rewrite (bind_Ok _ _ w0 tt w1 Hclean)
  end.
  rewrite bind_print. eexists. split; [reflexivity|].
  cbn [files dirs stdout] in *. split; [exact Hdirs|]. split; [|split].
  - intros p Hp. destruct (Hrem p) as [H|[H _]]; [exact H | congruence].
  - intros p _. destruct (Hrem p) as [H|[_ H]]; [right | left]; exact H.
  - intros Hnone p Hp. rewrite (Hall Hnone p), Hp. reflexivity.
Qed.

Lemma no_directory_selected_makedirs (w : world) :
  no_directory_selected w ->
  no_directory_selected
    (World (files w) ({[OUTPUT_DIR]} ∪ ({["../public"]} ∪ dirs w)) (stdout w)).
Proof.
  intros Hnone d. cbn [dirs]. rewrite !elem_of_union, !elem_of_singleton.
  intros [->|[->|Hd]]; [reflexivity | reflexivity | apply Hnone, Hd].
Qed.

(** C9, with what it takes.  When no file is in the way of the output
    directory or of its parent, the script makes them, and before
    anything that writes a layer runs it has changed no file but
    entries of the output directory whose name matches [*.geojson] or
    [*.json] as [glob] matches (entries of the directory itself, no
    leading dot), and has removed no directory.  When moreover no
    directory has such a name, every file that has is removed. *)
Theorem output_directory_purged_before_layers
    (a : args) (ORIGIN_LAT ORIGIN_LON : float) (w : world) :
  files w !! "../public" = None ->
  files w !! OUTPUT_DIR = None ->
  exists w1 w2,
    os_makedirs OUTPUT_DIR w = (Ok tt, w1)
    /\ layers a ORIGIN_LAT ORIGIN_LON w1
       = writes a (bounding_box ORIGIN_LAT ORIGIN_LON
                     (origin_distance a) (origin_left a) (origin_top a)) w2
    /\ dirs w2 = {[OUTPUT_DIR]} ∪ ({["../public"]} ∪ dirs w)
    /\ (forall p, purge_target p = false -> files w2 !! p = files w !! p)
    /\ (forall p, purge_target p = true ->
                  files w2 !! p = None \/ files w2 !! p = files w !! p)
    /\ (no_directory_selected w ->
        forall p, purge_target p = true -> files w2 !! p = None)
    /\ (forall p, purge_target p = true <->
          exists c stem,
            p = OUTPUT_DIR ++ "/" ++ String c stem
            /\ has_slash (String c stem) = false
            /\ c <> "."%char
            /\ ((exists s, String c stem = s ++ ".geojson")
                \/ (exists s, String c stem = s ++ ".json"))).
Proof.
  intros Hparent Hdir.
  set (w1 := World (files w) ({[OUTPUT_DIR]} ∪ ({["../public"]} ∪ dirs w)) (stdout w)).
  destruct (build_layers_cleans_first a ORIGIN_LAT ORIGIN_LON w1)
    as (w2 & Hrun & Hdirs & Hkept & Hsome & Hall).
  exists w1, w2. split; [exact (os_makedirs_output_dir w Hparent Hdir)|].
  split; [exact Hrun|]. split; [exact Hdirs|].
  split; [exact Hkept|]. split; [exact Hsome|].
  split; [intros Hnone; apply Hall, no_directory_selected_makedirs, Hnone|].
  intros p. unfold purge_target. rewrite orb_true_iff, !glob_match_spec. split.
  - intros [(c & stem & E & Hs & Hc & Hsuf) | (c & stem & E & Hs & Hc & Hsuf)];
      exists c, stem; auto.
  - intros (c & stem & E & Hs & Hc & [Hsuf | Hsuf]); [left | right];
      exists c, stem; auto.
Qed.

(** ** A missing shapefile *)

(** The clipping of a file that is not there prints one line and
    returns [None]; it touches no file. *)
Lemma clip_missing_shapefile (shape_file : string) (b : bbox float) (w : world) :
  files w !! shape_file = None ->
  exists line,
    clip_shapefile_to_bounding_box missing_file_error geojson_driver gdf_clip shape_file b w
    = (Ok None, World (files w) (dirs w) (stdout w ++ [line])).
Proof.
  intros Hmissing. unfold clip_shapefile_to_bounding_box.
  rewrite (try_except_Raise _ _ w (missing_file_error shape_file) w).
  - destruct (missing_file_error shape_file); eexists; reflexivity.
  - apply bind_Raise. unfold gpd_read_file. rewrite Hmissing. reflexivity.
Qed.

(** The clipping of a file that is there and that [clip] accepts. *)
Lemma clip_present_shapefile
    (shape_file : string) (b : bbox float) (w : world) (g clipped : GeoDataFrame) :
  files w !! shape_file = Some (Vector g) ->
  gdf_clip b g = Ok clipped ->
  clip_shapefile_to_bounding_box missing_file_error geojson_driver gdf_clip shape_file b w
  = (Ok (Some (apply_geometry convert_polygons_to_lines clipped)), w).
Proof.
  intros Hfile Hclip. unfold clip_shapefile_to_bounding_box.
  apply try_except_Ok.
  rewrite (bind_Ok _ _ w g w); [|unfold gpd_read_file; rewrite Hfile; reflexivity].
  rewrite (bind_Ok _ _ w clipped w); [reflexivity|].
  unfold lift. rewrite Hclip. reflexivity.
Qed.

(** One turn of the loop of lines 169-172 on a layer whose shapefile
    is missing: [None] has no [to_file]. *)
Lemma clip_layer_missing (b : bbox float) (map_data output_name : string) (w : world) :
  files w !! map_data = None ->
  exists line,
    clip_layer missing_file_error geojson_driver gdf_clip b map_data output_name w
    = (Raise (AttributeError "'NoneType' object has no attribute 'to_file'"),
       World (files w) (dirs w)
             (stdout w ++ [tab ++ "Clipping " ++ map_data ++ " to bounding box..."; line])).
Proof.
  intros Hmissing. unfold clip_layer. rewrite bind_print.
  match goal with
  | |- context [mbind _ (clip_shapefile_to_bounding_box _ _ _ _ _) ?w0] =>
      destruct (clip_missing_shapefile map_data b w0 Hmissing) as [line Hclip];
      rewrite (bind_Ok _ _ w0 _ _ Hclip)
  end.
  exists line. cbn [files dirs stdout]. rewrite <- app_assoc. reflexivity.
Qed.

(** One turn on a layer that is read and clipped: its file is written. *)
Lemma clip_layer_present
    (b : bbox float) (map_data output_name : string) (w : world) (g clipped : GeoDataFrame) :
  files w !! map_data = Some (Vector g) ->
  gdf_clip b g = Ok clipped ->
  clip_layer missing_file_error geojson_driver gdf_clip b map_data output_name w
  = (Ok tt,
     World (<[layer_path output_name
              := Vector (apply_geometry convert_polygons_to_lines clipped)]> (files w))
           (dirs w)
           (stdout w ++ [tab ++ "Clipping " ++ map_data ++ " to bounding box..."])).
Proof.
  intros Hfile Hclip. unfold clip_layer. rewrite bind_print.
  match goal with
  | |- context [mbind _ (clip_shapefile_to_bounding_box _ _ _ _ _) ?w0] =>
      rewrite (bind_Ok _ _ w0 _ _ (clip_present_shapefile map_data b w0 g clipped Hfile Hclip))
  end.
  reflexivity.
Qed.

(** The loop of lines 169-172 on a table whose layers [done] are read
    and clipped and whose next layer has no shapefile: the files of
    [done] are written, then line 172 raises and the loop is left;
    nothing else is written. *)
Lemma layers_loop_until_missing
    (b : bbox float) (done : list (string * string))
    (map_data output_name : string) (rest : list (string * string)) (w : world) :
  (forall l, In l done ->
     exists g clipped, files w !! fst l = Some (Vector g) /\ gdf_clip b g = Ok clipped) ->
  (forall l l', In l done -> In l' (done ++ [(map_data, output_name)]) ->
     layer_path (snd l) <> fst l') ->
  files w !! map_data = None ->
  exists w' line,
    for_each (done ++ (map_data, output_name) :: rest)
      (fun '(map_data, output_name) =>
         clip_layer missing_file_error geojson_driver gdf_clip b map_data output_name) w
    = (Raise (AttributeError "'NoneType' object has no attribute 'to_file'"), w')
    /\ (exists printed,
          stdout w'
          = app printed [tab ++ "Clipping " ++ map_data ++ " to bounding box..."; line])
    /\ (forall l, In l done -> is_Some (files w' !! layer_path (snd l)))
    /\ (forall p, (forall l, In l done -> p <> layer_path (snd l)) ->
                  files w' !! p = files w !! p).
Proof.
  revert w. induction done as [|[src out] done IH]; intros w Hdone Hdistinct Hmissing.
  - destruct (clip_layer_missing b map_data output_name w Hmissing) as [line Hturn].
    eexists. exists line. split; [|split; [|split]].
    + simpl app. rewrite for_each_cons. apply bind_Raise. exact Hturn.
    + eexists. reflexivity.
    + intros l [].
    + intros p _. reflexivity.
  - destruct (Hdone (src, out) (or_introl eq_refl)) as (g & clipped & Hfile & Hclip).
    pose proof (clip_layer_present b src out w g clipped Hfile Hclip) as Hturn.
    match type of Hturn with
    | _ = (_, ?w1) =>
        destruct (IH w1) as (w' & line & Hloop & Hreport & Hwritten & Hframe)
    end.
    + intros l Hl. destruct (Hdone l (or_intror Hl)) as (g' & c' & Hf' & Hc').
      exists g', c'. split; [|exact Hc']. cbn [files].
      rewrite lookup_insert_ne; [exact Hf'|].
      apply (Hdistinct (src, out) l); [left; reflexivity|].
      apply in_or_app. left. right. exact Hl.
    + intros l l' Hl Hl'. apply Hdistinct; [right; exact Hl|].
      apply in_app_or in Hl' as [Hl'|Hl']; apply in_or_app; [left; right|right]; exact Hl'.
    + cbn [files]. rewrite lookup_insert_ne; [exact Hmissing|].
      apply (Hdistinct (src, out) (map_data, output_name)); [left; reflexivity|].
      apply in_or_app. right. left. reflexivity.
    + exists w', line. split; [|split; [exact Hreport|split]].
      * rewrite <- app_comm_cons, for_each_cons. rewrite (bind_Ok _ _ w tt _ Hturn). exact Hloop.
      * intros l [<-|Hl]; [|apply Hwritten, Hl]. cbn [snd].
        destruct (decide (layer_path out ∈ (fun l => layer_path (snd l)) <$> done))
          as [Hin|Hnot].
        -- apply list_elem_of_fmap in Hin as (l & -> & Hl).
           apply Hwritten, list_elem_of_In, Hl.
        -- rewrite Hframe.
           ++ cbn [files]. rewrite lookup_insert_eq. eauto.
           ++ intros l Hl E. apply Hnot. rewrite E.
              apply (list_elem_of_fmap_2 (fun l => layer_path (snd l))), list_elem_of_In, Hl.
      * intros p Hp. rewrite Hframe; [|intros l Hl; apply Hp; right; exact Hl].
        cbn [files]. apply lookup_insert_ne. intros E. apply (Hp (src, out)); [left; reflexivity|].
        symmetry. exact E.
Qed.

(** Lines 190-191 do the same with [to_crs] when the airspace
    shapefile is missing. *)
Lemma airspace_layers_missing (b : bbox float) (w : world) :
  files w !! "data/Class_Airspace/Class_Airspace.shp" = None ->
  exists w',
    generate_airspace_layers missing_file_error geojson_driver gdf_clip transform b w
    = (Raise (AttributeError "'NoneType' object has no attribute 'to_crs'"), w')
    /\ files w' = files w.
Proof.
  intros Hmissing. unfold generate_airspace_layers. run_prints.
  match goal with
  | |- context [mbind _ (clip_shapefile_to_bounding_box _ _ _ _ _) ?w0] =>
      destruct (clip_missing_shapefile "data/Class_Airspace/Class_Airspace.shp" b w0 Hmissing)
        as [line Hclip];
      rewrite (bind_Ok _ _ w0 _ _ Hclip)
  end.
  eexists. split; reflexivity.
Qed.

(** The tables of lines 138-152: no source is in the way of the
    cleaning or of an output, the outputs are cleaned and distinct. *)
Lemma layer_tables_sound (a : args) :
  let table := if build_110m_maps a then MAP_LAYERS_110M else MAP_LAYERS_10M in
  (forall l, In l table ->
     purge_target (fst l) = false /\ purge_target (layer_path (snd l)) = true)
  /\ (forall l l', In l table -> In l' table -> layer_path (snd l) <> fst l')
  /\ NoDup ((fun l => layer_path (snd l)) <$> table).
Proof.
  destruct (build_110m_maps a); cbv zeta; (split; [|split]).
  all: try (apply (bool_decide_unpack _); vm_compute; exact I).
  all: try (intros l Hl; simpl in Hl;
            repeat (destruct Hl as [<-|Hl]; [split; reflexivity|]); contradiction).
  all: intros l l' Hl Hl'; simpl in Hl, Hl';
    repeat (destruct Hl as [<-|Hl];
            [repeat (destruct Hl' as [<-|Hl']; [discriminate|]); contradiction|]);
    contradiction.
Qed.

(** Lines 154-174 when a layer of the table has no shapefile and the
    layers before it are read and clipped. *)
Lemma natural_earth_layers_until_missing
    (b : bbox float) (a : args) (w : world) (done : list (string * string))
    (map_data output_name : string) (rest : list (string * string)) :
  (if build_110m_maps a then MAP_LAYERS_110M else MAP_LAYERS_10M)
  = (done ++ (map_data, output_name) :: rest)%list ->
  (forall l, In l done ->
     exists g clipped, files w !! fst l = Some (Vector g) /\ gdf_clip b g = Ok clipped) ->
  files w !! map_data = None ->
  exists w' line,
    generate_natural_earth_layers repr_float missing_file_error geojson_driver gdf_clip b a w
    = (Raise (AttributeError "'NoneType' object has no attribute 'to_file'"), w')
    /\ (exists printed,
          stdout w'
          = app printed [tab ++ "Clipping " ++ map_data ++ " to bounding box..."; line])
    /\ (forall l, In l done -> is_Some (files w' !! layer_path (snd l)))
    /\ (forall l, In l ((map_data, output_name) :: rest) ->
           files w' !! layer_path (snd l) = files w !! layer_path (snd l)).
Proof.
  intros Htable Hdone Hmissing.
  destruct (layer_tables_sound a) as (_ & Hdistinct & Hnodup).
  cbv zeta in Hdistinct, Hnodup. rewrite Htable in Hdistinct, Hnodup.
  unfold generate_natural_earth_layers. rewrite Htable. run_prints.
  match goal with
  | |- context [mbind _ (for_each _ _) ?w0] =>
      destruct (layers_loop_until_missing b done map_data output_name rest w0)
        as (w' & line & Hloop & Hreport & Hwritten & Hframe)
  end.
  - exact Hdone.
  - intros l l' Hl Hl'. apply Hdistinct.
    + apply in_or_app. left. exact Hl.
    + apply in_app_or in Hl' as [Hl'|[<-|[]]]; apply in_or_app;
        [left; exact Hl' | right; left; reflexivity].
  - exact Hmissing.
  - exists w', line. split; [apply bind_Raise; exact Hloop|].
    split; [exact Hreport|]. split; [exact Hwritten|].
    intros l' Hl'. rewrite Hframe; [reflexivity|].
    intros l Hl E. rewrite fmap_app in Hnodup. apply NoDup_app in Hnodup as (_ & Hsep & _).
    apply (Hsep (layer_path (snd l))).
    + apply (list_elem_of_fmap_2 (fun l => layer_path (snd l))), list_elem_of_In, Hl.
    + rewrite <- E.
      apply (list_elem_of_fmap_2 (fun l => layer_path (snd l))), list_elem_of_In, Hl'.
Qed.

(** C1 at a run in which the shapefile of a Natural Earth layer is
    missing while the layers before it are read and clipped: the
    clipping reports it (the last line printed) and returns [None],
    line 172 then raises [AttributeError], which nothing catches; the
    run ends with status 1, the layers before the missing one are
    written, and neither the missing layer nor any layer after it is:
    their files are gone, or, where a directory stopped the cleaning
    before it came to them, as an earlier run left them. *)
Theorem missing_shapefile_aborts_run
    (c : cli) (env : gmap string string) (w : world) (a : args)
    (ORIGIN_LAT ORIGIN_LON : float)
    (done : list (string * string)) (map_data output_name : string)
    (rest : list (string * string)) :
  files w !! "../public" = None ->
  files w !! OUTPUT_DIR = None ->
  parse_args float_of_string c = inr a ->
  resolve_origin float_of_string env a = inr (Ok (ORIGIN_LAT, ORIGIN_LON)) ->
  (if build_110m_maps a then MAP_LAYERS_110M else MAP_LAYERS_10M)
  = (done ++ (map_data, output_name) :: rest)%list ->
  (forall l, In l done ->
     exists g clipped,
       files w !! fst l = Some (Vector g)
       /\ gdf_clip (bounding_box ORIGIN_LAT ORIGIN_LON (origin_distance a)
                      (origin_left a) (origin_top a)) g = Ok clipped) ->
  files w !! map_data = None ->
  exists w',
    script c env w
    = (Uncaught (AttributeError "'NoneType' object has no attribute 'to_file'"), w')
    /\ exit_status (fst (script c env w)) = 1%Z
    /\ (exists printed line,
          stdout w'
          = app printed [tab ++ "Clipping " ++ map_data ++ " to bounding box..."; line])
    /\ (forall l, In l done -> is_Some (files w' !! layer_path (snd l)))
    /\ (forall l, In l ((map_data, output_name) :: rest) ->
           files w' !! layer_path (snd l) = None
           \/ files w' !! layer_path (snd l) = files w !! layer_path (snd l))
    /\ (no_directory_selected w ->
        forall l, In l ((map_data, output_name) :: rest) ->
          files w' !! layer_path (snd l) = None).
Proof.
  intros Hparent Hdir Hparse Horigin Htable Hdone Hmissing.
  set (b := bounding_box ORIGIN_LAT ORIGIN_LON (origin_distance a)
              (origin_left a) (origin_top a)) in *.
  set (w1 := World (files w) ({[OUTPUT_DIR]} ∪ ({["../public"]} ∪ dirs w)) (stdout w)).
  destruct (build_layers_cleans_first a ORIGIN_LAT ORIGIN_LON w1)
    as (w2 & Hrun & Hdirs & Hkept & Hsome & Hall).
  destruct (layer_tables_sound a) as (Hpurge & _ & _).
  cbv zeta in Hpurge. rewrite Htable in Hpurge.
  destruct (natural_earth_layers_until_missing b a w2 done map_data output_name rest Htable)
    as (w' & line & Hnatural & Hreport & Hwritten & Hframe).
  { intros l Hl. destruct (Hdone l Hl) as (g & clipped & Hfile & Hclip).
    exists g, clipped. split; [|exact Hclip]. rewrite Hkept; [exact Hfile|].
    apply (Hpurge l), in_or_app. left. exact Hl. }
  { rewrite Hkept; [exact Hmissing|].
    apply (Hpurge (map_data, output_name)), in_or_app. right. left. reflexivity. }
  exists w'.
  assert (Hscript : script c env w
                    = (Uncaught (AttributeError "'NoneType' object has no attribute 'to_file'"),
                       w')).
  { unfold script, run. rewrite (os_makedirs_output_dir w Hparent Hdir), Hparse, Horigin.
    fold w1. fold layers. rewrite Hrun. fold b. unfold writes, write_layers.
    rewrite (bind_Raise _ _ _ _ _ Hnatural). reflexivity. }
  split; [exact Hscript|]. rewrite Hscript. split; [reflexivity|].
  split; [destruct Hreport as [printed Hreport]; exists printed, line; exact Hreport|].
  split; [exact Hwritten|].
  assert (Hselected : forall l, In l ((map_data, output_name) :: rest) ->
                        purge_target (layer_path (snd l)) = true).
  { intros l Hl. apply (Hpurge l), in_or_app. right. exact Hl. }
  split.
  - intros l Hl. rewrite (Hframe l Hl). apply Hsome, Hselected, Hl.
  - intros Hnone l Hl. rewrite (Hframe l Hl).
    apply (Hall (no_directory_selected_makedirs w Hnone)), Hselected, Hl.
Qed.

(** ** Skipping the aerodromes *)

(** C2 at a run with [--skip-aerodromes]: the two placeholders are
    written under the bare names [aerodrome.geojson] and
    [tmp_runway.geojson], in the working directory, and not in the
    output directory where line 224 writes the fetched results; the
    merge of lines 249-250 then reads from the output directory and
    finds no file. *)
Theorem skipped_aerodromes_written_outside_output_directory
    (b : bbox float) (a : args) (w : world) :
  skip_aerodromes a = true ->
  files w !! (OUTPUT_DIR ++ "/aerodrome.geojson") = None ->
  exists w1 w2,
    fetch_aerodromes_and_runways repr_float requests_get_json process_osm_json b a w
    = (Ok tt, w1)
    /\ files w1 !! "aerodrome.geojson" = Some (JsonText (JObj []))
    /\ files w1 !! "tmp_runway.geojson" = Some (JsonText (JObj []))
    /\ files w1 !! (OUTPUT_DIR ++ "/aerodrome.geojson") = None
    /\ files w1 !! (OUTPUT_DIR ++ "/tmp_runway.geojson")
       = files w !! (OUTPUT_DIR ++ "/tmp_runway.geojson")
    /\ merge_aerodromes_and_runways missing_file_error geojson_driver sjoin_within w1
       = (Raise (missing_file_error (OUTPUT_DIR ++ "/aerodrome.geojson")), w2)
    /\ files w2 !! (OUTPUT_DIR ++ "/runway.geojson")
       = files w !! (OUTPUT_DIR ++ "/runway.geojson").
Proof.
  intros Hskip Habsent.
  unfold fetch_aerodromes_and_runways, OVERPASS_QUERIES. rewrite !for_each_cons.
  cbn beta iota. rewrite Hskip. cbn [negb]. unfold json_dump.
  eexists. eexists. split; [reflexivity|]. cbn [files dirs stdout].
  assert (Hne1 : "tmp_runway.geojson" <> OUTPUT_DIR ++ "/aerodrome.geojson") by discriminate.
  assert (Hne2 : "aerodrome.geojson" <> OUTPUT_DIR ++ "/aerodrome.geojson") by discriminate.
  assert (Hlook : <["tmp_runway.geojson" := JsonText (JObj [])]>
                    (<["aerodrome.geojson" := JsonText (JObj [])]> (files w))
                  !! (OUTPUT_DIR ++ "/aerodrome.geojson") = None).
  { rewrite !lookup_insert_ne by assumption. exact Habsent. }
  split; [rewrite lookup_insert_ne by discriminate; apply lookup_insert_eq|].
  split; [apply lookup_insert_eq|].
  split; [exact Hlook|].
  split; [rewrite !lookup_insert_ne by discriminate; reflexivity|].
  unfold merge_aerodromes_and_runways. run_prints.
  split.
  - apply bind_Raise. unfold gpd_read_file. cbn [files].
    change (OUTPUT_DIR ++ "/" ++ query_file 0) with (OUTPUT_DIR ++ "/aerodrome.geojson").
    rewrite Hlook. reflexivity.
  - cbn [files]. rewrite !lookup_insert_ne by discriminate. reflexivity.
Qed.

(** ** The airspace classes *)



End LayerProperties.

(** ** The sample installation *)

(** The sample run goes through: with every shapefile in place and the
    aerodromes fetched, the script completes. *)
Example sample_run_completes :
  let r := Sample.script Sample.command_line ∅ Sample.installed in
  fst r = Completed
  /\ exit_status (fst r) = 0%Z
  /\ is_Some (files (snd r) !! (OUTPUT_DIR ++ "/runway.geojson"))
  /\ files (snd r) !! (OUTPUT_DIR ++ "/tmp_runway.geojson") = None.
Proof. vm_compute. repeat split. eauto. Qed.

(** The cleaning on the sample installation: the layer and the origins
    of an earlier run go, the README and the hidden file stay, the
    shapefiles stay. *)
Lemma output_directory_purged_before_layers_witness :
  exists w1 w2,
    os_makedirs OUTPUT_DIR Sample.installed = (Ok tt, w1)
    /\ build_layers Sample.repr_float Sample.missing_file_error Sample.geojson_driver
         Sample.gdf_clip Sample.transform Sample.requests_get_json
         Sample.process_osm_json Sample.sjoin_within
         Sample.parsed 25.5%float (-80.25)%float w1
       = write_layers Sample.repr_float Sample.missing_file_error Sample.geojson_driver
           Sample.gdf_clip Sample.transform Sample.requests_get_json
           Sample.process_osm_json Sample.sjoin_within
           Sample.parsed Sample.box w2
    /\ files w2 !! (OUTPUT_DIR ++ "/airports.geojson") = None
    /\ files w2 !! (OUTPUT_DIR ++ "/origins.json") = None
    /\ files w2 !! (OUTPUT_DIR ++ "/README.md") = Some (JsonText JNull)
    /\ files w2 !! (OUTPUT_DIR ++ "/.cache.json") = Some (JsonText JNull)
    /\ files w2 !! "data/Class_Airspace/Class_Airspace.shp" = Some (Vector Sample.airspace).
Proof.
  assert (Hparent : files Sample.installed !! "../public" = None) by (vm_compute; reflexivity).
  assert (Hdir : files Sample.installed !! OUTPUT_DIR = None) by (vm_compute; reflexivity).
  assert (Hnone : no_directory_selected Sample.installed).
  { intros d Hd. cbn [dirs Sample.installed Sample.incomplete] in Hd.
    apply elem_of_singleton in Hd as ->. reflexivity. }
  destruct (output_directory_purged_before_layers
              Sample.repr_float Sample.missing_file_error Sample.geojson_driver
              Sample.gdf_clip Sample.transform Sample.requests_get_json
              Sample.process_osm_json Sample.sjoin_within
              Sample.parsed 25.5%float (-80.25)%float Sample.installed Hparent Hdir)
    as (w1 & w2 & Hmk & Hrun & _ & Hkept & _ & Hgone & _).
  specialize (Hgone Hnone).
  exists w1, w2. split; [exact Hmk|]. split; [exact Hrun|].
  split; [apply Hgone; vm_compute; reflexivity|].
  split; [apply Hgone; vm_compute; reflexivity|].
  split; [rewrite Hkept by (vm_compute; reflexivity); vm_compute; reflexivity|].
  split; [rewrite Hkept by (vm_compute; reflexivity); vm_compute; reflexivity|].
  rewrite Hkept by (vm_compute; reflexivity). vm_compute. reflexivity.
Defined.

(** The claim as it was stated fails where a directory of the output
    directory has a name that a pattern selects: [os.remove] raises on
    it, the one [try] around both loops ends the cleaning there, and a
    file that matches, here [stale.json], stays; the run goes on and
    completes with it.  And where [../public] is a file the output
    directory is not made: line 12 raises and the run ends there. *)
Lemma output_directory_not_purged :
  let stale := OUTPUT_DIR ++ "/stale.json" in
  let cleaned := snd (clean_output_directory Sample.cluttered) in
  let r := Sample.script Sample.command_line ∅ Sample.cluttered in
  let r' := Sample.script Sample.command_line ∅ Sample.blocked in
  purge_target stale = true
  /\ files Sample.cluttered !! stale = Some (JsonText JNull)
  /\ files cleaned !! stale = Some (JsonText JNull)
  /\ last (stdout cleaned)
     = Some ("Error cleaning directory ../public/map-data: "
             ++ "[Errno 21] Is a directory: '../public/map-data/x.geojson'")
  /\ fst r = Completed
  /\ files (snd r) !! stale = Some (JsonText JNull)
  /\ fst r' = Uncaught (NotADirectoryError "[Errno 20] Not a directory: '../public/map-data'")
  /\ snd r' = Sample.blocked.
Proof. vm_compute. repeat split. Qed.

(** The sample run without the shapefile of the airports: the states
    are written, the airports and the layers after them are not. *)
Lemma missing_shapefile_aborts_run_witness :
  let r := Sample.script Sample.command_line ∅ Sample.incomplete in
  fst r = Uncaught (AttributeError "'NoneType' object has no attribute 'to_file'")
  /\ exit_status (fst r) = 1%Z
  /\ is_Some (files (snd r) !! layer_path "states_provinces")
  /\ files (snd r) !! layer_path "airports" = None
  /\ files (snd r) !! layer_path "rivers" = None.
Proof.
  assert (Hparent : files Sample.incomplete !! "../public" = None) by (vm_compute; reflexivity).
  assert (Hdir : files Sample.incomplete !! OUTPUT_DIR = None) by (vm_compute; reflexivity).
  assert (Hclean : no_directory_selected Sample.incomplete).
  { intros d Hd. cbn [dirs Sample.installed Sample.incomplete] in Hd.
    apply elem_of_singleton in Hd as ->. reflexivity. }
  assert (Hparse : parse_args Sample.float_of_string Sample.command_line = inr Sample.parsed)
    by reflexivity.
  assert (Horigin : resolve_origin Sample.float_of_string ∅ Sample.parsed
                    = inr (Ok (25.5%float, (-80.25)%float))) by reflexivity.
  assert (Hmissing : files Sample.incomplete
                     !! "data/10m_cultural/10m_cultural/ne_10m_airports.shp" = None)
    by (vm_compute; reflexivity).
  assert (Hdone : forall l,
            In l [("data/10m_cultural/10m_cultural/ne_10m_admin_1_states_provinces.shp",
                   "states_provinces")] ->
            exists g clipped,
              files Sample.incomplete !! fst l = Some (Vector g)
              /\ Sample.gdf_clip
                   (bounding_box 25.5%float (-80.25)%float (origin_distance Sample.parsed)
                      (origin_left Sample.parsed) (origin_top Sample.parsed)) g
                 = Ok clipped).
  { intros l [<-|[]]. exists Sample.layer, Sample.layer.
    split; [vm_compute; reflexivity | reflexivity]. }
  destruct (missing_shapefile_aborts_run
              Sample.float_of_string Sample.repr_float Sample.help_text
              Sample.missing_file_error Sample.geojson_driver Sample.gdf_clip
              Sample.transform Sample.requests_get_json Sample.process_osm_json
              Sample.sjoin_within Sample.command_line ∅ Sample.incomplete Sample.parsed
              25.5%float (-80.25)%float
              [("data/10m_cultural/10m_cultural/ne_10m_admin_1_states_provinces.shp",
                "states_provinces")]
              "data/10m_cultural/10m_cultural/ne_10m_airports.shp" "airports"
              (drop 2 MAP_LAYERS_10M)
              Hparent Hdir Hparse Horigin eq_refl Hdone Hmissing)
    as (w' & Hrun & Hstatus & _ & Hwritten & _ & Hnone).
  specialize (Hnone Hclean).
  unfold Sample.script. cbv zeta. rewrite Hrun. cbn [fst snd].
  split; [reflexivity|]. split; [reflexivity|].
  split; [|split].
  - apply (Hwritten ("data/10m_cultural/10m_cultural/ne_10m_admin_1_states_provinces.shp",
                     "states_provinces")).
    left. reflexivity.
  - apply (Hnone ("data/10m_cultural/10m_cultural/ne_10m_airports.shp", "airports")).
    left. reflexivity.
  - apply (Hnone ("data/10m_physical/ne_10m_rivers_lake_centerlines.shp", "rivers")).
    simpl. auto 10.
Defined.

(** The sample run with [--skip-aerodromes true]: it stops at the
    merge, on the file the placeholder was meant to stand for. *)
Example sample_run_skipping_aerodromes_aborts :
  let r := Sample.script Sample.skip_command_line ∅ Sample.installed in
  fst r = Uncaught (Sample.missing_file_error (OUTPUT_DIR ++ "/aerodrome.geojson"))
  /\ files (snd r) !! "aerodrome.geojson" = Some (JsonText (JObj []))
  /\ files (snd r) !! (OUTPUT_DIR ++ "/aerodrome.geojson") = None
  /\ files (snd r) !! (OUTPUT_DIR ++ "/origins.json") = None.
Proof. vm_compute. repeat split. Qed.

(** The placeholders on the world the airspace stage leaves. *)
Lemma skipped_aerodromes_written_outside_output_directory_witness :
  exists w1 w2,
    fetch_aerodromes_and_runways Sample.repr_float Sample.requests_get_json
      Sample.process_osm_json Sample.box Sample.skip_parsed
      (World Sample.shapefiles {[OUTPUT_DIR]} [])
    = (Ok tt, w1)
    /\ files w1 !! "aerodrome.geojson" = Some (JsonText (JObj []))
    /\ files w1 !! (OUTPUT_DIR ++ "/aerodrome.geojson") = None
    /\ merge_aerodromes_and_runways Sample.missing_file_error Sample.geojson_driver
         Sample.sjoin_within w1
       = (Raise (Sample.missing_file_error (OUTPUT_DIR ++ "/aerodrome.geojson")), w2).
Proof.
  assert (Habsent : files (World Sample.shapefiles {[OUTPUT_DIR]} [])
                    !! (OUTPUT_DIR ++ "/aerodrome.geojson") = None)
    by (vm_compute; reflexivity).
  destruct (skipped_aerodromes_written_outside_output_directory
              Sample.repr_float Sample.missing_file_error Sample.geojson_driver
              Sample.requests_get_json Sample.process_osm_json Sample.sjoin_within
              Sample.box Sample.skip_parsed (World Sample.shapefiles {[OUTPUT_DIR]} [])
              eq_refl Habsent)
    as (w1 & w2 & Hfetch & Hcwd & _ & Hout & _ & Hmerge & _).
  exists w1, w2. auto.
Defined.



(** ** What the stages leave alone *)

Lemma touches_only_clean_output_directory :
  touches_only touched clean_output_directory.
Proof.
  apply only_removes_touches_only,
    (only_removes_weaken (fun p => purge_target p = true)); [|apply only_removes_clean_output_directory].
  intros p Hp. left. exact Hp.
Qed.

(** Splits a statement into the statements it is made of. *)
Ltac frame_using known :=
  repeat first
    [ known
    | match goal with
      | |- touches_only _ (print _) => apply touches_only_print
      | |- touches_only _ (mret _) => apply touches_only_ret
      | |- touches_only _ (raise _) => apply touches_only_raise
      | |- touches_only _ (lift _) => apply touches_only_lift
      | |- touches_only _ clean_output_directory => apply touches_only_clean_output_directory
      | |- touches_only _ (mbind _ _) => apply touches_only_bind; [|intros ?]
      | |- touches_only _ (try_except _ _) => apply touches_only_try_except; [|intros ?]
      | |- touches_only _ (match ?x with _ => _ end) => destruct x
      end ].

Ltac frame := frame_using fail.

Ltac dirs_kept_using known :=
  repeat first
    [ known
    | match goal with
      | |- keeps_dirs (print _) => apply keeps_dirs_print
      | |- keeps_dirs (mret _) => apply keeps_dirs_ret
      | |- keeps_dirs (raise _) => apply keeps_dirs_raise
      | |- keeps_dirs (lift _) => apply keeps_dirs_lift
      | |- keeps_dirs (write_file _ _) => apply keeps_dirs_write_file
      | |- keeps_dirs (os_remove _) => apply keeps_dirs_os_remove
      | |- keeps_dirs clean_output_directory => apply keeps_dirs_clean_output_directory
      | |- keeps_dirs (for_each _ _) => apply keeps_dirs_for_each; intros ?
      | |- keeps_dirs (mbind _ _) => apply keeps_dirs_bind; [|intros ?]
      | |- keeps_dirs (try_except _ _) => apply keeps_dirs_try_except; [|intros ?]
      | |- keeps_dirs (match ?x with _ => _ end) => destruct x
      end ].

Ltac dirs_kept := dirs_kept_using fail.

Lemma touched_purge_target (path : string) : purge_target path = true -> touched path.
Proof. intros H. left. exact H. Qed.

Section Frames.
Variable float_of_string : string -> option float.
Variable repr_float : float -> string.
Variable help_text : string.
Variable missing_file_error : string -> exn.
Variable geojson_driver : json -> result GeoDataFrame.
Variable gdf_clip : bbox float -> GeoDataFrame -> result GeoDataFrame.
Variable transform : string -> string -> geometry -> geometry.
Variable requests_get_json : string -> string -> result json.
Variable process_osm_json : json -> result json.
Variable sjoin_within : GeoDataFrame -> GeoDataFrame -> result GeoDataFrame.

Lemma touches_only_gpd_read_file (S : string -> Prop) (path : string) :
  touches_only S (gpd_read_file missing_file_error geojson_driver path).
Proof.
  intros w p _. unfold gpd_read_file. destruct (files w !! path) as [[g|j]|]; reflexivity.
Qed.

Lemma keeps_dirs_gpd_read_file (path : string) :
  keeps_dirs (gpd_read_file missing_file_error geojson_driver path).
Proof.
  intros w. unfold gpd_read_file. destruct (files w !! path) as [[g|j]|]; reflexivity.
Qed.

Lemma touches_only_clip_shapefile (S : string -> Prop) (shape_file : string) (b : bbox float) :
  touches_only S
    (clip_shapefile_to_bounding_box missing_file_error geojson_driver gdf_clip shape_file b).
Proof.
  unfold clip_shapefile_to_bounding_box.
  frame_using ltac:(idtac; match goal with
                    | |- touches_only _ (gpd_read_file _ _ _) =>
                        apply touches_only_gpd_read_file
                    end).
Qed.

Lemma keeps_dirs_clip_shapefile (shape_file : string) (b : bbox float) :
  keeps_dirs
    (clip_shapefile_to_bounding_box missing_file_error geojson_driver gdf_clip shape_file b).
Proof.
  unfold clip_shapefile_to_bounding_box.
  dirs_kept_using ltac:(idtac; match goal with
                        | |- keeps_dirs (gpd_read_file _ _ _) =>
                            apply keeps_dirs_gpd_read_file
                        end).
Qed.

Lemma touches_only_natural_earth (b : bbox float) (a : args) :
  touches_only touched
    (generate_natural_earth_layers repr_float missing_file_error geojson_driver gdf_clip b a).
Proof.
  unfold generate_natural_earth_layers. cbv zeta. frame.
  apply touches_only_for_each. intros [map_data output_name] Hin.
  unfold clip_layer, method_of, to_file.
  frame_using ltac:(idtac; match goal with
                    | |- touches_only _ (clip_shapefile_to_bounding_box _ _ _ _ _) =>
                        apply touches_only_clip_shapefile
                    end).
  apply touches_only_write_file, touched_purge_target.
    destruct (layer_tables_sound a) as (Hpurge & _). cbv zeta in Hpurge.
    apply (Hpurge (map_data, output_name) Hin).
Qed.

Lemma touches_only_airspace (b : bbox float) :
  touches_only touched
    (generate_airspace_layers missing_file_error geojson_driver gdf_clip transform b).
Proof.
  unfold generate_airspace_layers, method_of.
  frame_using ltac:(idtac; match goal with
                    | |- touches_only _ (clip_shapefile_to_bounding_box _ _ _ _ _) =>
                        apply touches_only_clip_shapefile
                    | |- touches_only _ (for_each _ _) => apply touches_only_for_each
                    end).
  intros [class_name output_name] Hin.
  unfold to_file. frame. apply touches_only_write_file, touched_purge_target.
  simpl in Hin. repeat (destruct Hin as [[= <- <-]|Hin]; [reflexivity|]). contradiction.
Qed.

Lemma touches_only_fetch_aerodromes (b : bbox float) (a : args) :
  touches_only touched
    (fetch_aerodromes_and_runways repr_float requests_get_json process_osm_json b a).
Proof.
  unfold fetch_aerodromes_and_runways. apply touches_only_for_each.
  intros [osm_value output_file_name] Hin.
  assert (touched output_file_name /\ touched (OUTPUT_DIR ++ "/" ++ output_file_name))
    as [Hbare Hout].
  { simpl in Hin. destruct Hin as [[= <- <-]|[[= <- <-]|[]]].
    - split; [right; left; reflexivity | left; reflexivity].
    - split; [right; right; reflexivity | left; reflexivity]. }
  unfold generate_aerodrome_runway_geometry, json_dump. frame;
    apply touches_only_write_file; assumption.
Qed.

Lemma touches_only_merge :
  touches_only touched
    (merge_aerodromes_and_runways missing_file_error geojson_driver sjoin_within).
Proof.
  unfold merge_aerodromes_and_runways, to_file. cbv zeta.
  frame_using ltac:(idtac; match goal with
                    | |- touches_only _ (gpd_read_file _ _ _) =>
                        apply touches_only_gpd_read_file
                    end).
  - apply touches_only_write_file, touched_purge_target. reflexivity.
  - apply touches_only_os_remove, touched_purge_target. reflexivity.
Qed.

Lemma touches_only_fetch_origins (b : bbox float) (a : args) :
  touches_only touched (fetch_aerodrome_origins repr_float requests_get_json b a).
Proof.
  unfold fetch_aerodrome_origins, get_aerodrome_origins_as_lat_lon, json_dump. frame;
    apply touches_only_write_file, touched_purge_target; reflexivity.
Qed.

Lemma touches_only_build_layers (a : args) (ORIGIN_LAT ORIGIN_LON : float) :
  touches_only touched
    (build_layers repr_float missing_file_error geojson_driver gdf_clip transform
       requests_get_json process_osm_json sjoin_within a ORIGIN_LAT ORIGIN_LON).
Proof.
  unfold build_layers, write_layers. cbv zeta.
  frame_using ltac:(idtac; match goal with
                    | |- touches_only _ (generate_natural_earth_layers _ _ _ _ _ _) =>
                        apply touches_only_natural_earth
                    | |- touches_only _ (generate_airspace_layers _ _ _ _ _) =>
                        apply touches_only_airspace
                    | |- touches_only _ (fetch_aerodromes_and_runways _ _ _ _ _) =>
                        apply touches_only_fetch_aerodromes
                    | |- touches_only _ (merge_aerodromes_and_runways _ _ _) =>
                        apply touches_only_merge
                    | |- touches_only _ (fetch_aerodrome_origins _ _ _ _) =>
                        apply touches_only_fetch_origins
                    end).
Qed.

Lemma keeps_dirs_build_layers (a : args) (ORIGIN_LAT ORIGIN_LON : float) :
  keeps_dirs
    (build_layers repr_float missing_file_error geojson_driver gdf_clip transform
       requests_get_json process_osm_json sjoin_within a ORIGIN_LAT ORIGIN_LON).
Proof.
  unfold build_layers, write_layers, generate_natural_earth_layers, generate_airspace_layers,
    fetch_aerodromes_and_runways, merge_aerodromes_and_runways, fetch_aerodrome_origins,
    get_aerodrome_origins_as_lat_lon, generate_aerodrome_runway_geometry, clip_layer,
    method_of, to_file, json_dump.
  cbv zeta.
  dirs_kept_using ltac:(idtac; match goal with
                        | |- keeps_dirs (clip_shapefile_to_bounding_box _ _ _ _ _) =>
                            apply keeps_dirs_clip_shapefile
                        | |- keeps_dirs (gpd_read_file _ _ _) =>
                            apply keeps_dirs_gpd_read_file
                        end).
Qed.

(** X1: whatever the command line, the environment, the files and the
    answers of the libraries, and however the run ends, it changes no
    file but entries of the output directory named [*.geojson] or
    [*.json] and the two bare names [aerodrome.geojson] and
    [tmp_runway.geojson] of the working directory; the shapefiles are
    never written.  It removes no directory, and the only directories
    it may add are the output directory and its parent [../public]. *)
Theorem run_touches_only_outputs
    (c : cli) (env : gmap string string) (w : world) (p : string) :
  ~ touched p ->
  let w' := snd (run float_of_string repr_float help_text missing_file_error
                     geojson_driver gdf_clip transform requests_get_json
                     process_osm_json sjoin_within c env w) in
  files w' !! p = files w !! p
  /\ (dirs w' = dirs w \/ dirs w' = {[OUTPUT_DIR]} ∪ ({["../public"]} ∪ dirs w)).
Proof.
  intros Hp. cbv zeta. unfold run, os_makedirs.
  change (dirname OUTPUT_DIR) with "../public".
  destruct (files w !! "../public"); [split; [reflexivity | left; reflexivity]|].
  destruct (files w !! OUTPUT_DIR); [split; [reflexivity | left; reflexivity]|].
  destruct (parse_args float_of_string c) as [status|a];
    [split; [reflexivity | right; reflexivity]|].
  destruct (resolve_origin float_of_string env a) as [[]|[[lat lon]|e]];
    try (split; [reflexivity | right; reflexivity]).
  pose proof (touches_only_build_layers a lat lon
                (World (files w) ({[OUTPUT_DIR]} ∪ ({["../public"]} ∪ dirs w)) (stdout w))
                p Hp) as Hframe.
  pose proof (keeps_dirs_build_layers a lat lon
                (World (files w) ({[OUTPUT_DIR]} ∪ ({["../public"]} ∪ dirs w)) (stdout w)))
    as Hdirs.
  destruct (build_layers _ _ _ _ _ _ _ _ _ _ _ _) as [[[]|e] w']; simpl in *;
    (split; [exact Hframe | right; exact Hdirs]).
Qed.
End Frames.

(** A file the sample run must leave alone. *)
Lemma run_touches_only_outputs_witness :
  files (snd (Sample.script Sample.skip_command_line ∅ Sample.installed))
  !! "data/Class_Airspace/Class_Airspace.shp"
  = Some (Vector Sample.airspace).
Proof.
  assert (Hp : ~ touched "data/Class_Airspace/Class_Airspace.shp").
  { intros [H|[H|H]]; vm_compute in H; discriminate H. }
  destruct (run_touches_only_outputs
              Sample.float_of_string Sample.repr_float Sample.help_text
              Sample.missing_file_error Sample.geojson_driver Sample.gdf_clip
              Sample.transform Sample.requests_get_json Sample.process_osm_json
              Sample.sjoin_within Sample.skip_command_line ∅ Sample.installed
              "data/Class_Airspace/Class_Airspace.shp" Hp) as [Hfile _].
  unfold Sample.script. rewrite Hfile. vm_compute. reflexivity.
Defined.

(** ** More on the bounding box *)

Lemma abs_opp (x : float) : PrimFloat.abs (- x)%float = PrimFloat.abs x.
Proof.
  apply Prim2SF_inj. rewrite !abs_spec, opp_spec.
  destruct (Prim2SF x); reflexivity.
Qed.

(** X2: the box does not depend on the sign of the distance or of the
    explicit offsets; an explicit left without top, or top without
    left, is ignored and the distance is used for both; and when both
    are given the distance plays no part. *)
Theorem bounding_box_offsets_selection (lat lon d : float) :
  bounding_box lat lon (- d)%float None None = bounding_box lat lon d None None
  /\ (forall l t : float,
        bounding_box lat lon d (Some (- l)%float) (Some (- t)%float)
        = bounding_box lat lon d (Some l) (Some t))
  /\ (forall l : float,
        bounding_box lat lon d (Some l) None = bounding_box lat lon d None None)
  /\ (forall t : float,
        bounding_box lat lon d None (Some t) = bounding_box lat lon d None None)
  /\ (forall d' l t : float,
        bounding_box lat lon d' (Some l) (Some t) = bounding_box lat lon d (Some l) (Some t)).
Proof.
  unfold bounding_box, ORIGIN_LEFT, ORIGIN_TOP. simpl.
  split; [rewrite abs_opp; reflexivity|].
  split; [intros l t; rewrite !abs_opp; reflexivity|].
  repeat split.
Qed.

(** ** More on the command line *)

(** X3: the conversions of lines 23-27, on a command line that gives
    options with their values and nothing else (a [cli]: no [-h], no
    unknown option, no missing value, each option at most once).  The
    options that take a float are read through [float]: on such a
    command line the parser gives up, with status 2, exactly when one
    of the five is given a value that [float] rejects; otherwise each
    holds the float of its value, [None] when omitted, and the distance
    defaults to 2.0. *)
Theorem parse_args_float_options (float_of_string : string -> option float) (c : cli) :
  let given := [cli_origin_lat c; cli_origin_lon c; cli_origin_distance c;
                cli_origin_left c; cli_origin_top c] in
  let rejected := exists s, In (Some s) given /\ float_of_string s = None in
  match parse_args float_of_string c with
  | inl status => status = 2%Z /\ rejected
  | inr a =>
      ~ rejected
      /\ origin_lat a = cli_origin_lat c ≫= float_of_string
      /\ origin_lon a = cli_origin_lon c ≫= float_of_string
      /\ origin_left a = cli_origin_left c ≫= float_of_string
      /\ origin_top a = cli_origin_top c ≫= float_of_string
      /\ origin_distance a
         = match cli_origin_distance c with
           | None => 2%float
           | Some s => default 2%float (float_of_string s)
           end
  end.
Proof.
  cbv zeta. unfold parse_args, float_option.
  destruct c as [lat lon dist o_left o_top f1 f2 f3]. simpl.
  destruct lat as [s1|]; [destruct (float_of_string s1) eqn:E1|];
  (destruct lon as [s2|]; [destruct (float_of_string s2) eqn:E2|]);
  (destruct dist as [s3|]; [destruct (float_of_string s3) eqn:E3|]);
  (destruct o_left as [s4|]; [destruct (float_of_string s4) eqn:E4|]);
  (destruct o_top as [s5|]; [destruct (float_of_string s5) eqn:E5|]);
  simpl; rewrite ?E1, ?E2, ?E4, ?E5;
  first
    [ split; [reflexivity|]; eexists; split; [|eassumption]; simpl; tauto
    | split; [|repeat split; reflexivity];
      intros (s & Hin & Hs); simpl in Hin;
      repeat (destruct Hin as [Hin|Hin]; [try discriminate Hin; injection Hin as ->; congruence|]);
      contradiction ].
Qed.

(** ** More on the clipping *)

Lemma convert_polygons_to_lines_no_polygon (g : geometry) :
  is_polygon (convert_polygons_to_lines g) = false.
Proof. destruct g; reflexivity. Qed.

Lemma apply_geometry_attrs (f : geometry -> geometry) (g : GeoDataFrame) :
  crs (apply_geometry f g) = crs g
  /\ columns (apply_geometry f g) = columns g
  /\ map feat_attrs (rows (apply_geometry f g)) = map feat_attrs (rows g).
Proof.
  split; [reflexivity|]. split; [reflexivity|].
  simpl. rewrite map_map. reflexivity.
Qed.

Lemma apply_convert_no_polygon (clipped : GeoDataFrame) (r : feature) (g : geometry) :
  In r (rows (apply_geometry convert_polygons_to_lines clipped)) ->
  feat_geometry r = Some g -> is_polygon g = false.
Proof.
  simpl. rewrite in_map_iff. intros (r0 & <- & _). simpl.
  destruct (feat_geometry r0) as [g0|]; [|discriminate].
  intros [= <-]. apply convert_polygons_to_lines_no_polygon.
Qed.

Section ClipProperties.
Variable missing_file_error : string -> exn.
Variable geojson_driver : json -> result GeoDataFrame.
Variable gdf_clip : bbox float -> GeoDataFrame -> result GeoDataFrame.

(** X4: [clip_shapefile_to_bounding_box] never raises and never
    touches a file or a directory.  It returns a layer exactly when the
    file is read and the clip succeeds, printing nothing; that layer
    has the attributes, columns and reference system of the clip and no
    polygon or multi-polygon geometry.  In every other case it prints
    one line and returns [None]. *)
Theorem clip_shapefile_total (shape_file : string) (b : bbox float) (w : world) :
  exists r lines,
    clip_shapefile_to_bounding_box missing_file_error geojson_driver gdf_clip shape_file b w
    = (Ok r, World (files w) (dirs w) (stdout w ++ lines))
    /\ match r with
       | Some out =>
           lines = []
           /\ (exists g clipped,
                 read_result missing_file_error geojson_driver w shape_file = Ok g
                 /\ gdf_clip b g = Ok clipped
                 /\ crs out = crs clipped /\ columns out = columns clipped
                 /\ map feat_attrs (rows out) = map feat_attrs (rows clipped))
           /\ (forall r g, In r (rows out) -> feat_geometry r = Some g ->
                             is_polygon g = false)
       | None =>
           (exists line, lines = [line])
           /\ ~ (exists g clipped,
                   read_result missing_file_error geojson_driver w shape_file = Ok g
                   /\ gdf_clip b g = Ok clipped)
       end.
Proof.
  unfold clip_shapefile_to_bounding_box, read_result, try_except, mbind, M_bind, lift.
  destruct (gpd_read_file missing_file_error geojson_driver shape_file w) as [[g|e] w1] eqn:Hread.
  - assert (w1 = w) as ->.
    { unfold gpd_read_file in Hread.
      destruct (files w !! shape_file) as [[g0|j]|]; injection Hread as _ <-; reflexivity. }
    destruct (gdf_clip b g) as [clipped|e] eqn:Hclip.
    + exists (Some (apply_geometry convert_polygons_to_lines clipped)), [].
      split; [destruct w; simpl; rewrite app_nil_r; reflexivity|].
      split; [reflexivity|]. split.
      * exists g, clipped. split; [reflexivity|]. split; [exact Hclip|].
        apply apply_geometry_attrs.
      * apply apply_convert_no_polygon.
    + assert (~ (exists g0 clipped, (Ok g : result GeoDataFrame) = Ok g0
                                    /\ gdf_clip b g0 = Ok clipped)) as Hno.
      { intros (g0 & c & [= <-] & Hc). congruence. }
      destruct e; eexists None, [_]; (split; [reflexivity|]); (split; [eauto | exact Hno]).
  - assert (w1 = w) as ->.
    { unfold gpd_read_file in Hread.
      destruct (files w !! shape_file) as [[g0|j]|]; injection Hread as _ <-; reflexivity. }
    assert (~ (exists g0 clipped, (Raise e : result GeoDataFrame) = Ok g0
                                  /\ gdf_clip b g0 = Ok clipped)) as Hno.
    { intros (g0 & c & [=] & _). }
    destruct e; eexists None, [_]; (split; [reflexivity|]); (split; [eauto | exact Hno]).
Qed.
End ClipProperties.

(** ** The stages when they run through *)

Section StageRuns.
Variable float_of_string : string -> option float.
Variable repr_float : float -> string.
Variable help_text : string.
Variable missing_file_error : string -> exn.
Variable geojson_driver : json -> result GeoDataFrame.
Variable gdf_clip : bbox float -> GeoDataFrame -> result GeoDataFrame.
Variable transform : string -> string -> geometry -> geometry.
Variable requests_get_json : string -> string -> result json.
Variable process_osm_json : json -> result json.
Variable sjoin_within : GeoDataFrame -> GeoDataFrame -> result GeoDataFrame.




(** Lines 181-197 up to the loop: the airspace layer as it is clipped
    and reprojected. *)
Lemma airspace_layers_prologue (b : bbox float) (w : world) (g clipped : GeoDataFrame) :
  files w !! "data/Class_Airspace/Class_Airspace.shp" = Some (Vector g) ->
  gdf_clip b g = Ok clipped ->
  exists w0,
    files w0 = files w /\ dirs w0 = dirs w
    /\ generate_airspace_layers missing_file_error geojson_driver gdf_clip transform b w
       = match to_crs transform (apply_geometry convert_polygons_to_lines clipped) "EPSG:4326"
         with
         | Ok clipped_airspace =>
             (_ ← for_each AIRSPACE (fun '(class_name, output_name) =>
                    _ ← print (tab ++ "Clipping Class " ++ class_name
                                   ++ " Airspace to bounding box...");
                    airspace ← lift (select_class clipped_airspace class_name);
                    to_file airspace (layer_path output_name));
              print "============================================") w0
         | Raise e => (Raise e, w0)
         end.
Proof.
  intros Hfile Hclip. unfold generate_airspace_layers. run_prints.
  match goal with
  | |- context [mbind _ (clip_shapefile_to_bounding_box _ _ _ _ _) ?w0] =>
      rewrite (bind_Ok _ _ w0 _ _
                 (clip_present_shapefile missing_file_error geojson_driver gdf_clip
                    _ b w0 g clipped Hfile Hclip));
      exists w0
  end.
  split; [reflexivity|]. split; [reflexivity|].
  cbn [method_of]. rewrite bind_ret, bind_lift. reflexivity.
Qed.

(** X6: the airspace stage has no handler of its own.  A clipped layer
    without reference system makes [to_crs] raise [ValueError], and one
    without a [CLASS] column makes line 194 raise [KeyError]; either
    leaves the stage at once, before any of the three airspace files is
    written. *)
Theorem airspace_layers_unusable_layer
    (b : bbox float) (w : world) (g clipped : GeoDataFrame) :
  files w !! "data/Class_Airspace/Class_Airspace.shp" = Some (Vector g) ->
  gdf_clip b g = Ok clipped ->
  crs clipped = None \/ existsb (String.eqb "CLASS") (columns clipped) = false ->
  exists e w',
    generate_airspace_layers missing_file_error geojson_driver gdf_clip transform b w
    = (Raise e, w')
    /\ files w' = files w
    /\ (crs clipped = None ->
        e = ValueError
              "Cannot transform naive geometries.  Please set a crs on the object first.")
    /\ (crs clipped <> None -> e = KeyError "'CLASS'").
Proof.
  intros Hfile Hclip Hbad.
  destruct (airspace_layers_prologue b w g clipped Hfile Hclip) as (w0 & Hf0 & _ & Hrun).
  rewrite Hrun. unfold to_crs. cbn [crs apply_geometry].
  destruct (crs clipped) as [source|] eqn:Hcrs.
  - destruct Hbad as [Hbad|Hcols]; [discriminate|].
    assert (Hsel : forall layer, columns layer = columns clipped ->
                     select_class layer "B" = Raise (KeyError "'CLASS'")).
    { intros layer Hl. unfold select_class. rewrite Hl, Hcols. reflexivity. }
    unfold AIRSPACE. rewrite for_each_cons. cbn beta iota. rewrite Hsel by reflexivity.
    eexists _, _. split; [reflexivity|]. cbn [files].
    split; [exact Hf0|]. split; [discriminate | reflexivity].
  - eexists _, _. split; [reflexivity|]. split; [exact Hf0|].
    split; [reflexivity | congruence].
Qed.

(** *** The Overpass fetches *)



(** Lines 206-227, by what the request and the conversion give. *)
Lemma generate_aerodrome_runway_geometry_cases
    (b : bbox float) (osm_value output_file_name : string) (w : world) :
  let query := geometry_query repr_float b osm_value in
  let failed e :=
    (Ok tt, World (files w) (dirs w)
                  (stdout w ++ [query; "An unexpected error occurred: " ++ exn_str e])) in
  generate_aerodrome_runway_geometry repr_float requests_get_json process_osm_json b
    osm_value output_file_name w
  = match requests_get_json OVERPASS_URL query with
    | Raise e => failed e
    | Ok result =>
        match process_osm_json result with
        | Raise e => failed e
        | Ok osm_json =>
            match json_setitem osm_json "name" (JStr osm_value) with
            | Raise e => failed e
            | Ok named =>
                (Ok tt,
                 World (<[OUTPUT_DIR ++ "/" ++ output_file_name := JsonText named]> (files w))
                       (dirs w) (stdout w ++ [query]))
            end
        end
    end.
Proof.
  cbv zeta. unfold generate_aerodrome_runway_geometry, try_except. cbv zeta.
  rewrite bind_print, bind_lift.
  destruct (requests_get_json OVERPASS_URL _) as [result|e];
    [|unfold print; cbn [files dirs stdout]; rewrite <- app_assoc; reflexivity].
  rewrite bind_lift.
  destruct (process_osm_json result) as [osm_json|e];
    [|unfold print; cbn [files dirs stdout]; rewrite <- app_assoc; reflexivity].
  rewrite bind_lift.
  destruct (json_setitem osm_json "name" (JStr osm_value)) as [named|e];
    [reflexivity | unfold print; cbn [files dirs stdout]; rewrite <- app_assoc; reflexivity].
Qed.



(** *** The merge *)

(** Reading leaves the world as it is. *)
Lemma gpd_read_file_result (path : string) (w : world) :
  gpd_read_file missing_file_error geojson_driver path w
  = (read_result missing_file_error geojson_driver w path, w).
Proof.
  unfold read_result, gpd_read_file. destruct (files w !! path) as [[g|j]|]; reflexivity.
Qed.

Lemma read_result_files (w w' : world) (path : string) :
  files w = files w' ->
  read_result missing_file_error geojson_driver w path
  = read_result missing_file_error geojson_driver w' path.
Proof. unfold read_result, gpd_read_file. intros ->. destruct (files w' !! path) as [[g|j]|]; reflexivity. Qed.

Lemma read_result_present (path : string) (w : world) (g : GeoDataFrame) :
  read_result missing_file_error geojson_driver w path = Ok g -> is_Some (files w !! path).
Proof.
  unfold read_result, gpd_read_file. destruct (files w !! path) as [c|]; [eauto|discriminate].
Qed.

Lemma bind_lift_read {B : Type} (path : string) (w : world) (f : GeoDataFrame -> M B) :
  (gpd_read_file missing_file_error geojson_driver path ≫= f) w
  = match read_result missing_file_error geojson_driver w path with
    | Ok g => f g w
    | Raise e => (Raise e, w)
    end.
Proof.
  unfold mbind, M_bind. rewrite gpd_read_file_result.
  destruct (read_result missing_file_error geojson_driver w path); reflexivity.
Qed.

Lemma bind_write_file' {B : Type} (path : string) (c : content) (f : unit -> M B) (w : world) :
  (write_file path c ≫= f) w = f tt (World (<[path := c]> (files w)) (dirs w) (stdout w)).
Proof. reflexivity. Qed.

(** Lines 245-258, by what the two reads and the join give. *)
Lemma merge_aerodromes_and_runways_cases (w : world) :
  let aerodromes := OUTPUT_DIR ++ "/aerodrome.geojson" in
  let tmp_runways := OUTPUT_DIR ++ "/tmp_runway.geojson" in
  let runways := OUTPUT_DIR ++ "/runway.geojson" in
  let w0 := World (files w) (dirs w) (stdout w ++ [tab ++ "Merge Aerodromes and Runways..."]) in
  merge_aerodromes_and_runways missing_file_error geojson_driver sjoin_within w
  = match read_result missing_file_error geojson_driver w aerodromes with
    | Raise e => (Raise e, w0)
    | Ok gdf_aerodromes =>
        match read_result missing_file_error geojson_driver w tmp_runways with
        | Raise e => (Raise e, w0)
        | Ok gdf_runways =>
            match sjoin_within gdf_runways gdf_aerodromes with
            | Raise e => (Raise e, w0)
            | Ok merged_gdf =>
                (Ok tt,
                 World (delete tmp_runways (<[runways := Vector merged_gdf]> (files w)))
                       (dirs w)
                       (stdout w ++ [tab ++ "Merge Aerodromes and Runways...";
                                     "Deleted: " ++ tmp_runways]))
            end
        end
    end.
Proof.
  cbv zeta. unfold merge_aerodromes_and_runways. cbv zeta. rewrite bind_print.
  change (OUTPUT_DIR ++ "/" ++ query_file 0) with (OUTPUT_DIR ++ "/aerodrome.geojson").
  change (OUTPUT_DIR ++ "/" ++ query_file 1) with (OUTPUT_DIR ++ "/tmp_runway.geojson").
  set (w0 := World (files w) (dirs w) (stdout w ++ [tab ++ "Merge Aerodromes and Runways..."])).
  rewrite <- !(read_result_files w0 w) by reflexivity.
  rewrite (bind_lift_read (OUTPUT_DIR ++ "/aerodrome.geojson") w0).
  destruct (read_result missing_file_error geojson_driver w0 (OUTPUT_DIR ++ "/aerodrome.geojson"))
    as [gdf_aerodromes|e]; [|reflexivity].
  rewrite (bind_lift_read (OUTPUT_DIR ++ "/tmp_runway.geojson") w0).
  destruct (read_result missing_file_error geojson_driver w0 (OUTPUT_DIR ++ "/tmp_runway.geojson"))
    as [gdf_runways|e] eqn:Hread; [|reflexivity].
  rewrite bind_lift.
  destruct (sjoin_within gdf_runways gdf_aerodromes) as [merged_gdf|e]; [|reflexivity].
  unfold to_file. rewrite bind_write_file'.
  destruct (read_result_present _ _ _ Hread) as [c Hc].
  subst w0. cbn [files dirs stdout] in *.
  unfold try_except, os_remove, mbind, M_bind. cbn [files dirs stdout].
  rewrite lookup_insert_ne by discriminate. rewrite Hc.
  unfold print. cbn [files dirs stdout]. rewrite <- app_assoc. reflexivity.
Qed.


(** A fetch returns, and leaves every file but its own output. *)
Lemma generate_aerodrome_runway_geometry_returns
    (b : bbox float) (osm_value output_file_name : string) (w : world) :
  exists w' lines,
    generate_aerodrome_runway_geometry repr_float requests_get_json process_osm_json b
      osm_value output_file_name w
    = (Ok tt, w')
    /\ stdout w' = (stdout w ++ lines)%list
    /\ forall p, p <> OUTPUT_DIR ++ "/" ++ output_file_name -> files w' !! p = files w !! p.
Proof.
  rewrite generate_aerodrome_runway_geometry_cases. cbv zeta.
  destruct (requests_get_json OVERPASS_URL _) as [result|e];
    [|eexists _, _; split; [reflexivity|]; split; reflexivity].
  destruct (process_osm_json result) as [osm_json|e];
    [|eexists _, _; split; [reflexivity|]; split; reflexivity].
  destruct (json_setitem osm_json "name" (JStr osm_value)) as [named|e];
    [|eexists _, _; split; [reflexivity|]; split; reflexivity].
  eexists _, _. split; [reflexivity|]. split; [reflexivity|].
  intros p Hp. cbn [files]. apply lookup_insert_ne. congruence.
Qed.

(** X10: a failed request is not the end of it.  When the aerodromes are
    not skipped and the request for them fails, the fetch prints the
    error and goes on, and the merge that follows finds no
    [aerodrome.geojson] in the cleaned directory: it raises the error of
    [gpd.read_file] on a missing file, which nothing catches, and no
    [runway.geojson] is written. *)
Theorem failed_aerodrome_request_aborts_merge
    (b : bbox float) (a : args) (w : world) (e : exn) :
  skip_aerodromes a = false ->
  requests_get_json OVERPASS_URL (geometry_query repr_float b "aerodrome") = Raise e ->
  files w !! (OUTPUT_DIR ++ "/aerodrome.geojson") = None ->
  exists w',
    (_ ← fetch_aerodromes_and_runways repr_float requests_get_json process_osm_json b a;
     merge_aerodromes_and_runways missing_file_error geojson_driver sjoin_within) w
    = (Raise (missing_file_error (OUTPUT_DIR ++ "/aerodrome.geojson")), w')
    /\ In ("An unexpected error occurred: " ++ exn_str e) (stdout w')
    /\ files w' !! (OUTPUT_DIR ++ "/runway.geojson")
       = files w !! (OUTPUT_DIR ++ "/runway.geojson").
Proof.
  intros Hskip Hreq Habsent.
  unfold fetch_aerodromes_and_runways, OVERPASS_QUERIES. rewrite Hskip. cbn [negb].
  assert (Hfetch :
            exists w3,
              for_each [("aerodrome", "aerodrome.geojson"); ("runway", "tmp_runway.geojson")]
                (fun '(osm_value, output_file_name) =>
                   _ ← print (tab ++ "Running Overpass query for " ++ osm_value ++ "...");
                   generate_aerodrome_runway_geometry repr_float requests_get_json
                     process_osm_json b osm_value output_file_name) w
              = (Ok tt, w3)
              /\ In ("An unexpected error occurred: " ++ exn_str e) (stdout w3)
              /\ forall p, p <> OUTPUT_DIR ++ "/tmp_runway.geojson" ->
                           files w3 !! p = files w !! p).
  { rewrite for_each_cons. cbn beta iota. unfold mbind at 1, M_bind at 1.
    rewrite bind_print, generate_aerodrome_runway_geometry_cases. cbv zeta. rewrite Hreq.
    cbn [files dirs stdout].
    rewrite for_each_cons. cbn beta iota. unfold mbind at 1, M_bind at 1.
    rewrite bind_print. cbn [files dirs stdout].
    match goal with
    | |- context [generate_aerodrome_runway_geometry _ _ _ _ _ _ ?w2] =>
        destruct (generate_aerodrome_runway_geometry_returns
                    b "runway" "tmp_runway.geojson" w2)
          as (w3 & lines & -> & Hout & Hframe)
    end.
    exists w3. split; [reflexivity|]. split.
    - rewrite Hout. cbn [stdout]. rewrite !in_app_iff. simpl. auto 10.
    - intros p Hp. rewrite (Hframe p Hp). reflexivity. }
  destruct Hfetch as (w3 & Hfetch & Hprinted & Hframe).
  rewrite (bind_Ok _ _ w tt w3 Hfetch).
  rewrite merge_aerodromes_and_runways_cases. cbv zeta.
  assert (Hread : read_result missing_file_error geojson_driver w3
                    (OUTPUT_DIR ++ "/aerodrome.geojson")
                  = Raise (missing_file_error (OUTPUT_DIR ++ "/aerodrome.geojson"))).
  { unfold read_result, gpd_read_file. rewrite Hframe by discriminate.
    rewrite Habsent. reflexivity. }
  rewrite Hread. eexists. split; [reflexivity|]. cbn [files dirs stdout]. split.
  - apply in_or_app. left. exact Hprinted.
  - apply Hframe. discriminate.
Qed.

(** *** A run that completes *)

Lemma bind_Ok_inv {A B : Type} (m : M A) (f : A -> M B) (w : world) (b : B) (w' : world) :
  (m ≫= f) w = (Ok b, w') -> exists a w1, m w = (Ok a, w1) /\ f a w1 = (Ok b, w').
Proof. unfold mbind, M_bind. destruct (m w) as [[a|e] w1]; [eauto|discriminate]. Qed.

(** A loop whose every turn writes one file of its own and returns has
    written them all, and nothing else. *)
Lemma for_each_written {X : Type} (path : X -> string) (body : X -> M unit) (xs : list X) :
  (forall x w w', In x xs -> body x w = (Ok tt, w') ->
     is_Some (files w' !! path x)
     /\ forall p, p <> path x -> files w' !! p = files w !! p) ->
  forall w w', for_each xs body w = (Ok tt, w') ->
    (forall p, In p (map path xs) -> is_Some (files w' !! p))
    /\ (forall p, ~ In p (map path xs) -> files w' !! p = files w !! p).
Proof.
  induction xs as [|x xs IH]; intros Hbody w w' Hrun.
  - injection Hrun as <-. split; [intros p []|reflexivity].
  - rewrite for_each_cons in Hrun. apply bind_Ok_inv in Hrun as ([] & w1 & Hx & Hrest).
    destruct (Hbody x w w1 (or_introl eq_refl) Hx) as [Hsome Hframe].
    destruct (IH (fun y w w' Hy => Hbody y w w' (or_intror Hy)) w1 w' Hrest) as [Hin Hout].
    split.
    + intros p Hp. destruct (in_dec string_dec p (map path xs)) as [Hi|Hn].
      * apply Hin, Hi.
      * destruct Hp as [<-|Hp]; [|contradiction]. rewrite (Hout _ Hn). exact Hsome.
    + intros p Hp. rewrite Hout by (intros H; apply Hp; right; exact H).
      apply Hframe. intros ->. apply Hp. left. reflexivity.
Qed.

Lemma clip_shapefile_files (shape_file : string) (b : bbox float) (w : world) :
  files (snd (clip_shapefile_to_bounding_box missing_file_error geojson_driver gdf_clip
                shape_file b w))
  = files w.
Proof.
  apply map_eq. intros p.
  apply (touches_only_clip_shapefile missing_file_error geojson_driver gdf_clip
           (fun _ => False) shape_file b w p). tauto.
Qed.

(** A turn of the loop of lines 169-172 that returns has written its
    layer. *)
Lemma clip_layer_written (b : bbox float) (map_data output_name : string) (w w' : world) :
  clip_layer missing_file_error geojson_driver gdf_clip b map_data output_name w = (Ok tt, w') ->
  is_Some (files w' !! layer_path output_name)
  /\ forall p, p <> layer_path output_name -> files w' !! p = files w !! p.
Proof.
  unfold clip_layer. rewrite bind_print. intros Hrun.
  apply bind_Ok_inv in Hrun as (clipped & w1 & Hclip & Hrun).
  pose proof (clip_shapefile_files map_data b
                (World (files w) (dirs w)
                       (stdout w ++ [tab ++ "Clipping " ++ map_data ++ " to bounding box..."])))
    as Hframe.
  rewrite Hclip in Hframe. cbn [fst snd files] in Hframe.
  destruct clipped as [g|]; cbn [method_of] in Hrun.
  - rewrite bind_ret in Hrun. injection Hrun as <-. cbn [files]. rewrite Hframe.
    split; [rewrite lookup_insert_eq; eauto|].
    intros p Hp. apply lookup_insert_ne. congruence.
  - discriminate Hrun.
Qed.

Lemma natural_earth_layers_done (b : bbox float) (a : args) (w w' : world) :
  generate_natural_earth_layers repr_float missing_file_error geojson_driver gdf_clip b a w
  = (Ok tt, w') ->
  let paths := map (fun l => layer_path (snd l))
                   (if build_110m_maps a then MAP_LAYERS_110M else MAP_LAYERS_10M) in
  (forall p, In p paths -> is_Some (files w' !! p))
  /\ (forall p, ~ In p paths -> files w' !! p = files w !! p).
Proof.
  unfold generate_natural_earth_layers. cbv zeta. run_prints. intros Hrun.
  apply bind_Ok_inv in Hrun as ([] & w1 & Hloop & Hrun). injection Hrun as <-.
  cbn [files].
  apply (for_each_written (fun l => layer_path (snd l))) in Hloop; [exact Hloop|].
  intros [map_data output_name] w0 w0' _ Hturn. apply (clip_layer_written b _ _ _ _ Hturn).
Qed.

Lemma airspace_layers_done (b : bbox float) (w w' : world) :
  generate_airspace_layers missing_file_error geojson_driver gdf_clip transform b w
  = (Ok tt, w') ->
  let paths := map (fun l => layer_path (snd l)) AIRSPACE in
  (forall p, In p paths -> is_Some (files w' !! p))
  /\ (forall p, ~ In p paths -> files w' !! p = files w !! p).
Proof.
  unfold generate_airspace_layers. run_prints. intros Hrun.
  apply bind_Ok_inv in Hrun as (clipped & w1 & Hclip & Hrun).
  match type of Hclip with
  | clip_shapefile_to_bounding_box _ _ _ ?f _ ?w0 = _ =>
      pose proof (clip_shapefile_files f b w0) as Hframe
  end.
  rewrite Hclip in Hframe. cbn [fst snd files] in Hframe.
  destruct clipped as [g|]; cbn [method_of] in Hrun; [|discriminate Hrun].
  rewrite bind_ret, bind_lift in Hrun.
  destruct (to_crs transform g "EPSG:4326") as [clipped_airspace|e]; [|discriminate Hrun].
  apply bind_Ok_inv in Hrun as ([] & w2 & Hloop & Hrun). injection Hrun as <-.
  cbn [files]. rewrite <- Hframe.
  apply (for_each_written (fun l => layer_path (snd l))) in Hloop; [exact Hloop|].
  intros [class_name output_name] w0 w0' _ Hturn.
  rewrite bind_print, bind_lift in Hturn.
  destruct (select_class clipped_airspace class_name) as [airspace|e]; [|discriminate Hturn].
  injection Hturn as <-. cbn [files snd].
  split; [rewrite lookup_insert_eq; eauto|].
  intros p Hp. apply lookup_insert_ne. congruence.
Qed.

(** The outputs have names of their own. *)
Lemma outputs_apart (a : args) :
  let layers := map (fun l => layer_path (snd l))
                    (if build_110m_maps a then MAP_LAYERS_110M else MAP_LAYERS_10M) in
  let classes := map (fun l => layer_path (snd l)) AIRSPACE in
  let others := [OUTPUT_DIR ++ "/aerodrome.geojson"; OUTPUT_DIR ++ "/runway.geojson";
                 OUTPUT_DIR ++ "/tmp_runway.geojson"] in
  (forall p, In p layers -> ~ In p classes /\ ~ In p others)
  /\ (forall p, In p classes -> ~ In p others)
  /\ ~ In (OUTPUT_DIR ++ "/aerodrome.geojson") layers
  /\ ~ In (OUTPUT_DIR ++ "/aerodrome.geojson") classes.
Proof.
  cbv zeta.
  set (layers := map _ (if build_110m_maps a then _ else _)).
  set (classes := map _ AIRSPACE).
  set (others := [_; _; _]).
  assert (H : NoDup (app layers (app classes others))).
  { subst layers classes others. destruct (build_110m_maps a);
      apply (bool_decide_unpack _); vm_compute; exact I. }
  apply NoDup_app in H as (_ & Hlayers & H). apply NoDup_app in H as (_ & Hclasses & _).
  assert (Hfirst : OUTPUT_DIR ++ "/aerodrome.geojson" ∈ others) by apply list_elem_of_here.
  split; [|split; [|split]].
  - intros p Hp. apply list_elem_of_In, Hlayers, not_elem_of_app in Hp as [H1 H2].
    rewrite <- !list_elem_of_In. split; assumption.
  - intros p Hp. apply list_elem_of_In, Hclasses in Hp. rewrite <- list_elem_of_In. exact Hp.
  - intros Hp. apply list_elem_of_In, Hlayers, not_elem_of_app in Hp as [_ Hp]. exact (Hp Hfirst).
  - intros Hp. apply list_elem_of_In, Hclasses in Hp. exact (Hp Hfirst).
Qed.

Lemma touches_only_fetch_aerodromes_own (b : bbox float) (a : args) :
  touches_only
    (fun p => if skip_aerodromes a
              then p = "aerodrome.geojson" \/ p = "tmp_runway.geojson"
              else p = OUTPUT_DIR ++ "/aerodrome.geojson"
                   \/ p = OUTPUT_DIR ++ "/tmp_runway.geojson")
    (fetch_aerodromes_and_runways repr_float requests_get_json process_osm_json b a).
Proof.
  unfold fetch_aerodromes_and_runways. apply touches_only_for_each.
  intros [osm_value output_file_name] Hin.
  unfold generate_aerodrome_runway_geometry, json_dump.
  simpl in Hin. destruct Hin as [[= <- <-]|[[= <- <-]|[]]];
    destruct (skip_aerodromes a); cbn [negb]; frame;
    apply touches_only_write_file; auto.
Qed.

Lemma touches_only_fetch_origins_own (b : bbox float) (a : args) :
  touches_only (fun p => p = AERODROME_ORIGINS_FILENAME)
    (fetch_aerodrome_origins repr_float requests_get_json b a).
Proof.
  unfold fetch_aerodrome_origins, get_aerodrome_origins_as_lat_lon, json_dump. frame;
    apply touches_only_write_file; reflexivity.
Qed.

(** The outputs are entries of the output directory that the cleaning
    selects. *)
Lemma outputs_selected (a : args) (p : string) :
  In p (outputs a) -> purge_target p = true.
Proof.
  unfold outputs. destruct (build_110m_maps a); intros Hp; simpl in Hp;
    repeat (destruct Hp as [<-|Hp]; [vm_compute; reflexivity|]); contradiction.
Qed.

(** Lines 57-299 when they return. *)
Lemma build_layers_done (a : args) (ORIGIN_LAT ORIGIN_LON : float) (w w' : world) :
  build_layers repr_float missing_file_error geojson_driver gdf_clip transform
    requests_get_json process_osm_json sjoin_within a ORIGIN_LAT ORIGIN_LON w
  = (Ok tt, w') ->
  (forall p, In p (outputs a) -> p <> AERODROME_ORIGINS_FILENAME ->
             is_Some (files w' !! p))
  /\ files w' !! (OUTPUT_DIR ++ "/tmp_runway.geojson") = None
  /\ (no_directory_selected w ->
      skip_aerodromes a = false
      /\ forall p, purge_target p = true -> is_Some (files w' !! p) -> In p (outputs a)).
Proof.
  intros Hrun.
  destruct (build_layers_cleans_first repr_float missing_file_error geojson_driver gdf_clip
              transform requests_get_json process_osm_json sjoin_within
              a ORIGIN_LAT ORIGIN_LON w) as (w1 & Hstart & _ & _ & _ & Hclean).
  rewrite Hstart in Hrun. clear Hstart. unfold write_layers in Hrun.
  apply bind_Ok_inv in Hrun as ([] & w2 & Hlayers & Hrun).
  apply natural_earth_layers_done in Hlayers as [Hlayers_in Hlayers_out].
  apply bind_Ok_inv in Hrun as ([] & w3 & Hclasses & Hrun).
  apply airspace_layers_done in Hclasses as [Hclasses_in Hclasses_out].
  rewrite !bind_print in Hrun. cbn [files dirs stdout] in Hrun.
  apply bind_Ok_inv in Hrun as ([] & w4 & Hfetch & Hrun).
  match type of Hfetch with
  | _ ?w0 = _ =>
      pose proof (touches_only_fetch_aerodromes_own
                    (bounding_box ORIGIN_LAT ORIGIN_LON
                       (origin_distance a) (origin_left a) (origin_top a)) a w0) as Hfetched
  end.
  rewrite Hfetch in Hfetched. cbn [fst snd files] in Hfetched. clear Hfetch.
  apply bind_Ok_inv in Hrun as ([] & w5 & Hmerge & Hrun).
  rewrite merge_aerodromes_and_runways_cases in Hmerge. cbv zeta in Hmerge.
  destruct (read_result _ _ w4 (OUTPUT_DIR ++ "/aerodrome.geojson"))
    as [gdf_aerodromes|e] eqn:Hread; [|discriminate Hmerge].
  apply read_result_present in Hread.
  destruct (read_result _ _ w4 (OUTPUT_DIR ++ "/tmp_runway.geojson"))
    as [gdf_runways|e]; [|discriminate Hmerge].
  destruct (sjoin_within gdf_runways gdf_aerodromes) as [merged_gdf|e]; [|discriminate Hmerge].
  injection Hmerge as <-.
  rewrite !bind_print in Hrun. cbn [files dirs stdout] in Hrun.
  apply bind_Ok_inv in Hrun as ([] & w6 & Horigins & Hrun). injection Hrun as <-.
  cbn [files].
  match type of Horigins with
  | _ ?w0 = _ =>
      pose proof (touches_only_fetch_origins_own
                    (bounding_box ORIGIN_LAT ORIGIN_LON
                       (origin_distance a) (origin_left a) (origin_top a)) a w0) as Hlast
  end.
  rewrite Horigins in Hlast. cbn [fst snd files] in Hlast. clear Horigins.
  cbv zeta in Hlayers_in, Hlayers_out, Hclasses_in, Hclasses_out.
  destruct (outputs_apart a) as (Hapart_layers & Hapart_classes & Hnot_layer & Hnot_class).
  cbv zeta in Hapart_layers, Hapart_classes, Hnot_layer, Hnot_class.
  pose proof (outputs_selected a) as Hselected. unfold outputs in Hselected.
  set (layers := map (fun l => layer_path (snd l))
                     (if build_110m_maps a then MAP_LAYERS_110M else MAP_LAYERS_10M)) in *.
  set (classes := map (fun l => layer_path (snd l)) AIRSPACE) in *.
  set (aerodromes := OUTPUT_DIR ++ "/aerodrome.geojson") in *.
  set (runways := OUTPUT_DIR ++ "/runway.geojson") in *.
  set (tmp_runways := OUTPUT_DIR ++ "/tmp_runway.geojson") in *.
  assert (Hfetch_frame : forall p, purge_target p = true -> p <> aerodromes ->
                           p <> tmp_runways -> files w4 !! p = files w3 !! p).
  { intros p Hp Ha Ht. apply Hfetched.
    destruct (skip_aerodromes a); intros [E|E]; try congruence;
      rewrite E in Hp; vm_compute in Hp; discriminate Hp. }
  assert (Hend : forall p, p <> AERODROME_ORIGINS_FILENAME -> p <> runways -> p <> tmp_runways ->
                   files w6 !! p
                   = files w4 !! p).
  { intros p Ho Hr Ht. rewrite Hlast by exact Ho.
    rewrite lookup_delete_ne by congruence. apply lookup_insert_ne. congruence. }
  split; [|split].
  - intros p Hp Ho. pose proof (Hselected p Hp) as Hpt.
    unfold outputs in Hp. fold layers classes in Hp.
    apply in_app_or in Hp as [Hp|Hp]; [|apply in_app_or in Hp as [Hp|Hp]].
    + destruct (Hapart_layers p Hp) as [Hc Hothers].
      rewrite Hend, Hfetch_frame, Hclasses_out; [apply Hlayers_in, Hp|exact Hc|exact Hpt|..];
        try exact Ho; intros E; apply Hothers; rewrite E; simpl; tauto.
    + pose proof (Hapart_classes p Hp) as Hothers.
      rewrite Hend, Hfetch_frame; [apply Hclasses_in, Hp|exact Hpt|..];
        try exact Ho; intros E; apply Hothers; rewrite E; simpl; tauto.
    + destruct Hp as [<-|[<-|[<-|[]]]].
      * rewrite Hend by discriminate. exact Hread.
      * rewrite Hlast by discriminate. rewrite lookup_delete_ne by discriminate.
        rewrite lookup_insert_eq. eauto.
      * contradiction.
  - rewrite Hlast by discriminate. apply lookup_delete_eq.
  - intros Hnone. specialize (Hclean Hnone).
    assert (Hskip : skip_aerodromes a = false).
    { destruct (skip_aerodromes a); [exfalso|reflexivity].
      rewrite Hfetched, Hclasses_out, Hlayers_out, Hclean in Hread
        by (assumption || reflexivity || (intros [E|E]; discriminate E)).
      destruct Hread as [c Hc]. discriminate Hc. }
    split; [exact Hskip|].
    intros p Hpurge Hsome.
    destruct (in_dec string_dec p (outputs a)) as [Hin|Hout]; [exact Hin|exfalso].
    unfold outputs in Hout. fold layers classes aerodromes runways in Hout.
    assert (Hl : ~ In p layers) by (intros H; apply Hout, in_or_app; left; exact H).
    assert (Hc : ~ In p classes)
      by (intros H; apply Hout, in_or_app; right; apply in_or_app; left; exact H).
    assert (Ha : p <> aerodromes)
      by (intros ->; apply Hout, in_or_app; right; apply in_or_app; right; simpl; tauto).
    assert (Hr : p <> runways)
      by (intros ->; apply Hout, in_or_app; right; apply in_or_app; right; simpl; tauto).
    assert (Ho : p <> AERODROME_ORIGINS_FILENAME)
      by (intros ->; apply Hout, in_or_app; right; apply in_or_app; right; simpl; tauto).
    destruct (string_dec p tmp_runways) as [->|Ht].
    + rewrite Hlast, lookup_delete_eq in Hsome by discriminate.
      destruct Hsome as [c Hc']. discriminate Hc'.
    + rewrite Hend, Hfetch_frame, Hclasses_out, Hlayers_out, Hclean in Hsome
        by assumption.
      destruct Hsome as [c Hc']. discriminate Hc'.
Qed.

(** X11: a run that ends normally has built every layer: the layers of
    the selected tier, the three classes of airspace,
    [aerodrome.geojson] and [runway.geojson] are in the output
    directory and [tmp_runway.geojson] is not.  When moreover no
    directory stood in the way of the cleaning (none has a name that
    the patterns select), the run was not asked to skip the aerodromes,
    and the directory holds no [*.geojson] or [*.json] entry besides
    these and [origins.json]: nothing of an earlier run is left. *)
Theorem completed_run_outputs
    (c : cli) (env : gmap string string) (w w' : world) :
  run float_of_string repr_float help_text missing_file_error geojson_driver gdf_clip
      transform requests_get_json process_osm_json sjoin_within c env w
  = (Completed, w') ->
  exists a,
    parse_args float_of_string c = inr a
    /\ (forall p, In p (outputs a) -> p <> AERODROME_ORIGINS_FILENAME ->
                  is_Some (files w' !! p))
    /\ files w' !! (OUTPUT_DIR ++ "/tmp_runway.geojson") = None
    /\ (no_directory_selected w ->
        skip_aerodromes a = false
        /\ forall p, purge_target p = true -> is_Some (files w' !! p) -> In p (outputs a)).
Proof.
  unfold run, os_makedirs. change (dirname OUTPUT_DIR) with "../public". intros Hrun.
  destruct (files w !! "../public"); [discriminate Hrun|].
  destruct (files w !! OUTPUT_DIR); [discriminate Hrun|].
  destruct (parse_args float_of_string c) as [status|a]; [discriminate Hrun|].
  destruct (resolve_origin float_of_string env a) as [[]|[[ORIGIN_LAT ORIGIN_LON]|e]];
    try discriminate Hrun.
  destruct (build_layers _ _ _ _ _ _ _ _ a ORIGIN_LAT ORIGIN_LON _) as [[[]|e] w1] eqn:Hbuild;
    [|discriminate Hrun].
  injection Hrun as <-. exists a. split; [reflexivity|].
  destruct (build_layers_done a ORIGIN_LAT ORIGIN_LON _ w1 Hbuild)
    as (Hpresent & Hgone & Hclean).
  split; [exact Hpresent|]. split; [exact Hgone|].
  intros Hnone. apply Hclean, no_directory_selected_makedirs, Hnone.
Qed.

(** *** An airspace shapefile that cannot be used *)

(** The clipping of a file that cannot be read or clipped returns
    [None] after one line of report. *)
Lemma clip_unusable_shapefile (shape_file : string) (b : bbox float) (w : world) (e : exn) :
  read_result missing_file_error geojson_driver w shape_file = Raise e
  \/ (exists g, read_result missing_file_error geojson_driver w shape_file = Ok g
                /\ gdf_clip b g = Raise e) ->
  exists line,
    clip_shapefile_to_bounding_box missing_file_error geojson_driver gdf_clip shape_file b w
    = (Ok None, World (files w) (dirs w) (stdout w ++ [line])).
Proof.
  intros Hbad. unfold clip_shapefile_to_bounding_box, try_except. rewrite bind_lift_read.
  destruct Hbad as [->|(g & -> & Hclip)].
  - destruct e; eexists; reflexivity.
  - rewrite bind_lift, Hclip. destruct e; eexists; reflexivity.
Qed.

(** X12: the airspace shapefile is not optional either.  When it is
    missing or unreadable, or the clipping of it fails, the error is
    reported in one line and line 191 calls [to_crs] on [None]: the
    stage raises [AttributeError], which nothing catches, and no file
    is written. *)
Theorem airspace_shapefile_unusable_aborts (b : bbox float) (w : world) (e : exn) :
  read_result missing_file_error geojson_driver w "data/Class_Airspace/Class_Airspace.shp"
  = Raise e
  \/ (exists g,
        read_result missing_file_error geojson_driver w "data/Class_Airspace/Class_Airspace.shp"
        = Ok g
        /\ gdf_clip b g = Raise e) ->
  exists line,
    generate_airspace_layers missing_file_error geojson_driver gdf_clip transform b w
    = (Raise (AttributeError "'NoneType' object has no attribute 'to_crs'"),
       World (files w) (dirs w)
             (stdout w ++ ["############################################";
                           "Generating FAA Airspace Layers..." ++ nl; line])).
Proof.
  intros Hbad. unfold generate_airspace_layers. run_prints.
  match goal with
  | |- context [mbind _ (clip_shapefile_to_bounding_box _ _ _ _ _) ?w0] =>
      destruct (clip_unusable_shapefile "data/Class_Airspace/Class_Airspace.shp" b w0 e)
        as [line Hclip];
      [rewrite !(read_result_files w0 w) by reflexivity; exact Hbad
      | rewrite (bind_Ok _ _ w0 _ _ Hclip)]
  end.
  exists line. cbn [files dirs stdout]. rewrite <- !app_assoc. reflexivity.
Qed.

(** *** Values that are no numbers *)

(** X13: on a command line that gives options with their values and
    nothing else (no [-h], no unknown option, each value written so
    that the parser takes it for a value), a value that [float]
    rejects, given to one of the five numeric options, ends the run
    through argparse with status 2, whatever the environment and the
    other options hold.  When no file is in the way of the output
    directory or of its parent, these have been made by then, nothing
    is printed on the standard output, and no file is removed or
    written. *)
Theorem rejected_option_exits_with_status_2
    (c : cli) (env : gmap string string) (w : world) (s : string) :
  files w !! "../public" = None ->
  files w !! OUTPUT_DIR = None ->
  In (Some s) [cli_origin_lat c; cli_origin_lon c; cli_origin_distance c;
               cli_origin_left c; cli_origin_top c] ->
  float_of_string s = None ->
  run float_of_string repr_float help_text missing_file_error geojson_driver gdf_clip
      transform requests_get_json process_osm_json sjoin_within c env w
  = (Exited 2, World (files w) ({[OUTPUT_DIR]} ∪ ({["../public"]} ∪ dirs w)) (stdout w)).
Proof.
  intros Hparent Hdir Hgiven Hbad. unfold run.
  rewrite (os_makedirs_output_dir w Hparent Hdir).
  assert (Hparse : parse_args float_of_string c = inl 2%Z).
  { unfold parse_args, float_option. simpl in Hgiven.
    destruct Hgiven as [H|[H|[H|[H|[H|[]]]]]]; rewrite H, Hbad;
      repeat match goal with
             | |- context [match ?given with Some _ => _ | None => _ end] =>
                 destruct given
             end; reflexivity. }
  rewrite Hparse. reflexivity.
Qed.

(** X14: a coordinate of the environment goes through [float] with no
    handler around it.  When no file is in the way of the output
    directory or of its parent, the command line is accepted and both
    coordinates are given, a value of either variable that is not empty
    and that [float] rejects ends the run with an uncaught
    [ValueError], whatever the command line gives for that coordinate:
    the two directories have been made, nothing is printed on the
    standard output, and no file is removed or written. *)
Theorem unparsable_environment_origin_aborts
    (c : cli) (env : gmap string string) (w : world) (a : args) (name s : string) :
  files w !! "../public" = None ->
  files w !! OUTPUT_DIR = None ->
  parse_args float_of_string c = inr a ->
  coordinate_given env LATITUDE_VAR (origin_lat a) ->
  coordinate_given env LONGITUDE_VAR (origin_lon a) ->
  name = LATITUDE_VAR \/ name = LONGITUDE_VAR ->
  env !! name = Some s -> s <> EmptyString -> float_of_string s = None ->
  exists text,
    run float_of_string repr_float help_text missing_file_error geojson_driver gdf_clip
        transform requests_get_json process_osm_json sjoin_within c env w
    = (Uncaught (ValueError text),
       World (files w) ({[OUTPUT_DIR]} ∪ ({["../public"]} ∪ dirs w)) (stdout w)).
Proof.
  intros Hparent Hdir Hparse Hgiven_lat Hgiven_lon Hname Henv Hs Hbad.
  apply coordinate_given_found in Hgiven_lat as [lat Hlat].
  apply coordinate_given_found in Hgiven_lon as [lon Hlon].
  unfold run. rewrite (os_makedirs_output_dir w Hparent Hdir), Hparse.
  unfold resolve_origin. rewrite Hlat, Hlon.
  destruct Hname as [->| ->].
  - rewrite (env_or_arg_env env _ s _ Henv Hs) in Hlat. injection Hlat as <-.
    cbn [py_float]. rewrite Hbad. eexists. reflexivity.
  - rewrite (env_or_arg_env env _ s _ Henv Hs) in Hlon. injection Hlon as <-.
    cbn [py_float]. rewrite Hbad.
    destruct lat as [s_lat|x]; cbn [py_float]; [|eexists; reflexivity].
    destruct (float_of_string s_lat); eexists; reflexivity.
Qed.
End StageRuns.

(** ** The stages on the sample installation *)


(** An airspace shapefile without a [CLASS] column. *)
Lemma airspace_layers_unusable_layer_witness :
  let w := World {["data/Class_Airspace/Class_Airspace.shp" := Vector Sample.layer]} ∅ [] in
  exists w',
    generate_airspace_layers Sample.missing_file_error Sample.geojson_driver
      Sample.gdf_clip Sample.transform Sample.box w
    = (Raise (KeyError "'CLASS'"), w')
    /\ files w' = files w.
Proof.
  intros w.
  assert (Hfile : files w !! "data/Class_Airspace/Class_Airspace.shp"
                  = Some (Vector Sample.layer)) by apply lookup_singleton_eq.
  assert (Hclip : Sample.gdf_clip Sample.box Sample.layer = Ok Sample.layer) by reflexivity.
  assert (Hbad : crs Sample.layer = None
                 \/ existsb (String.eqb "CLASS") (columns Sample.layer) = false)
    by (right; reflexivity).
  destruct (airspace_layers_unusable_layer
              Sample.missing_file_error Sample.geojson_driver Sample.gdf_clip
              Sample.transform Sample.box w Sample.layer Sample.layer Hfile Hclip Hbad)
    as (e & w' & Hrun & Hfiles & _ & Hkey).
  exists w'. rewrite Hrun, (Hkey ltac:(discriminate)). split; [reflexivity | exact Hfiles].
Defined.

(** No airspace shapefile at all. *)
Lemma airspace_shapefile_unusable_aborts_witness :
  fst (generate_airspace_layers Sample.missing_file_error Sample.geojson_driver
         Sample.gdf_clip Sample.transform Sample.box (World ∅ ∅ []))
  = Raise (AttributeError "'NoneType' object has no attribute 'to_crs'").
Proof.
  assert (Hbad :
            read_result Sample.missing_file_error Sample.geojson_driver (World ∅ ∅ [])
              "data/Class_Airspace/Class_Airspace.shp"
            = Raise (Sample.missing_file_error "data/Class_Airspace/Class_Airspace.shp")
            \/ (exists g,
                  read_result Sample.missing_file_error Sample.geojson_driver (World ∅ ∅ [])
                    "data/Class_Airspace/Class_Airspace.shp"
                  = Ok g
                  /\ Sample.gdf_clip Sample.box g
                     = Raise (Sample.missing_file_error
                                "data/Class_Airspace/Class_Airspace.shp")))
    by (left; reflexivity).
  destruct (airspace_shapefile_unusable_aborts
              Sample.missing_file_error Sample.geojson_driver Sample.gdf_clip
              Sample.transform Sample.box (World ∅ ∅ []) _ Hbad) as [line Hrun].
  rewrite Hrun. reflexivity.
Defined.

(** Without network, in an empty output directory. *)
Lemma failed_aerodrome_request_aborts_merge_witness :
  fst ((_ ← fetch_aerodromes_and_runways Sample.repr_float Offline.requests_get_json
              Sample.process_osm_json Sample.box Sample.parsed;
        merge_aerodromes_and_runways Sample.missing_file_error Sample.geojson_driver
          Sample.sjoin_within) (World ∅ ∅ []))
  = Raise (Sample.missing_file_error (OUTPUT_DIR ++ "/aerodrome.geojson")).
Proof.
  assert (Hskip : skip_aerodromes Sample.parsed = false) by reflexivity.
  assert (Hreq : Offline.requests_get_json OVERPASS_URL
                   (geometry_query Sample.repr_float Sample.box "aerodrome")
                 = Raise (LibraryError "Max retries exceeded with url: /api/interpreter"))
    by reflexivity.
  assert (Habsent : files (World ∅ ∅ []) !! (OUTPUT_DIR ++ "/aerodrome.geojson") = None)
    by apply lookup_empty.
  destruct (failed_aerodrome_request_aborts_merge
              Sample.repr_float Sample.missing_file_error Sample.geojson_driver
              Offline.requests_get_json Sample.process_osm_json Sample.sjoin_within
              Sample.box Sample.parsed (World ∅ ∅ []) _ Hskip Hreq Habsent)
    as (w' & Hrun & _).
  rewrite Hrun. reflexivity.
Defined.

(** The sample run leaves the runways and no intermediate file. *)
Lemma completed_run_outputs_witness :
  let w' := snd (Sample.script Sample.command_line ∅ Sample.installed) in
  is_Some (files w' !! (OUTPUT_DIR ++ "/runway.geojson"))
  /\ files w' !! (OUTPUT_DIR ++ "/tmp_runway.geojson") = None.
Proof.
  intros w'.
  assert (Hrun : run Sample.float_of_string Sample.repr_float Sample.help_text
                     Sample.missing_file_error Sample.geojson_driver Sample.gdf_clip
                     Sample.transform Sample.requests_get_json Sample.process_osm_json
                     Sample.sjoin_within Sample.command_line ∅ Sample.installed
                 = (Completed, w')).
  { subst w'. destruct sample_run_completes as [Hfst _]. cbv zeta in Hfst.
    unfold Sample.script in *.
    destruct (run _ _ _ _ _ _ _ _ _ _ _ _ _) as [o w1]. cbn [fst snd] in *.
    rewrite Hfst. reflexivity. }
  destruct (completed_run_outputs
              Sample.float_of_string Sample.repr_float Sample.help_text
              Sample.missing_file_error Sample.geojson_driver Sample.gdf_clip
              Sample.transform Sample.requests_get_json Sample.process_osm_json
              Sample.sjoin_within Sample.command_line ∅ Sample.installed w' Hrun)
    as (a & _ & Hpresent & Hgone & _).
  split; [|exact Hgone]. apply Hpresent; [|discriminate].
  unfold outputs. apply in_or_app. right. apply in_or_app. right. simpl. tauto.
Defined.

(** [--origin-lat north --origin-lon -80.25]. *)
Lemma rejected_option_exits_with_status_2_witness :
  let r := Sample.script (Cli (Some "north") (Some "-80.25") None None None None None None)
                         ∅ Sample.installed in
  fst r = Exited 2 /\ files (snd r) = files Sample.installed /\ stdout (snd r) = [].
Proof.
  assert (Hparent : files Sample.installed !! "../public" = None) by (vm_compute; reflexivity).
  assert (Hdir : files Sample.installed !! OUTPUT_DIR = None) by (vm_compute; reflexivity).
  assert (Hbad : Sample.float_of_string "north" = None) by reflexivity.
  unfold Sample.script. cbv zeta.
  rewrite (rejected_option_exits_with_status_2
             Sample.float_of_string Sample.repr_float Sample.help_text
             Sample.missing_file_error Sample.geojson_driver Sample.gdf_clip
             Sample.transform Sample.requests_get_json Sample.process_osm_json
             Sample.sjoin_within
             (Cli (Some "north") (Some "-80.25") None None None None None None)
             ∅ Sample.installed "north" Hparent Hdir (or_introl eq_refl) Hbad).
  repeat split.
Defined.

(** [SKIES_ADSB_DEFAULT_ORIGIN_LATITUDE=north] with a command line
    that gives both coordinates. *)
Lemma unparsable_environment_origin_aborts_witness :
  let r := Sample.script Sample.command_line {[LATITUDE_VAR := "north"]} Sample.installed in
  (exists text, fst r = Uncaught (ValueError text))
  /\ files (snd r) = files Sample.installed /\ stdout (snd r) = [].
Proof.
  assert (Hparent : files Sample.installed !! "../public" = None) by (vm_compute; reflexivity).
  assert (Hdir : files Sample.installed !! OUTPUT_DIR = None) by (vm_compute; reflexivity).
  assert (Hparse : parse_args Sample.float_of_string Sample.command_line = inr Sample.parsed)
    by reflexivity.
  assert (Hlat : coordinate_given {[LATITUDE_VAR := "north"]} LATITUDE_VAR
                   (origin_lat Sample.parsed)) by (right; eexists; reflexivity).
  assert (Hlon : coordinate_given {[LATITUDE_VAR := "north"]} LONGITUDE_VAR
                   (origin_lon Sample.parsed)) by (right; eexists; reflexivity).
  assert (Henv : ({[LATITUDE_VAR := "north"]} : gmap string string) !! LATITUDE_VAR
                 = Some "north") by apply lookup_singleton_eq.
  assert (Hs : "north" <> EmptyString) by discriminate.
  assert (Hbad : Sample.float_of_string "north" = None) by reflexivity.
  destruct (unparsable_environment_origin_aborts
              Sample.float_of_string Sample.repr_float Sample.help_text
              Sample.missing_file_error Sample.geojson_driver Sample.gdf_clip
              Sample.transform Sample.requests_get_json Sample.process_osm_json
              Sample.sjoin_within Sample.command_line {[LATITUDE_VAR := "north"]}
              Sample.installed Sample.parsed LATITUDE_VAR "north"
              Hparent Hdir Hparse Hlat Hlon (or_introl eq_refl) Henv Hs Hbad) as [text Hrun].
  unfold Sample.script. cbv zeta. rewrite Hrun. split; [exists text; reflexivity|].
  split; reflexivity.
Defined.
